(** * The query / cache / export layer of the bible-study front end

    A shallow embedding of the TypeScript sources
      - [lib/api/geography]  (place listing, confidence levels, places cache),
      - [lib/api/sword]      (original-language lookups, verse cache),
      - [lib/components/SearchBar.svelte] (debounced search, exporters),
    together with the fragment of the JavaScript semantics they rely on:
    strings as sequences of UTF-16 code units, numbers as IEEE-754
    binary64 values, JSON values, exceptions as an error result. *)

From Stdlib Require Import ZArith NArith QArith Qround Qabs List String Ascii Bool Lia.
From Stdlib Require Import Floats.
From stdpp Require Import base option countable gmap.
Import ListNotations.

Local Open Scope Z_scope.

(* ===================================================================== *)
(** * JavaScript strings *)
(* ===================================================================== *)

(** A JavaScript string is a finite sequence of UTF-16 code units;
    [length] is the [.length] of the string. *)
Abbreviation jsstring := (list N).

Module JSString.

(** An ASCII literal of the source, as code units. *)
Definition lit (s : string) : jsstring :=
  List.map N_of_ascii (list_ascii_of_string s).

(** WhiteSpace and LineTerminator code units, the set that
    [String.prototype.trim] strips and that [\s] matches. *)
Definition isWhiteSpace (c : N) : bool :=
  ((9 <=? c) && (c <=? 13) || (c =? 32) || (c =? 160) || (c =? 5760)
   || (8192 <=? c) && (c <=? 8202) || (c =? 8232) || (c =? 8233)
   || (c =? 8239) || (c =? 8287) || (c =? 12288) || (c =? 65279))%N.

Fixpoint trimStart (s : jsstring) : jsstring :=
  match s with
  | c :: s' => if isWhiteSpace c then trimStart s' else s
  | [] => []
  end.

Definition trimEnd (s : jsstring) : jsstring := rev (trimStart (rev s)).

(** [s.trim()] *)
Definition trim (s : jsstring) : jsstring := trimEnd (trimStart s).

(** [parts.join(sep)] *)
Fixpoint join (sep : jsstring) (parts : list jsstring) : jsstring :=
  match parts with
  | [] => []
  | [p] => p
  | p :: ps => p ++ sep ++ join sep ps
  end.

(** [s.repeat(n)] *)
Fixpoint repeat (s : jsstring) (n : nat) : jsstring :=
  match n with
  | O => []
  | S n' => s ++ repeat s n'
  end.

(** [s.substring(0, n)] *)
Definition substring0 (n : nat) (s : jsstring) : jsstring := firstn n s.

(** [s.split(sep)] for a separator of one code unit: always at least
    one piece. *)
Fixpoint split (sep : N) (s : jsstring) : list jsstring :=
  match s with
  | [] => [[]]
  | c :: s' =>
      if N.eqb c sep then [] :: split sep s'
      else match split sep s' with
           | p :: ps => (c :: p) :: ps
           | [] => [[c]]
           end
  end.

(** The CSV escaping of a text, [s.replace] with the global pattern
    that matches one double quote (code unit 34) and the replacement
    made of two of them. *)
Fixpoint doubleQuotes (s : jsstring) : jsstring :=
  match s with
  | [] => []
  | c :: s' => if N.eqb c 34 then 34%N :: 34%N :: doubleQuotes s'
               else c :: doubleQuotes s'
  end.

(** [s.replace] with the global pattern [\s+] and an underscore as
    replacement: every maximal run of white space becomes one
    underscore (code unit 95). *)
Fixpoint collapseSpaces (s : jsstring) : jsstring :=
  match s with
  | [] => []
  | c :: s' =>
      if isWhiteSpace c then
        match s' with
        | c' :: _ => if isWhiteSpace c' then collapseSpaces s'
                     else 95%N :: collapseSpaces s'
        | [] => [95%N]
        end
      else c :: collapseSpaces s'
  end.

(** [s.toUpperCase()] on the Basic Latin block: [a]-[z] go to [A]-[Z].
    The sources apply it to translation identifiers only, which are
    ASCII; code units outside Basic Latin are left as they are. *)
Definition upperUnit (c : N) : N :=
  if ((97 <=? c) && (c <=? 122))%N then (c - 32)%N else c.

Definition toUpperCase (s : jsstring) : jsstring := List.map upperUnit s.

(** [s.includes(t)] *)
Fixpoint startsWith (t s : jsstring) : bool :=
  match t, s with
  | [], _ => true
  | a :: t', b :: s' => N.eqb a b && startsWith t' s'
  | _ :: _, [] => false
  end.

Fixpoint includes (t s : jsstring) : bool :=
  startsWith t s || match s with
                    | [] => false
                    | _ :: s' => includes t s'
                    end.

Definition eqb (s t : jsstring) : bool :=
  bool_decide (s = t).


End JSString.

(* ===================================================================== *)
(** * JavaScript numbers *)
(* ===================================================================== *)

(** A Number is an IEEE-754 binary64 value: Rocq's primitive [float].
    Counts and indices of arrays are natural numbers; their decimal
    rendering is [N_digits]. *)
Module JSNumber.
Import JSString.

Fixpoint uint_units (d : Decimal.uint) : jsstring :=
  match d with
  | Decimal.Nil => []
  | Decimal.D0 d => 48%N :: uint_units d
  | Decimal.D1 d => 49%N :: uint_units d
  | Decimal.D2 d => 50%N :: uint_units d
  | Decimal.D3 d => 51%N :: uint_units d
  | Decimal.D4 d => 52%N :: uint_units d
  | Decimal.D5 d => 53%N :: uint_units d
  | Decimal.D6 d => 54%N :: uint_units d
  | Decimal.D7 d => 55%N :: uint_units d
  | Decimal.D8 d => 56%N :: uint_units d
  | Decimal.D9 d => 57%N :: uint_units d
  end.

(** The decimal digits of a natural number, most significant first. *)
Definition N_digits (n : N) : jsstring := uint_units (N.to_uint n).

Definition nat_digits (n : nat) : jsstring := N_digits (N.of_nat n).

(** The rendering of an integral Number of magnitude below [10^21],
    such as a value of [Date.now()]. *)
Definition Z_digits (z : Z) : jsstring :=
  (if z <? 0 then lit "-" else []) ++ N_digits (Z.abs_N z).

Definition zeros (n : Z) : jsstring := JSString.repeat [48%N] (Z.to_nat n).

(** ** Number::toString, radix 10 *)

Definition Qlt_bool (a b : Q) : bool := negb (Qle_bool b a).

Section Finite.
(** A positive finite value [m * 2^e], as [Prim2SF] gives it: [m] has
    53 bits unless the value is subnormal, and [-1074 <= e]. *)
Variable m : positive.
Variable e : Z.

Definition value : Q := inject_Z (Z.pos m) * Qpower 2 e.

(** The reals that round to [m * 2^e] (to nearest, ties to even) lie
    between the midpoints to its two neighbours; the lower neighbour
    is half as far when [m] is the least mantissa of its binade. *)
Definition low : Q :=
  inject_Z (4 * Z.pos m
            - (if (Z.pos m =? 2 ^ 52) && (-1074 <? e) then 1 else 2))
  * Qpower 2 (e - 2).

Definition high : Q := inject_Z (4 * Z.pos m + 2) * Qpower 2 (e - 2).

Definition rounds_here (v : Q) : bool :=
  if Z.even (Z.pos m) then Qle_bool low v && Qle_bool v high
  else Qlt_bool low v && Qlt_bool v high.

(** [floor (log10 value)] up to a small error. *)
Definition exponent_estimate : Z :=
  ((Z.log2 (Z.pos m) + e) * 30103) / 100000.

(** The pairs [(s, n)] with [k] digits in [s] such that
    [s * 10^(n-k)] rounds to the value. *)
Definition candidates (k : Z) : list (Z * Z) :=
  flat_map
    (fun d : Z =>
       let n := exponent_estimate + d in
       let s0 := Qfloor (value / Qpower 10 (n - k)) in
       List.filter
         (fun sn : Z * Z =>
            (10 ^ (k - 1) <=? fst sn) && (fst sn <? 10 ^ k)
            && rounds_here (inject_Z (fst sn) * Qpower 10 (n - k)))
         [(s0, n); (s0 + 1, n)])
    [-1; 0; 1; 2; 3; 4].

Definition distance (k : Z) (sn : Z * Z) : Q :=
  Qabs (inject_Z (fst sn) * Qpower 10 (snd sn - k) - value).

(** The candidate closest to the value; of two equally close ones
    the even [s]. *)
Definition closer (k : Z) (a b : Z * Z) : Z * Z :=
  if Qlt_bool (distance k b) (distance k a) then b
  else if Qlt_bool (distance k a) (distance k b) then a
  else if Z.even (fst a) then a else b.

Definition best (k : Z) : option (Z * Z) :=
  match candidates k with
  | [] => None
  | c :: cs => Some (fold_left (closer k) cs c)
  end.

(** The least [k] that has a candidate; 17 digits always suffice for
    a binary64 value. *)
Fixpoint shortest_from (k : Z) (fuel : nat) : Z * Z * Z :=
  match fuel with
  | O => (k, 0, 0)
  | S fuel' =>
      match best k with
      | Some (s, n) => (k, s, n)
      | None => shortest_from (k + 1) fuel'
      end
  end.

Definition shortest : Z * Z * Z := shortest_from 1 17.
End Finite.

(** The exponent part [e+21], [e-7]. *)
Definition exponent_part (n : Z) : jsstring :=
  lit "e" ++ (if n - 1 <? 0 then lit "-" else lit "+")
          ++ N_digits (Z.to_N (Z.abs (n - 1))).

(** Steps 6 to 10 of Number::toString, from the digits of [s], their
    number [k] and the decimal exponent [n]. *)
Definition layout (k s n : Z) : jsstring :=
  let digits := N_digits (Z.to_N s) in
  if (k <=? n) && (n <=? 21) then digits ++ zeros (n - k)
  else if (0 <? n) && (n <=? 21) then
    firstn (Z.to_nat n) digits ++ lit "." ++ skipn (Z.to_nat n) digits
  else if (-6 <? n) && (n <=? 0) then
    lit "0." ++ zeros (- n) ++ digits
  else if k =? 1 then digits ++ exponent_part n
  else firstn 1 digits ++ lit "." ++ skipn 1 digits ++ exponent_part n.

Definition finite_toString (m : positive) (e : Z) : jsstring :=
  let '(k, s, n) := shortest m e in layout k s n.

(** [String(x)], [x.toString()] and the interpolation of [x] in a
    template literal. *)
Definition toString (x : float) : jsstring :=
  match Prim2SF x with
  | S754_nan => lit "NaN"
  | S754_zero _ => lit "0"
  | S754_infinity false => lit "Infinity"
  | S754_infinity true => lit "-Infinity"
  | S754_finite sign m e =>
      (if sign then lit "-" else []) ++ finite_toString m e
  end.

(** [x.toFixed(0)]: the integer nearest to [x], halves away from zero,
    in decimal digits; values of magnitude [10^21] and above, and the
    values that are not finite, are printed as [toString] prints them. *)
Definition nearest_integer (m : positive) (e : Z) : Z :=
  if 0 <=? e then Z.pos m * 2 ^ e
  else (2 * Z.pos m + 2 ^ (- e)) / 2 ^ (1 - e).

Definition toFixed0 (x : float) : jsstring :=
  match Prim2SF x with
  | S754_nan => lit "NaN"
  | S754_zero _ => lit "0"
  | S754_infinity false => lit "Infinity"
  | S754_infinity true => lit "-Infinity"
  | S754_finite sign m e =>
      (if sign then lit "-" else [])
      ++ (if Qle_bool (inject_Z (10 ^ 21)) (value m e)
          then finite_toString m e
          else N_digits (Z.to_N (nearest_integer m e)))
  end.

(** Truthiness of a number: [NaN], [0] and [-0] are falsy. *)
Definition truthy (x : float) : bool :=
  match Prim2SF x with
  | S754_nan | S754_zero _ => false
  | _ => true
  end.

(** The Number of an array length or index. *)
Definition of_nat (n : nat) : float :=
  PrimFloat.of_uint63 (Uint63.of_Z (Z.of_nat n)).

(** The code units that the rendering of a Number is made of: the
    digits, the point, the signs, the exponent mark and the letters of
    [NaN] and [Infinity]. *)
Definition numberUnit (c : N) : bool :=
  existsb (N.eqb c) (lit "0123456789.e+-NaInfity").

End JSNumber.

(* ===================================================================== *)
(** * JavaScript values and exceptions *)
(* ===================================================================== *)

(** The values that [response.json()] can produce, and [undefined]. *)
#[local] Unset Elimination Schemes.
Inductive JSValue : Type :=
| JUndefined
| JNull
| JBool (b : bool)
| JNum (x : float)
| JStr (s : jsstring)
| JArr (items : list JSValue)
| JObj (fields : list (jsstring * JSValue)).
#[local] Set Elimination Schemes.

(** What a [throw] carries: an [Error] made by the code with its message,
    an error raised by the engine (a [TypeError] on a bad property access
    or call, a [SyntaxError] of [json()]; both are instances of [Error]),
    or a value that is no instance of [Error]. *)
Inductive Exn : Type :=
| ErrorOf (message : jsstring)
| TypeError
| SyntaxError
| NotAnError (v : JSValue).

Inductive Result (A : Type) : Type :=
| Ok (a : A)
| Throw (e : Exn).
Arguments Ok {A} a.
Arguments Throw {A} e.

Definition bindR {A B : Type} (r : Result A) (k : A -> Result B) : Result B :=
  match r with
  | Ok a => k a
  | Throw e => Throw e
  end.

Notation "'try!' x <- r ; k" := (bindR r (fun x => k))
  (at level 10, x name, r at level 100, k at level 200).

Fixpoint mapR {A B : Type} (f : A -> Result B) (l : list A) : Result (list B) :=
  match l with
  | [] => Ok []
  | a :: l' => try! b <- f a; try! bs <- mapR f l'; Ok (b :: bs)
  end.

Fixpoint filterR {A : Type} (f : A -> Result bool) (l : list A) : Result (list A) :=
  match l with
  | [] => Ok []
  | a :: l' =>
      try! keep <- f a; try! rest <- filterR f l';
      Ok (if keep then a :: rest else rest)
  end.

Module JS.
Import JSString.

(** [e instanceof Error] *)
Definition instanceofError (e : Exn) : bool :=
  match e with
  | NotAnError _ => false
  | _ => true
  end.

(** ToBoolean *)
Definition truthy (v : JSValue) : bool :=
  match v with
  | JUndefined | JNull => false
  | JBool b => b
  | JNum x => JSNumber.truthy x
  | JStr s => match s with [] => false | _ => true end
  | JArr _ | JObj _ => true
  end.

(** [a || b] *)
Definition or (a b : JSValue) : JSValue := if truthy a then a else b.

Fixpoint lookup (name : jsstring) (fields : list (jsstring * JSValue)) : JSValue :=
  match fields with
  | [] => JUndefined
  | (k, v) :: fields' => if JSString.eqb k name then v else lookup name fields'
  end.

(** [v.name], for the property names the sources read from parsed JSON
    ([documents], [total], [metadata], [id], [name], ...): they are own
    properties of objects only, so every other value that can have
    properties gives [undefined]; [null] and [undefined] raise. *)
Definition prop (v : JSValue) (name : string) : Result JSValue :=
  match v with
  | JUndefined | JNull => Throw TypeError
  | JObj fields => Ok (lookup (lit name) fields)
  | _ => Ok JUndefined
  end.

(** [v?.name] *)
Definition optProp (v : JSValue) (name : string) : JSValue :=
  match v with
  | JObj fields => lookup (lit name) fields
  | _ => JUndefined
  end.

(** [v === s] for a string literal [s] *)
Definition strictEqStr (v : JSValue) (s : string) : bool :=
  match v with
  | JStr t => JSString.eqb t (lit s)
  | _ => false
  end.

(** [v.split(sep)]: only strings have the method. *)
Definition callSplit (v : JSValue) (sep : N) : Result (list jsstring) :=
  match v with
  | JStr s => Ok (split sep s)
  | _ => Throw TypeError
  end.

(** [arr.slice(start, end)] for integral arguments. *)
Definition sliceIndex (len i : Z) : Z :=
  if i <? 0 then Z.max (len + i) 0 else Z.min i len.

Definition slice {A : Type} (l : list A) (start stop : Z) : list A :=
  let len := Z.of_nat (length l) in
  let k := sliceIndex len start in
  let final := sliceIndex len stop in
  firstn (Z.to_nat (final - k)) (skipn (Z.to_nat k) l).

End JS.

(* ===================================================================== *)
(** * The HTTP collaborator *)
(* ===================================================================== *)

Module Http.

(** What the collaborator does with a request: the promise of [fetch]
    rejects, or it resolves to a response with a status whose
    [json()] resolves to a value or rejects. *)
Inductive FetchOutcome : Type :=
| Rejects (e : Exn)
| Responds (status : N) (json : Result JSValue).

(** [response.ok] *)
Definition ok (status : N) : bool := ((200 <=? status) && (status <=? 299))%N.

End Http.

(* ===================================================================== *)
(** * lib/api/geography *)
(* ===================================================================== *)

Module Geography.
Import JSString Http.

Inductive ConfidenceLevel : Type := high | moderate | low.

(** [getConfidenceLevel] *)
Definition getConfidenceLevel (score : float) : ConfidenceLevel :=
  if (300 <=? score)%float then high
  else if (80 <=? score)%float then moderate
  else low.

(** [getConfidenceColor] *)
Definition getConfidenceColor (level : ConfidenceLevel) : jsstring :=
  match level with
  | high => lit "#22c55e"
  | moderate => lit "#eab308"
  | low => lit "#ef4444"
  end.

Definition levelName (level : ConfidenceLevel) : jsstring :=
  match level with
  | high => lit "high"
  | moderate => lit "moderate"
  | low => lit "low"
  end.

(** [interface BiblicalPlace]; the fields that the transformation
    copies from the document are whatever JSON values it holds. *)
Record BiblicalPlace : Type := {
  id : JSValue;
  document_id : JSValue;
  name : JSValue;
  latitude : float;
  longitude : float;
  place_type : JSValue;
  confidence_score : float;
  confidence_level : ConfidenceLevel;
  verse_references : JSValue;
  alternate_names : JSValue;
  content : JSValue
}.

(** [interface PlacesResponse] *)
Record PlacesResponse : Type := {
  places : list BiblicalPlace;
  total : JSValue
}.

(** [interface SearchPlacesParams]; [None] is an absent (undefined)
    member. *)
Record SearchPlacesParams : Type := {
  query : option jsstring;
  placeType : option jsstring;
  confidenceLevel : option ConfidenceLevel;
  limit : option Z;
  offset : option Z
}.

(** [let placesCache: { data; timestamp } | null] *)
Record CacheEntry : Type := {
  data : list BiblicalPlace;
  timestamp : Z
}.

(** [const CACHE_TTL = 10 * 60 * 1000] *)
Definition CACHE_TTL : Z := 10 * 60 * 1000.

(** The cache test of [fetchBiblicalPlaces]:
    [placesCache && Date.now() - placesCache.timestamp < CACHE_TTL],
    giving [placesCache.data]. *)
Definition cacheGet (placesCache : option CacheEntry) (now : Z)
  : option (list BiblicalPlace) :=
  match placesCache with
  | Some entry =>
      if now - timestamp entry <? CACHE_TTL then Some (data entry) else None
  | None => None
  end.

(** [placesCache = { data: allPlaces, timestamp: Date.now() }] *)
Definition cachePut (allPlaces : list BiblicalPlace) (now : Z)
  : option CacheEntry :=
  Some {| data := allPlaces; timestamp := now |}.

(** A call of [fetch(url, { method, headers })]. *)
Record Request : Type := {
  url : jsstring;
  method : jsstring;
  headers : list (jsstring * jsstring)
}.

(** Truthiness of an optional string member: absent and empty are
    falsy. *)
Definition supplied (s : option jsstring) : bool :=
  match s with
  | Some (_ :: _) => true
  | _ => false
  end.

(** Every confidence level is a non-empty string. *)
Definition suppliedLevel (l : option ConfidenceLevel) : bool :=
  match l with
  | Some _ => true
  | None => false
  end.

(** What the pattern [^([^:]+)] captures: the longest prefix without a
    colon (code unit 58); there is no match when it is empty. *)
Fixpoint notColonPrefix (s : jsstring) : jsstring :=
  match s with
  | c :: s' => if N.eqb c 58 then [] else c :: notColonPrefix s'
  | [] => []
  end.

(** [extractNameFromContent] *)
Definition extractNameFromContent (content : JSValue) : Result JSValue :=
  if negb (JS.truthy content) then Ok (JStr (lit "Unknown Place"))
  else
    try! pieces <- JS.callSplit content 10;
    let firstLine := List.hd [] pieces in
    match notColonPrefix firstLine with
    | [] => Ok (JStr (substring0 50 firstLine))
    | m1 => Ok (JStr (trim m1))
    end.

Section Api.
(** The environment setting [VITE_PRISM_API_URL]. *)
Variable VITE_PRISM_API_URL : option jsstring.
(** The global [parseFloat], on a JSON value. *)
Variable parseFloat : JSValue -> float.

Definition PRISM_API_URL : jsstring :=
  if supplied VITE_PRISM_API_URL
  then default [] VITE_PRISM_API_URL
  else lit "http://localhost:8100".

(** [parseFloat(v) || 0] *)
Definition parseFloatOr0 (v : JSValue) : float :=
  let x := parseFloat v in
  if JSNumber.truthy x then x else 0%float.

(** [Array.isArray(v) ? v : (v || '').split(',').filter(Boolean)] *)
Definition stringList (v : JSValue) : Result JSValue :=
  match v with
  | JArr _ => Ok v
  | _ =>
      try! pieces <- JS.callSplit (JS.or v (JStr [])) 44;
      Ok (JArr (List.map JStr
                  (List.filter (fun p => match p with [] => false | _ => true end)
                               pieces)))
  end.

(** [transformDocumentToPlace] *)
Definition transformDocumentToPlace (doc : JSValue) : Result BiblicalPlace :=
  try! md <- JS.prop doc "metadata";
  let metadata := JS.or md (JObj []) in
  try! doc_id <- JS.prop doc "id";
  try! doc_document_id <- JS.prop doc "document_id";
  try! md_name <- JS.prop metadata "name";
  try! doc_content <- JS.prop doc "content";
  try! the_name <- (if JS.truthy md_name then Ok md_name
                    else extractNameFromContent doc_content);
  try! md_latitude <- JS.prop metadata "latitude";
  try! md_longitude <- JS.prop metadata "longitude";
  try! md_place_type <- JS.prop metadata "place_type";
  try! md_confidence <- JS.prop metadata "confidence";
  try! md_verse_references <- JS.prop metadata "verse_references";
  try! refs <- stringList md_verse_references;
  try! md_alternate_names <- JS.prop metadata "alternate_names";
  try! alts <- stringList md_alternate_names;
  Ok {| id := JS.or doc_id doc_document_id;
        document_id := JS.or doc_document_id doc_id;
        name := the_name;
        latitude := parseFloatOr0 md_latitude;
        longitude := parseFloatOr0 md_longitude;
        place_type := JS.or md_place_type (JStr (lit "unknown"));
        confidence_score := parseFloatOr0 md_confidence;
        confidence_level := getConfidenceLevel (parseFloatOr0 md_confidence);
        verse_references := refs;
        alternate_names := alts;
        content := JS.or doc_content (JStr []) |}.

(** The metadata filter object that [fetchBiblicalPlaces] builds from
    its parameters, as its list of keys and compared values. *)
Definition buildFilters (placeType : option jsstring)
           (confidenceLevel : option ConfidenceLevel)
  : list (jsstring * jsstring) :=
  [(lit "metadata.domain", lit "geography/biblical")]
  ++ (if supplied placeType
      then [(lit "metadata.place_type", default [] placeType)] else [])
  ++ (if suppliedLevel confidenceLevel
      then [(lit "metadata.confidence_level",
             from_option levelName [] confidenceLevel)] else []).

(** [doc.metadata?.domain === 'geography/biblical'] *)
Definition inDomain (doc : JSValue) : Result bool :=
  try! md <- JS.prop doc "metadata";
  Ok (JS.strictEqStr (JS.optProp md "domain") "geography/biblical").

(** [data.documents.filter(...).map(...)] *)
Definition allPlacesOf (data : JSValue) : Result (list BiblicalPlace) :=
  try! documents <- JS.prop data "documents";
  match documents with
  | JArr docs =>
      try! kept <- filterR inDomain docs;
      mapR transformDocumentToPlace kept
  | _ => Throw TypeError
  end.

(** The message of the error thrown for a response that is not ok. *)
Definition statusError (status : N) : Exn :=
  if N.eqb status 404 then
    ErrorOf (lit "Geography data not found. Please ensure biblical places have been imported into Prism.")
  else if N.eqb status 503 then
    ErrorOf (lit "Prism API is unavailable. Please check that the service is running.")
  else
    ErrorOf (lit "Failed to load geography data (HTTP "
             ++ JSNumber.N_digits status
             ++ lit "). Check API logs for details.").

(** The [catch] clause: an [Error] is thrown again as it is, anything
    else is replaced. *)
Definition rethrow (e : Exn) : Exn :=
  if JS.instanceofError e then e
  else ErrorOf (lit "Network error. Please check your connection and try again.").

(** The outcome of one call: the settled promise, the variable
    [placesCache] afterwards, and the requests issued. *)
Record Run : Type := {
  result : Result PlacesResponse;
  cache_after : option CacheEntry;
  requests : list Request
}.

(** The request of [fetchBiblicalPlaces]: a plain GET of the document
    listing. *)
Definition documentsRequest : Request :=
  {| url := PRISM_API_URL ++ lit "/api/v1/documents";
     method := lit "GET";
     headers := [(lit "Content-Type", lit "application/json")] |}.

(** The body of the [try] statement of [fetchBiblicalPlaces] with its
    [catch] clause.  [now_store] is the value of [Date.now()] at the
    cache store. *)
Definition fetchFresh (params : SearchPlacesParams)
           (placesCache : option CacheEntry) (now_store : Z)
           (outcome : FetchOutcome) : Run :=
  let limit := default 100 (limit params) in
  let offset := default 0 (offset params) in
  let placeType := placeType params in
  let confidenceLevel := confidenceLevel params in
  let filters := buildFilters placeType confidenceLevel in
  let failed (e : Exn) (cache : option CacheEntry) :=
    {| result := Throw (rethrow e);
       cache_after := cache;
       requests := [documentsRequest] |} in
  match outcome with
  | Rejects e => failed e placesCache
  | Responds status json =>
      if negb (ok status) then failed (statusError status) placesCache
      else
        match json with
        | Throw e => failed e placesCache
        | Ok data =>
            match allPlacesOf data with
            | Throw e => failed e placesCache
            | Ok allPlaces =>
                let cache' :=
                  if negb (supplied placeType) && negb (suppliedLevel confidenceLevel)
                  then cachePut allPlaces now_store
                  else placesCache in
                let places := JS.slice allPlaces offset (offset + limit) in
                match JS.prop data "total" with
                | Throw e => failed e cache'
                | Ok data_total =>
                    {| result :=
                         Ok {| places := places;
                               total := JS.or data_total
                                          (JNum (JSNumber.of_nat (length allPlaces))) |};
                       cache_after := cache';
                       requests := [documentsRequest] |}
                end
            end
        end
  end.

(** [fetchBiblicalPlaces].  [now_check] is the value of [Date.now()]
    at the cache test. *)
Definition fetchBiblicalPlaces (params : SearchPlacesParams)
           (placesCache : option CacheEntry) (now_check now_store : Z)
           (outcome : FetchOutcome) : Run :=
  let limit := default 100 (limit params) in
  let offset := default 0 (offset params) in
  let placeType := placeType params in
  let confidenceLevel := confidenceLevel params in
  match (if negb (supplied placeType) && negb (suppliedLevel confidenceLevel)
         then cacheGet placesCache now_check else None) with
  | Some cached =>
      {| result := Ok {| places := JS.slice cached offset (offset + limit);
                         total := JNum (JSNumber.of_nat (length cached)) |};
         cache_after := placesCache;
         requests := [] |}
  | None => fetchFresh params placesCache now_store outcome
  end.

(** [getPlacesByType] *)
Definition getPlacesByType (placeType : jsstring) (limit : option Z)
           (placesCache : option CacheEntry) (now_check now_store : Z)
           (outcome : FetchOutcome) : Result (list BiblicalPlace) * Run :=
  let run :=
    fetchBiblicalPlaces
      {| query := None; placeType := Some placeType; confidenceLevel := None;
         limit := Some (default 50 limit); offset := None |}
      placesCache now_check now_store outcome in
  (bindR (result run) (fun response => Ok (places response)), run).

(** The request of [getPlaceDetails]: the document id is interpolated
    in the path as it is. *)
Definition detailsRequest (documentId : jsstring) : Request :=
  {| url := PRISM_API_URL ++ lit "/api/v1/documents/" ++ documentId;
     method := lit "GET";
     headers := [(lit "Content-Type", lit "application/json")] |}.

(** [getPlaceDetails]: the settled promise ([None] is [null]) and the
    request issued.  The [catch] clause throws what it caught. *)
Definition getPlaceDetails (documentId : jsstring) (outcome : FetchOutcome)
  : Result (option BiblicalPlace) * list Request :=
  (match outcome with
   | Rejects e => Throw e
   | Responds status json =>
       if negb (ok status) then
         if N.eqb status 404 then Ok None
         else Throw (ErrorOf (lit "HTTP error! status: " ++ JSNumber.N_digits status))
       else
         match json with
         | Throw e => Throw e
         | Ok doc => try! place <- transformDocumentToPlace doc; Ok (Some place)
         end
   end,
   [detailsRequest documentId]).

End Api.

(** The numbers of a place are numbers ([NaN] is none of them) and its
    level is the level of its score. *)
Definition wellFormed (p : BiblicalPlace) : Prop :=
  Prim2SF (latitude p) <> S754_nan
  /\ Prim2SF (longitude p) <> S754_nan
  /\ Prim2SF (confidence_score p) <> S754_nan
  /\ confidence_level p = getConfidenceLevel (confidence_score p).

End Geography.

(* ===================================================================== *)
(** * lib/api/sword *)
(* ===================================================================== *)

Module Sword.
Import JSString Http.

(** [const USE_MOCK_DATA = true] *)
Definition USE_MOCK_DATA : bool := true.

(** [const CACHE_TTL = 30 * 60 * 1000] *)
Definition CACHE_TTL : Z := 30 * 60 * 1000.

Inductive Language : Type := hebrew | greek.

Inductive Testament : Type := OT | NT.

(** [interface VerseText] *)
Record VerseText : Type := {
  original_text : jsstring;
  vt_language : Language;
  strongs_numbers : option (list jsstring);
  vt_book : jsstring;
  vt_chapter : float;
  vt_verse : float;
  translation : option jsstring
}.

(** [interface InterlinearWord] *)
Record InterlinearWord : Type := {
  original : jsstring;
  transliteration : jsstring;
  gloss : jsstring;
  strongs : option jsstring;
  morphology : option jsstring
}.

(** [interface InterlinearVerse] *)
Record InterlinearVerse : Type := {
  words : list InterlinearWord;
  iv_book : jsstring;
  iv_chapter : float;
  iv_verse : float;
  iv_language : Language
}.

(** What a lookup resolves to, and what the cache holds under
    [data: any]: a verse or an interlinear verse made by the mock
    provider, or the JSON of a response; [null] is [Json JNull]. *)
Inductive Payload : Type :=
| Verse (v : VerseText)
| Interlinear (v : InterlinearVerse)
| Json (v : JSValue).

(** A value of [verseCache: Map<string, { data; timestamp }>]. *)
Record Entry : Type := {
  data : Payload;
  timestamp : Z
}.

(** The provider that a lookup reaches when it does not answer from
    the cache: a mock generator, or an endpoint with the posted
    [{ book, chapter, verse }]. *)
Inductive Lookup : Type :=
| MockHebrew (book : jsstring) (chapter verse : float)
| MockGreek (book : jsstring) (chapter verse : float)
| MockInterlinear (book : jsstring) (chapter verse : float)
| Post (endpoint : jsstring) (book : jsstring) (chapter verse : float).

(** The table [samples] of [getMockHebrewText], as UTF-16 code units. *)
Definition hebrewSamples : list (jsstring * jsstring) :=
  [ (lit "Genesis:1:1",
     [1489; 1456; 1468; 1512; 1461; 1488; 1513; 1460; 1473; 1497; 1514; 32;
      1489; 1464; 1468; 1512; 1464; 1488; 32; 1488; 1457; 1500; 1465; 1492;
      1460; 1497; 1501; 32; 1488; 1461; 1514; 32; 1492; 1463; 1513; 1464;
      1468; 1473; 1502; 1463; 1497; 1460; 1501; 32; 1493; 1456; 1488; 1461;
      1514; 32; 1492; 1464; 1488; 1464; 1512; 1462; 1509]%N);
    (lit "Genesis:1:2",
     [1493; 1456; 1492; 1464; 1488; 1464; 1512; 1462; 1509; 32; 1492; 1464;
      1497; 1456; 1514; 1464; 1492; 32; 1514; 1465; 1492; 1493; 1468; 32;
      1493; 1464; 1489; 1465; 1492; 1493; 1468; 32; 1493; 1456; 1495; 1465;
      1513; 1462; 1473; 1498; 1456; 32; 1506; 1463; 1500; 1470; 1508; 1456;
      1468; 1504; 1461; 1497; 32; 1514; 1456; 1492; 1493; 1465; 1501; 32;
      1493; 1456; 1512; 1493; 1468; 1495; 1463; 32; 1488; 1457; 1500; 1465;
      1492; 1460; 1497; 1501; 32; 1502; 1456; 1512; 1463; 1495; 1462; 1508;
      1462; 1514; 32; 1506; 1463; 1500; 1470; 1508; 1456; 1468; 1504; 1461;
      1497; 32; 1492; 1463; 1502; 1464; 1468; 1497; 1460; 1501]%N);
    (lit "Psalms:23:1",
     [1497; 1456; 1492; 1493; 1464; 1492; 32; 1512; 1465; 1506; 1460; 1497;
      32; 1500; 1465; 1488; 32; 1488; 1462; 1495; 1456; 1505; 1464; 1512]%N);
    (lit "Psalms:23:2",
     [1489; 1460; 1468; 1504; 1456; 1488; 1493; 1465; 1514; 32; 1491; 1462;
      1468; 1513; 1462; 1473; 1488; 32; 1497; 1463; 1512; 1456; 1489; 1460;
      1468; 1497; 1510; 1461; 1504; 1460; 1497; 32; 1506; 1463; 1500; 1470;
      1502; 1461; 1497; 32; 1502; 1456; 1504; 1467; 1495; 1493; 1465; 1514;
      32; 1497; 1456; 1504; 1463; 1492; 1458; 1500; 1461; 1504; 1460; 1497]%N) ].

Definition hebrewDefault : jsstring :=
  [1489; 1456; 1468; 1512; 1461; 1488; 1513; 1460; 1473; 1497; 1514; 32;
      1489; 1464; 1468; 1512; 1464; 1488; 32; 1488; 1457; 1500; 1465; 1492;
      1460; 1497; 1501]%N.

(** The table [samples] of [getMockGreekText], as UTF-16 code units. *)
Definition greekSamples : list (jsstring * jsstring) :=
  [ (lit "John:1:1",
     [7960; 957; 32; 7936; 961; 967; 8135; 32; 7974; 957; 32; 8001;
      32; 955; 972; 947; 959; 962; 32; 954; 945; 8054; 32; 8001;
      32; 955; 972; 947; 959; 962; 32; 7974; 957; 32; 960; 961;
      8056; 962; 32; 964; 8056; 957; 32; 952; 949; 972; 957; 32;
      954; 945; 8054; 32; 952; 949; 8056; 962; 32; 7974; 957; 32;
      8001; 32; 955; 972; 947; 959; 962]%N);
    (lit "John:1:2",
     [959; 8023; 964; 959; 962; 32; 7974; 957; 32; 7952; 957; 32;
      7936; 961; 967; 8135; 32; 960; 961; 8056; 962; 32; 964; 8056;
      957; 32; 952; 949; 972; 957]%N);
    (lit "John:3:16",
     [927; 8021; 964; 969; 962; 32; 947; 8048; 961; 32; 7968; 947;
      940; 960; 951; 963; 949; 957; 32; 8001; 32; 952; 949; 8056;
      962; 32; 964; 8056; 957; 32; 954; 972; 963; 956; 959; 957;
      32; 8037; 963; 964; 949; 32; 964; 8056; 957; 32; 965; 7985;
      8056; 957; 32; 964; 8056; 957; 32; 956; 959; 957; 959; 947;
      949; 957; 8134; 32; 7956; 948; 969; 954; 949; 957]%N);
    (lit "Matthew:1:1",
     [914; 943; 946; 955; 959; 962; 32; 947; 949; 957; 941; 963;
      949; 969; 962; 32; 7992; 951; 963; 959; 8166; 32; 935; 961;
      953; 963; 964; 959; 8166; 32; 965; 7985; 959; 8166; 32; 916;
      945; 965; 8054; 948; 32; 965; 7985; 959; 8166; 32; 7944; 946;
      961; 945; 940; 956]%N) ].

Definition greekDefault : jsstring :=
  [7960; 957; 32; 7936; 961; 967; 8135; 32; 7974; 957; 32; 8001;
      32; 955; 972; 947; 959; 962]%N.

Definition hebrewWords : list InterlinearWord :=
  [ {| original := [1489; 1456; 1468; 1512; 1461; 1488; 1513; 1460; 1473; 1497; 1514]%N;
       transliteration := [98; 601; 114; 275; 353; 238; 7791]%N;
       gloss := lit "in-beginning"; strongs := Some (lit "H7225"); morphology := None |};
    {| original := [1489; 1464; 1468; 1512; 1464; 1488]%N;
       transliteration := [98; 257; 114; 257]%N;
       gloss := lit "he-created"; strongs := Some (lit "H1254"); morphology := None |};
    {| original := [1488; 1457; 1500; 1465; 1492; 1460; 1497; 1501]%N;
       transliteration := [702; 277; 108; 333; 104; 238; 109]%N;
       gloss := lit "God"; strongs := Some (lit "H430"); morphology := None |};
    {| original := [1488; 1461; 1514]%N;
       transliteration := [702; 275; 7791]%N;
       gloss := lit "(obj)"; strongs := Some (lit "H853"); morphology := None |};
    {| original := [1492; 1463; 1513; 1464; 1468; 1473; 1502; 1463; 1497; 1460; 1501]%N;
       transliteration := [104; 97; 353; 45; 353; 257; 109; 97; 121; 105; 109]%N;
       gloss := lit "the-heavens"; strongs := Some (lit "H8064"); morphology := None |};
    {| original := [1493; 1456; 1488; 1461; 1514]%N;
       transliteration := [119; 601; 45; 702; 275; 7791]%N;
       gloss := lit "and-(obj)"; strongs := Some (lit "H853"); morphology := None |};
    {| original := [1492; 1464; 1488; 1464; 1512; 1462; 1509]%N;
       transliteration := [104; 257; 45; 702; 257; 114; 101; 7779]%N;
       gloss := lit "the-earth"; strongs := Some (lit "H776"); morphology := None |} ].

Definition greekWords : list InterlinearWord :=
  [ {| original := [7960; 957]%N;
       transliteration := lit "En";
       gloss := lit "In"; strongs := Some (lit "G1722"); morphology := None |};
    {| original := [7936; 961; 967; 8135]%N;
       transliteration := [97; 114; 99; 104; 275]%N;
       gloss := lit "beginning"; strongs := Some (lit "G746"); morphology := None |};
    {| original := [7974; 957]%N;
       transliteration := [275; 110]%N;
       gloss := lit "was"; strongs := Some (lit "G1510"); morphology := None |};
    {| original := [8001]%N;
       transliteration := lit "ho";
       gloss := lit "the"; strongs := Some (lit "G3588"); morphology := None |};
    {| original := [955; 972; 947; 959; 962]%N;
       transliteration := lit "logos";
       gloss := lit "Word"; strongs := Some (lit "G3056"); morphology := None |};
    {| original := [954; 945; 8054]%N;
       transliteration := lit "kai";
       gloss := lit "and"; strongs := Some (lit "G2532"); morphology := None |};
    {| original := [8001]%N;
       transliteration := lit "ho";
       gloss := lit "the"; strongs := Some (lit "G3588"); morphology := None |};
    {| original := [955; 972; 947; 959; 962]%N;
       transliteration := lit "logos";
       gloss := lit "Word"; strongs := Some (lit "G3056"); morphology := None |};
    {| original := [7974; 957]%N;
       transliteration := [275; 110]%N;
       gloss := lit "was"; strongs := Some (lit "G1510"); morphology := None |};
    {| original := [960; 961; 8056; 962]%N;
       transliteration := lit "pros";
       gloss := lit "with"; strongs := Some (lit "G4314"); morphology := None |};
    {| original := [964; 8056; 957]%N;
       transliteration := lit "ton";
       gloss := lit "the"; strongs := Some (lit "G3588"); morphology := None |};
    {| original := [952; 949; 972; 957]%N;
       transliteration := lit "theon";
       gloss := lit "God"; strongs := Some (lit "G2316"); morphology := None |} ].

Definition OT_BOOKS : list jsstring :=
  List.map lit
    [ "Genesis"; "Exodus"; "Leviticus"; "Numbers"; "Deuteronomy";
      "Joshua"; "Judges"; "Ruth"; "1 Samuel"; "2 Samuel";
      "1 Kings"; "2 Kings"; "1 Chronicles"; "2 Chronicles"; "Ezra";
      "Nehemiah"; "Esther"; "Job"; "Psalms"; "Proverbs";
      "Ecclesiastes"; "Song of Songs"; "Isaiah"; "Jeremiah"; "Lamentations";
      "Ezekiel"; "Daniel"; "Hosea"; "Joel"; "Amos";
      "Obadiah"; "Jonah"; "Micah"; "Nahum"; "Habakkuk";
      "Zephaniah"; "Haggai"; "Zechariah"; "Malachi" ]%string.

Definition NT_BOOKS : list jsstring :=
  List.map lit
    [ "Matthew"; "Mark"; "Luke"; "John"; "Acts";
      "Romans"; "1 Corinthians"; "2 Corinthians"; "Galatians"; "Ephesians";
      "Philippians"; "Colossians"; "1 Thessalonians"; "2 Thessalonians"; "1 Timothy";
      "2 Timothy"; "Titus"; "Philemon"; "Hebrews"; "James";
      "1 Peter"; "2 Peter"; "1 John"; "2 John"; "3 John";
      "Jude"; "Revelation" ]%string.

(** [samples[key] || fallback]: every key has two colons, so only the
    own properties of the table can match. *)
Fixpoint sample (key : jsstring) (samples : list (jsstring * jsstring))
         (fallback : jsstring) : jsstring :=
  match samples with
  | [] => fallback
  | (k, v) :: rest => if JSString.eqb k key then v else sample key rest fallback
  end.

Definition sampleKey (book : jsstring) (chapter verse : float) : jsstring :=
  book ++ lit ":" ++ JSNumber.toString chapter ++ lit ":" ++ JSNumber.toString verse.

(** [getMockHebrewText] *)
Definition getMockHebrewText (book : jsstring) (chapter verse : float) : VerseText :=
  {| original_text := sample (sampleKey book chapter verse) hebrewSamples hebrewDefault;
     vt_language := hebrew;
     vt_book := book;
     vt_chapter := chapter;
     vt_verse := verse;
     translation := Some (lit "In the beginning God created...");
     strongs_numbers := Some (List.map lit ["H7225"; "H1254"; "H430"]%string) |}.

(** [getMockGreekText] *)
Definition getMockGreekText (book : jsstring) (chapter verse : float) : VerseText :=
  {| original_text := sample (sampleKey book chapter verse) greekSamples greekDefault;
     vt_language := greek;
     vt_book := book;
     vt_chapter := chapter;
     vt_verse := verse;
     translation := Some (lit "In the beginning was the Word...");
     strongs_numbers := Some (List.map lit ["G1722"; "G746"; "G1510"; "G3056"]%string) |}.

(** [arr.includes(book)] *)
Definition includesBook (books : list jsstring) (book : jsstring) : bool :=
  existsb (JSString.eqb book) books.

(** [getTestament] *)
Definition getTestament (book : jsstring) : option Testament :=
  if includesBook OT_BOOKS book then Some OT
  else if includesBook NT_BOOKS book then Some NT
  else None.

(** [getLanguage] *)
Definition getLanguage (book : jsstring) : option Language :=
  match getTestament book with
  | Some OT => Some hebrew
  | Some NT => Some greek
  | None => None
  end.

(** [getMockInterlinear] *)
Definition getMockInterlinear (book : jsstring) (chapter verse : float)
  : InterlinearVerse :=
  match getTestament book with
  | Some OT =>
      {| iv_book := book; iv_chapter := chapter; iv_verse := verse;
         iv_language := hebrew; words := hebrewWords |}
  | _ =>
      {| iv_book := book; iv_chapter := chapter; iv_verse := verse;
         iv_language := greek; words := greekWords |}
  end.

(** ** The verse cache *)

(** The cache test of [getHebrewText]:
    [cached && Date.now() - cached.timestamp < CACHE_TTL], giving
    [cached.data]. *)
Definition cacheGet (verseCache : gmap jsstring Entry) (cacheKey : jsstring)
           (now : Z) : option Payload :=
  match verseCache !! cacheKey with
  | Some cached =>
      if now - timestamp cached <? CACHE_TTL then Some (data cached) else None
  | None => None
  end.

(** [verseCache.set(cacheKey, { data, timestamp: Date.now() })] *)
Definition cachePut (verseCache : gmap jsstring Entry) (cacheKey : jsstring)
           (payload : Payload) (now : Z) : gmap jsstring Entry :=
  <[cacheKey := {| data := payload; timestamp := now |}]> verseCache.

(** The outcome of one lookup: the value the promise resolves to, the
    map [verseCache] afterwards, and the providers reached on the way
    (none when the cache answers). *)
Record Run : Type := {
  result : Payload;
  cache_after : gmap jsstring Entry;
  lookups : list Lookup
}.

Definition hebrewKey (book : jsstring) (chapter verse : float) : jsstring :=
  lit "hebrew:" ++ book ++ lit ":" ++ JSNumber.toString chapter
                ++ lit ":" ++ JSNumber.toString verse.

(** [getHebrewText].  [now_check] and [now_store] are the values of
    [Date.now()] at the cache test and at the cache store; [outcome]
    is what the endpoint would answer. *)
Definition getHebrewText (book : jsstring) (chapter verse : float)
           (verseCache : gmap jsstring Entry) (now_check now_store : Z)
           (outcome : FetchOutcome) : Run :=
  let cacheKey := hebrewKey book chapter verse in
  match cacheGet verseCache cacheKey now_check with
  | Some payload =>
      {| result := payload; cache_after := verseCache; lookups := [] |}
  | None =>
      if USE_MOCK_DATA then
        let payload := Verse (getMockHebrewText book chapter verse) in
        {| result := payload;
           cache_after := cachePut verseCache cacheKey payload now_store;
           lookups := [MockHebrew book chapter verse] |}
      else
        let post := Post (lit "/api/sword/hebrew") book chapter verse in
        match outcome with
        | Responds status (Ok json) =>
            if negb (ok status) then
              {| result := Json JNull; cache_after := verseCache; lookups := [post] |}
            else
              {| result := Json json;
                 cache_after := cachePut verseCache cacheKey (Json json) now_store;
                 lookups := [post] |}
        | Responds status (Throw _) =>
            {| result := Json JNull; cache_after := verseCache; lookups := [post] |}
        | Rejects _ =>
            {| result := Json JNull; cache_after := verseCache; lookups := [post] |}
        end
  end.

(** [getGreekText] *)
Definition getGreekText (book : jsstring) (chapter verse : float)
           (verseCache : gmap jsstring Entry) (outcome : FetchOutcome) : Run :=
  if USE_MOCK_DATA then
    {| result := Verse (getMockGreekText book chapter verse);
       cache_after := verseCache;
       lookups := [MockGreek book chapter verse] |}
  else
    let post := Post (lit "/api/sword/greek") book chapter verse in
    match outcome with
    | Responds status (Ok json) =>
        {| result := if negb (ok status) then Json JNull else Json json;
           cache_after := verseCache; lookups := [post] |}
    | Responds status (Throw _) =>
        {| result := Json JNull; cache_after := verseCache; lookups := [post] |}
    | Rejects _ =>
        {| result := Json JNull; cache_after := verseCache; lookups := [post] |}
    end.

(** [getInterlinear] *)
Definition getInterlinear (book : jsstring) (chapter verse : float)
           (verseCache : gmap jsstring Entry) (outcome : FetchOutcome) : Run :=
  if USE_MOCK_DATA then
    {| result := Interlinear (getMockInterlinear book chapter verse);
       cache_after := verseCache;
       lookups := [MockInterlinear book chapter verse] |}
  else
    let post := Post (lit "/api/sword/interlinear") book chapter verse in
    match outcome with
    | Responds status (Ok json) =>
        {| result := if negb (ok status) then Json JNull else Json json;
           cache_after := verseCache; lookups := [post] |}
    | Responds status (Throw _) =>
        {| result := Json JNull; cache_after := verseCache; lookups := [post] |}
    | Rejects _ =>
        {| result := Json JNull; cache_after := verseCache; lookups := [post] |}
    end.

(** ** Histories of lookups *)

(** A call of [getHebrewText] with what its environment gives it. *)
Record HebrewCall : Type := {
  call_book : jsstring;
  call_chapter : float;
  call_verse : float;
  call_now_check : Z;
  call_now_store : Z;
  call_outcome : FetchOutcome
}.

(** The verse cache after a sequence of Hebrew lookups. *)
Fixpoint afterCalls (verseCache : gmap jsstring Entry) (calls : list HebrewCall)
  : gmap jsstring Entry :=
  match calls with
  | [] => verseCache
  | c :: calls' =>
      afterCalls
        (cache_after (getHebrewText (call_book c) (call_chapter c) (call_verse c)
                        verseCache (call_now_check c) (call_now_store c)
                        (call_outcome c)))
        calls'
  end.

(** Every entry of the cache is the mock verse of a lookup whose key it
    is stored under. *)
Definition ownVerses (verseCache : gmap jsstring Entry) : Prop :=
  forall (k : jsstring) (e : Entry),
    verseCache !! k = Some e ->
    exists (book : jsstring) (chapter verse : float),
      k = hebrewKey book chapter verse
      /\ data e = Verse (getMockHebrewText book chapter verse).

End Sword.

(* ===================================================================== *)
(** * lib/components/SearchBar.svelte *)
(* ===================================================================== *)

Module SearchBar.
Import JSString.

(** Modelled from the spec: the type [Translation] of lib/types/bible,
    which is not among the sources.  The spec has the selected
    translation identifiers drawn from a fixed enumerated list; the
    list is the table [TRANSLATIONS] of the component. *)
Inductive Translation : Type := kjv | asv | bbe | ylt | webster.

(** The string that a translation identifier is at run time. *)
Definition translationId (t : Translation) : jsstring :=
  match t with
  | kjv => lit "kjv"
  | asv => lit "asv"
  | bbe => lit "bbe"
  | ylt => lit "ylt"
  | webster => lit "webster"
  end.

(** [const TRANSLATIONS]: id, label, year. *)
Definition TRANSLATIONS : list (Translation * jsstring * jsstring) :=
  [ (kjv, lit "KJV", lit "1611");
    (asv, lit "ASV", lit "1901");
    (bbe, lit "BBE", lit "1965");
    (ylt, lit "YLT", lit "1862");
    (webster, lit "Webster", lit "1833") ].

(** Modelled from the spec: the type of a search result of
    lib/types/bible, which is not among the sources, with the members
    that the component reads.  The spec has a search result hold a
    verse reference, a source translation, a text and a similarity
    score. *)
Record SearchResult : Type := {
  verse_ref : jsstring;
  book : jsstring;
  chapter : float;
  verse : float;
  translation : Translation;
  text : jsstring;
  similarity : float
}.

(** A call [searchBible(query, translations, top_k)] of lib/api/prism,
    the remote search collaborator; what its promise settles to is an
    input of the event loop. *)
Record SearchCall : Type := {
  call_query : jsstring;
  call_translations : list Translation;
  call_top_k : float
}.

(** Modelled from the spec: the stores of lib/stores/search
    ([searchQuery], [searchFilters], [selectedTranslations],
    [isSearching], [searchResults], [searchError]), which are not among
    the sources, as the observable state that the spec has the
    coordinator write (a query, a result limit, the selected
    translations, an in-progress flag, the results, an error message);
    [set] replaces the value.  With them the state holds the variables
    [query] and [debounceTimer] of the component, the timeouts it has
    pending, and the calls of [searchBible] it has made ([dispatched]:
    all of them, oldest first; [inflight]: those whose promise has not
    settled). *)
Record State : Type := {
  query : jsstring;
  debounceTimer : option nat;
  timers : list nat;
  nextTimerId : nat;
  searchQuery : jsstring;
  top_k : float;
  selectedTranslations : list Translation;
  isSearching : bool;
  searchResults : list SearchResult;
  searchError : option jsstring;
  inflight : list SearchCall;
  dispatched : list SearchCall
}.

(** [searchQuery.set(q)]; the subscription of the component copies the
    value into [query]. *)
Definition setSearchQuery (q : jsstring) (s : State) : State :=
  {| query := q; searchQuery := q;
     debounceTimer := debounceTimer s; timers := timers s;
     nextTimerId := nextTimerId s; top_k := top_k s;
     selectedTranslations := selectedTranslations s;
     isSearching := isSearching s; searchResults := searchResults s;
     searchError := searchError s; inflight := inflight s;
     dispatched := dispatched s |}.

(** [searchResults.set(r)] *)
Definition setSearchResults (r : list SearchResult) (s : State) : State :=
  {| searchResults := r;
     query := query s; searchQuery := searchQuery s;
     debounceTimer := debounceTimer s; timers := timers s;
     nextTimerId := nextTimerId s; top_k := top_k s;
     selectedTranslations := selectedTranslations s;
     isSearching := isSearching s;
     searchError := searchError s; inflight := inflight s;
     dispatched := dispatched s |}.

(** [searchError.set(e)] *)
Definition setSearchError (e : option jsstring) (s : State) : State :=
  {| searchError := e;
     query := query s; searchQuery := searchQuery s;
     debounceTimer := debounceTimer s; timers := timers s;
     nextTimerId := nextTimerId s; top_k := top_k s;
     selectedTranslations := selectedTranslations s;
     isSearching := isSearching s; searchResults := searchResults s;
     inflight := inflight s; dispatched := dispatched s |}.

(** [isSearching.set(b)] *)
Definition setIsSearching (b : bool) (s : State) : State :=
  {| isSearching := b;
     query := query s; searchQuery := searchQuery s;
     debounceTimer := debounceTimer s; timers := timers s;
     nextTimerId := nextTimerId s; top_k := top_k s;
     selectedTranslations := selectedTranslations s;
     searchResults := searchResults s;
     searchError := searchError s; inflight := inflight s;
     dispatched := dispatched s |}.

(** [clearTimeout(debounceTimer)]: the timeout with that id, if it is
    still pending, is cancelled. *)
Definition clearDebounceTimer (s : State) : State :=
  {| timers := match debounceTimer s with
               | Some id => List.filter (fun t => negb (Nat.eqb t id)) (timers s)
               | None => timers s
               end;
     query := query s; searchQuery := searchQuery s;
     debounceTimer := debounceTimer s;
     nextTimerId := nextTimerId s; top_k := top_k s;
     selectedTranslations := selectedTranslations s;
     isSearching := isSearching s; searchResults := searchResults s;
     searchError := searchError s; inflight := inflight s;
     dispatched := dispatched s |}.

(** [debounceTimer = setTimeout(() => performSearch(), 500)]: a fresh
    timeout is pending and the variable holds its id. *)
Definition setDebounceTimer (s : State) : State :=
  {| debounceTimer := Some (nextTimerId s);
     timers := timers s ++ [nextTimerId s];
     nextTimerId := S (nextTimerId s);
     query := query s; searchQuery := searchQuery s; top_k := top_k s;
     selectedTranslations := selectedTranslations s;
     isSearching := isSearching s; searchResults := searchResults s;
     searchError := searchError s; inflight := inflight s;
     dispatched := dispatched s |}.

(** The call of [searchBible] in [performSearch]. *)
Definition callSearchBible (s : State) : State :=
  let call := {| call_query := query s;
                 call_translations := selectedTranslations s;
                 call_top_k := top_k s |} in
  {| inflight := inflight s ++ [call];
     dispatched := dispatched s ++ [call];
     query := query s; searchQuery := searchQuery s;
     debounceTimer := debounceTimer s; timers := timers s;
     nextTimerId := nextTimerId s; top_k := top_k s;
     selectedTranslations := selectedTranslations s;
     isSearching := isSearching s; searchResults := searchResults s;
     searchError := searchError s |}.

(** [handleInput], with the value of the input element. *)
Definition handleInput (value : jsstring) (s : State) : State :=
  let s := setSearchQuery value s in
  let s := clearDebounceTimer s in
  if (2 <? length (trim (query s)))%nat then setDebounceTimer s
  else setSearchResults [] s.

(** [performSearch] up to its [await]: the early return, or the two
    flags and the call. *)
Definition performSearch (s : State) : State :=
  if (length (trim (query s)) <? 3)%nat then s
  else
    let s := setIsSearching true s in
    let s := setSearchError None s in
    callSearchBible s.

(** [performSearch] from its [await] on, when the promise of
    [searchBible] has settled: the rest of the [try] block or the
    [catch] clause, then the [finally] clause. *)
Definition performSearch_settled (outcome : Result (list SearchResult))
           (s : State) : State :=
  let s := match outcome with
           | Ok results => setSearchResults results s
           | Throw _ =>
               setSearchError
                 (Some (lit "Search failed. Please check that Prism is running.")) s
           end in
  setIsSearching false s.

(** [handleSubmit] *)
Definition handleSubmit (s : State) : State :=
  if (2 <? length (trim (query s)))%nat then performSearch s else s.

(** [clearSearch] *)
Definition clearSearch (s : State) : State :=
  let s := setSearchQuery [] s in
  let s := setSearchResults [] s in
  setSearchError None s.

(** ** The event loop *)

(** What can happen to the component: the user types, submits or
    clears; a pending timeout elapses; the promise of an earlier call
    of [searchBible] settles; the store [searchQuery] is set from
    outside the component, which its subscription copies into
    [query]. *)
Inductive Event : Type :=
| Input (value : jsstring)
| Submit
| Clear
| TimerFires (id : nat)
| Settles (call : nat) (outcome : Result (list SearchResult))
| QuerySet (q : jsstring).

Definition removeTimer (id : nat) (s : State) : State :=
  {| timers := List.filter (fun t => negb (Nat.eqb t id)) (timers s);
     query := query s; searchQuery := searchQuery s;
     debounceTimer := debounceTimer s;
     nextTimerId := nextTimerId s; top_k := top_k s;
     selectedTranslations := selectedTranslations s;
     isSearching := isSearching s; searchResults := searchResults s;
     searchError := searchError s; inflight := inflight s;
     dispatched := dispatched s |}.

Definition removeInflight (call : nat) (s : State) : State :=
  {| inflight := firstn call (inflight s) ++ skipn (S call) (inflight s);
     timers := timers s;
     query := query s; searchQuery := searchQuery s;
     debounceTimer := debounceTimer s;
     nextTimerId := nextTimerId s; top_k := top_k s;
     selectedTranslations := selectedTranslations s;
     isSearching := isSearching s; searchResults := searchResults s;
     searchError := searchError s;
     dispatched := dispatched s |}.

(** One turn of the event loop; [None] when the event cannot happen in
    the state (no such timeout pending, no such call in flight). *)
Definition step (s : State) (ev : Event) : option State :=
  match ev with
  | Input value => Some (handleInput value s)
  | Submit => Some (handleSubmit s)
  | Clear => Some (clearSearch s)
  | TimerFires id =>
      if existsb (Nat.eqb id) (timers s)
      then Some (performSearch (removeTimer id s))
      else None
  | Settles call outcome =>
      if (call <? length (inflight s))%nat
      then Some (performSearch_settled outcome (removeInflight call s))
      else None
  | QuerySet q => Some (setSearchQuery q s)
  end.

Fixpoint run (s : State) (evs : list Event) : option State :=
  match evs with
  | [] => Some s
  | ev :: evs' =>
      match step s ev with
      | Some s' => run s' evs'
      | None => None
      end
  end.

(** The trimmed query is too short to be searched for. *)
Definition shortQuery (q : jsstring) : Prop := (length (trim q) <= 2)%nat.

(** An event that leaves a short query short: anything but a text of
    three or more characters typed or set. *)
Definition keepsShort (ev : Event) : Prop :=
  match ev with
  | Input value => shortQuery value
  | QuerySet q => shortQuery q
  | _ => True
  end.

(** The timeout whose id [debounceTimer] holds is still pending. *)
Definition debouncePending (s : State) : bool :=
  match debounceTimer s with
  | Some id => existsb (Nat.eqb id) (timers s)
  | None => false
  end.

(** The in-progress flag is set only while a call of [searchBible] is in
    flight. *)
Definition searching_means_inflight (s : State) : Prop :=
  isSearching s = true -> inflight s <> [].

(** The component as it is mounted. *)
Definition initial (q : jsstring) (k : float) (sel : list Translation) : State :=
  {| query := q; searchQuery := q; debounceTimer := None; timers := [];
     nextTimerId := 0; top_k := k; selectedTranslations := sel;
     isSearching := false; searchResults := []; searchError := None;
     inflight := []; dispatched := [] |}.

(** ** The exporters *)

(** The file that an exporter hands to the browser: the [download]
    name of the anchor, and the type and the content of the blob. *)
Record Download : Type := {
  filename : jsstring;
  mime : jsstring;
  content : jsstring
}.

(** The download name, from the query, [Date.now()] and the
    extension. *)
Definition downloadName (s : State) (now : Z) (extension : string) : jsstring :=
  lit "search_" ++ substring0 30 (collapseSpaces (searchQuery s))
                ++ lit "_" ++ JSNumber.Z_digits now ++ lit extension.

(** [(similarity * 100).toFixed(0)] followed by the percent sign *)
Definition percent (similarity : float) : jsstring :=
  JSNumber.toFixed0 (similarity * 100)%float ++ lit "%".

(** The four lines that [exportResults] pushes for the result at
    [index]. *)
Definition resultLines (index : nat) (r : SearchResult) : list jsstring :=
  [ JSNumber.nat_digits (index + 1) ++ lit ". " ++ verse_ref r
      ++ lit " (" ++ toUpperCase (translationId (translation r)) ++ lit ")";
    lit "   Similarity: " ++ percent (similarity r);
    lit "   " ++ text r;
    [] ].

Fixpoint allResultLines (index : nat) (results : list SearchResult)
  : list jsstring :=
  match results with
  | [] => []
  | r :: rest => resultLines index r ++ allResultLines (S index) rest
  end.

(** The array [lines] of [exportResults]; [today] is the value of
    [new Date().toLocaleDateString()]. *)
Definition exportLines (s : State) (today : jsstring) : list jsstring :=
  [ lit "Search Query: " ++ [34%N] ++ searchQuery s ++ [34%N];
    lit "Results: " ++ JSNumber.nat_digits (length (searchResults s));
    lit "Translations: "
      ++ toUpperCase (join (lit ", ") (List.map translationId (selectedTranslations s)));
    lit "Date: " ++ today;
    [];
    JSString.repeat (lit "=") 80;
    [] ]
  ++ allResultLines 0 (searchResults s)
  ++ [ JSString.repeat (lit "=") 80;
       [];
       lit "Source: Prism Religious Studies (Christianity Module)";
       lit "Search Engine: Prism (Personal Semantic Data Layer)";
       lit "Embedding Model: nomic-embed-text (768 dimensions)" ].

(** [exportResults]: nothing without results, else the text file. *)
Definition exportResults (s : State) (today : jsstring) (now : Z)
  : option Download :=
  match searchResults s with
  | [] => None
  | _ :: _ =>
      Some {| filename := downloadName s now ".txt";
              mime := lit "text/plain";
              content := join [10%N] (exportLines s today) |}
  end.

(** The constant [headers] of [exportAsCSV]. *)
Definition csvHeaders : list jsstring :=
  List.map lit ["Reference"; "Book"; "Chapter"; "Verse"; "Translation";
                "Similarity"; "Text"]%string.

(** One element of [rows] in [exportAsCSV]. *)
Definition csvRow (r : SearchResult) : list jsstring :=
  [ verse_ref r;
    book r;
    JSNumber.toString (chapter r);
    JSNumber.toString (verse r);
    toUpperCase (translationId (translation r));
    percent (similarity r);
    [34%N] ++ doubleQuotes (text r) ++ [34%N] ].

(** [csvContent] *)
Definition csvContent (results : list SearchResult) : jsstring :=
  join [10%N]
       (join (lit ",") csvHeaders
        :: List.map (fun row => join (lit ",") row) (List.map csvRow results)).

(** [exportAsCSV]: nothing without results, else the CSV file. *)
Definition exportAsCSV (s : State) (now : Z) : option Download :=
  match searchResults s with
  | [] => None
  | _ :: _ =>
      Some {| filename := downloadName s now ".csv";
              mime := lit "text/csv";
              content := csvContent (searchResults s) |}
  end.

(** ** Timers *)

(** At most one timeout is pending, and it is the one whose id
    [debounceTimer] holds. *)
Definition singleTimer (s : State) : Prop :=
  timers s = [] \/ exists id : nat, debounceTimer s = Some id /\ timers s = [id].

End SearchBar.

(* ===================================================================== *)
(** * Reading CSV *)
(* ===================================================================== *)

(** The reader against which the CSV export is judged: records are
    separated by a line feed (or carriage return and line feed), fields
    by a comma; a field that opens with a double quote runs to the
    closing double quote, and inside it two double quotes stand for one
    (RFC 4180).  It is no part of the sources. *)
Module Csv.

Inductive Mode : Type := Unquoted | Quoted | AfterQuote.

(** [field] and [row] are the field and the record read so far. *)
Fixpoint parseFrom (mode : Mode) (field : jsstring) (row : list jsstring)
         (input : jsstring) {struct input} : list (list jsstring) :=
  match input with
  | [] =>
      match mode, field, row with
      | Unquoted, [], [] => []
      | _, _, _ => [row ++ [field]]
      end
  | c :: rest =>
      match mode with
      | Unquoted =>
          if N.eqb c 34 then
            match field with
            | [] => parseFrom Quoted [] row rest
            | _ => parseFrom Unquoted (field ++ [c]) row rest
            end
          else if N.eqb c 44 then parseFrom Unquoted [] (row ++ [field]) rest
          else if N.eqb c 10 then (row ++ [field]) :: parseFrom Unquoted [] [] rest
          else if N.eqb c 13 then
            match rest with
            | 10%N :: rest' => (row ++ [field]) :: parseFrom Unquoted [] [] rest'
            | _ => parseFrom Unquoted (field ++ [c]) row rest
            end
          else parseFrom Unquoted (field ++ [c]) row rest
      | Quoted =>
          if N.eqb c 34 then parseFrom AfterQuote field row rest
          else parseFrom Quoted (field ++ [c]) row rest
      | AfterQuote =>
          if N.eqb c 34 then parseFrom Quoted (field ++ [c]) row rest
          else if N.eqb c 44 then parseFrom Unquoted [] (row ++ [field]) rest
          else if N.eqb c 10 then (row ++ [field]) :: parseFrom Unquoted [] [] rest
          else if N.eqb c 13 then
            match rest with
            | 10%N :: rest' => (row ++ [field]) :: parseFrom Unquoted [] [] rest'
            | _ => parseFrom Unquoted (field ++ [c]) row rest
            end
          else parseFrom Unquoted (field ++ [c]) row rest
      end
  end.

Definition parseCSV (input : jsstring) : list (list jsstring) :=
  parseFrom Unquoted [] [] input.

(** A code unit that an unquoted field can hold: no comma, no double
    quote, no line break. *)
Definition plainUnit (c : N) : bool :=
  negb (N.eqb c 34 || N.eqb c 44 || N.eqb c 10 || N.eqb c 13).

Definition plain (s : jsstring) : bool := forallb plainUnit s.

(** What the reader recovers of a record: the fields Reference,
    Translation and Text (columns 0, 4 and 6). *)
Definition recovered (record : list jsstring) : jsstring * jsstring * jsstring :=
  (nth 0 record [], nth 4 record [], nth 6 record []).

(** The same three fields of a search result. *)
Definition original (r : SearchBar.SearchResult) : jsstring * jsstring * jsstring :=
  (SearchBar.verse_ref r, SearchBar.translationId (SearchBar.translation r),
   SearchBar.text r).

(** The reference and the book of a result can stand unquoted. *)
Definition plainResult (r : SearchBar.SearchResult) : Prop :=
  plain (SearchBar.verse_ref r) = true /\ plain (SearchBar.book r) = true.

(** The three fields as the export writes them: the translation in
    upper case. *)
Definition originalUpper (r : SearchBar.SearchResult)
  : jsstring * jsstring * jsstring :=
  (SearchBar.verse_ref r,
   JSString.toUpperCase (SearchBar.translationId (SearchBar.translation r)),
   SearchBar.text r).

(** The line that [exportAsCSV] writes for a result. *)
Definition lineOf (r : SearchBar.SearchResult) : jsstring :=
  JSString.join (JSString.lit ",") (SearchBar.csvRow r).

(** The record that a result is written as, with the text as it is. *)
Definition recordOf (r : SearchBar.SearchResult) : list jsstring :=
  [ SearchBar.verse_ref r;
    SearchBar.book r;
    JSNumber.toString (SearchBar.chapter r);
    JSNumber.toString (SearchBar.verse r);
    JSString.toUpperCase (SearchBar.translationId (SearchBar.translation r));
    SearchBar.percent (SearchBar.similarity r);
    SearchBar.text r ].

End Csv.

(* ===================================================================== *)
(** * routes/geography/+page.svelte *)
(* ===================================================================== *)

Module GeographyPage.
Import JSString.

(** [p.place_type === selectedPlaceType] *)
Definition hasType (selectedPlaceType : jsstring) (p : Geography.BiblicalPlace) : bool :=
  match Geography.place_type p with
  | JStr t => JSString.eqb t selectedPlaceType
  | _ => false
  end.

(** [p.confidence_level === selectedConfidence] *)
Definition hasConfidence (selectedConfidence : jsstring)
           (p : Geography.BiblicalPlace) : bool :=
  JSString.eqb (Geography.levelName (Geography.confidence_level p)) selectedConfidence.

(** [handleFilterChange]: the new value of [filteredPlaces], from
    [places] and the two selections. *)
Definition handleFilterChange (places : list Geography.BiblicalPlace)
           (selectedPlaceType selectedConfidence : jsstring)
  : list Geography.BiblicalPlace :=
  let filtered := places in
  let filtered :=
    if negb (JSString.eqb selectedPlaceType (lit "all"))
    then List.filter (hasType selectedPlaceType) filtered
    else filtered in
  let filtered :=
    if negb (JSString.eqb selectedConfidence (lit "all"))
    then List.filter (hasConfidence selectedConfidence) filtered
    else filtered in
  filtered.

End GeographyPage.

(* ===================================================================== *)
(** * lib/components/GeographyMap.svelte *)
(* ===================================================================== *)

Module GeographyMap.

(** The test of [renderMarkers] on a place,
    [!place.latitude || !place.longitude], under which it makes no
    marker. *)
Definition skipped (place : Geography.BiblicalPlace) : bool :=
  negb (JSNumber.truthy (Geography.latitude place))
  || negb (JSNumber.truthy (Geography.longitude place)).

(** What [renderMarkers] makes of a place it does not skip: a marker at
    the coordinates of the place, with an icon in the colour of its
    confidence level, whose click selects the place.  The popup text
    is left out. *)
Record Marker : Type := {
  position : float * float;
  colour : jsstring;
  selects : Geography.BiblicalPlace
}.

(** The array [markers] after [renderMarkers], on a map that is
    there. *)
Definition renderMarkers (places : list Geography.BiblicalPlace) : list Marker :=
  flat_map
    (fun place =>
       if skipped place then []
       else [{| position := (Geography.latitude place, Geography.longitude place);
                colour := Geography.getConfidenceColor (Geography.confidence_level place);
                selects := place |}])
    places.

End GeographyMap.

(* ===================================================================== *)
(** * lib/components/LanguageViewer.svelte *)
(* ===================================================================== *)

Module LanguageViewer.
Import JSString.

(** The variables [currentTab] (a tab is a language), [selectedBook],
    [selectedChapter] and [selectedVerse] of the component. *)
Record Selection : Type := {
  currentTab : Sword.Language;
  selectedBook : jsstring;
  selectedChapter : float;
  selectedVerse : float
}.

(** The books of a tab: [currentTab === 'hebrew' ? OT_BOOKS : NT_BOOKS] *)
Definition availableBooks (tab : Sword.Language) : list jsstring :=
  match tab with
  | Sword.hebrew => Sword.OT_BOOKS
  | Sword.greek => Sword.NT_BOOKS
  end.

(** The reactive block that switches the tab to the testament of the
    selected book. *)
Definition autoSwitch (s : Selection) : Selection :=
  match Sword.getTestament (selectedBook s), currentTab s with
  | Some Sword.OT, Sword.greek =>
      {| currentTab := Sword.hebrew; selectedBook := selectedBook s;
         selectedChapter := selectedChapter s; selectedVerse := selectedVerse s |}
  | Some Sword.NT, Sword.hebrew =>
      {| currentTab := Sword.greek; selectedBook := selectedBook s;
         selectedChapter := selectedChapter s; selectedVerse := selectedVerse s |}
  | _, _ => s
  end.

(** [handleTabChange], up to its call of [loadVerse]. *)
Definition handleTabChange (tab : Sword.Language) (s : Selection) : Selection :=
  match tab with
  | Sword.hebrew =>
      if negb (Sword.includesBook Sword.OT_BOOKS (selectedBook s)) then
        {| currentTab := tab; selectedBook := lit "Genesis";
           selectedChapter := 1; selectedVerse := 1 |}
      else
        {| currentTab := tab; selectedBook := selectedBook s;
           selectedChapter := selectedChapter s; selectedVerse := selectedVerse s |}
  | Sword.greek =>
      if negb (Sword.includesBook Sword.NT_BOOKS (selectedBook s)) then
        {| currentTab := tab; selectedBook := lit "John";
           selectedChapter := 1; selectedVerse := 1 |}
      else
        {| currentTab := tab; selectedBook := selectedBook s;
           selectedChapter := selectedChapter s; selectedVerse := selectedVerse s |}
  end.

(** The lookup that [loadVerse] makes for a selection: the Hebrew one on
    the Hebrew tab, the Greek one on the other. *)
Definition loadVerse (s : Selection) (verseCache : gmap jsstring Sword.Entry)
           (now_check now_store : Z) (outcome : Http.FetchOutcome) : Sword.Run :=
  match currentTab s with
  | Sword.hebrew =>
      Sword.getHebrewText (selectedBook s) (selectedChapter s) (selectedVerse s)
        verseCache now_check now_store outcome
  | Sword.greek =>
      Sword.getGreekText (selectedBook s) (selectedChapter s) (selectedVerse s)
        verseCache outcome
  end.

End LanguageViewer.

(* ===================================================================== *)
(** * A scenario *)
(* ===================================================================== *)

(** The component after a search for shepherd in the translation kjv
    that returned the one verse Psalms 23:1; the similarity is the
    binary64 value nearest to 0.87. *)
Definition shepherdState : SearchBar.State :=
  {| SearchBar.query := JSString.lit "shepherd";
     SearchBar.searchQuery := JSString.lit "shepherd";
     SearchBar.debounceTimer := None; SearchBar.timers := [];
     SearchBar.nextTimerId := 0; SearchBar.top_k := 10;
     SearchBar.selectedTranslations := [SearchBar.kjv];
     SearchBar.isSearching := false;
     SearchBar.searchResults :=
       [{| SearchBar.verse_ref := JSString.lit "Psalms 23:1";
           SearchBar.book := JSString.lit "Psalms";
           SearchBar.chapter := 23; SearchBar.verse := 1;
           SearchBar.translation := SearchBar.kjv;
           SearchBar.text := JSString.lit "The LORD is my shepherd...";
           SearchBar.similarity := 0x1.bd70a3d70a3d7p-1 |}];
     SearchBar.searchError := None;
     SearchBar.inflight := []; SearchBar.dispatched := [] |}.

(** A result whose reference holds a comma. *)
Definition rangeResult : SearchBar.SearchResult :=
  {| SearchBar.verse_ref := JSString.lit "John 3:16, 17";
     SearchBar.book := JSString.lit "John";
     SearchBar.chapter := 3; SearchBar.verse := 16;
     SearchBar.translation := SearchBar.asv;
     SearchBar.text := JSString.lit "For God so loved the world";
     SearchBar.similarity := 0.5 |}.

(** A place as the listing makes it, with a score in the high range. *)
Definition jericho : Geography.BiblicalPlace :=
  {| Geography.id := JStr (JSString.lit "place-1");
     Geography.document_id := JStr (JSString.lit "place-1");
     Geography.name := JStr (JSString.lit "Jericho");
     Geography.latitude := 31.875; Geography.longitude := 35.5;
     Geography.place_type := JStr (JSString.lit "settlement");
     Geography.confidence_score := 350;
     Geography.confidence_level := Geography.high;
     Geography.verse_references := JArr [];
     Geography.alternate_names := JArr [];
     Geography.content := JStr (JSString.lit "Jericho: a city") |}.

(* ===================================================================== *)
(** * Properties *)
(* ===================================================================== *)

Local Open Scope float_scope.

(** ** The embedding at work *)

Example trim_strips_white_space :
  JSString.trim (JSString.lit "  ab " ++ [10%N; 160%N]) = JSString.lit "ab".
Proof. reflexivity. Qed.

Example collapseSpaces_runs :
  JSString.collapseSpaces (JSString.lit "faith  hope love ")
  = JSString.lit "faith_hope_love_".
Proof. reflexivity. Qed.

(** The binary64 values nearest to 0.1, 123456.789 and 1e-7 are written
    in hexadecimal. *)
Example toString_renders :
  JSNumber.toString 23 = JSString.lit "23"
  /\ JSNumber.toString 1.5 = JSString.lit "1.5"
  /\ JSNumber.toString (-0.375) = JSString.lit "-0.375"
  /\ JSNumber.toString 0x1.999999999999ap-4 = JSString.lit "0.1"
  /\ JSNumber.toString 0x1.e240c9fbe76c9p+16 = JSString.lit "123456.789"
  /\ JSNumber.toString 1e21 = JSString.lit "1e+21"
  /\ JSNumber.toString 0x1.ad7f29abcaf48p-24 = JSString.lit "1e-7"
  /\ JSNumber.toString nan = JSString.lit "NaN".
Proof. vm_compute. repeat split. Qed.

Example toFixed0_rounds :
  JSNumber.toFixed0 (0x1.bd70a3d70a3d7p-1 * 100) = JSString.lit "87"
  /\ JSNumber.toFixed0 0.5 = JSString.lit "1"
  /\ JSNumber.toFixed0 2.5 = JSString.lit "3"
  /\ JSNumber.toFixed0 (-0.375) = JSString.lit "-0"
  /\ JSNumber.toFixed0 1e21 = JSString.lit "1e+21"
  /\ JSNumber.toFixed0 infinity = JSString.lit "Infinity".
Proof. vm_compute. repeat split. Qed.

Example getConfidenceLevel_at_thresholds :
  Geography.getConfidenceLevel 300 = Geography.high
  /\ Geography.getConfidenceLevel 299.5 = Geography.moderate
  /\ Geography.getConfidenceLevel 80 = Geography.moderate
  /\ Geography.getConfidenceLevel 79.5 = Geography.low
  /\ Geography.getConfidenceLevel neg_infinity = Geography.low.
Proof. repeat split. Qed.

Example parseCSV_reads_quotes :
  Csv.parseCSV (JSString.lit "a,b" ++ [10%N; 34%N] ++ JSString.lit "x,y"
                ++ [34%N; 34%N; 10%N] ++ JSString.lit "z" ++ [34%N])
  = [ [JSString.lit "a"; JSString.lit "b"];
      [JSString.lit "x,y" ++ [34%N; 10%N] ++ JSString.lit "z"] ].
Proof. reflexivity. Qed.

(** Keystrokes in quick succession: the timer of the first is
    cancelled by the second, and the one search that is made when the
    timer of the second elapses is for the text of the second. *)
Example debounce_last_keystroke_wins :
  SearchBar.step
    (SearchBar.handleInput (JSString.lit "shepherd")
       (SearchBar.handleInput (JSString.lit "sheph")
          (SearchBar.initial [] 10 [SearchBar.kjv])))
    (SearchBar.TimerFires 0) = None
  /\ option_map SearchBar.dispatched
       (SearchBar.run (SearchBar.initial [] 10 [SearchBar.kjv])
          [SearchBar.Input (JSString.lit "sheph");
           SearchBar.Input (JSString.lit "shepherd");
           SearchBar.TimerFires 1])
     = Some [{| SearchBar.call_query := JSString.lit "shepherd";
                SearchBar.call_translations := [SearchBar.kjv];
                SearchBar.call_top_k := 10 |}].
Proof. split; reflexivity. Qed.

Local Close Scope float_scope.

(** ** The order of binary64 values

    The comparisons of [PrimFloat] are those of [SpecFloat] on the
    decoded values; the lemmas below are what the threshold tests of
    [getConfidenceLevel] need of them. *)
Section FloatOrder.
Lemma SFcompare_antisym (a b : spec_float) :
  SFcompare a b = option_map CompOpp (SFcompare b a).
Proof.
  destruct a as [sa|sa| |sa ma ea], b as [sb|sb| |sb mb eb]; simpl;
    try reflexivity; try (destruct sa; reflexivity); try (destruct sb; reflexivity);
    try (destruct sa, sb; reflexivity).
  assert (Hm : Pos.compare_cont Eq ma mb = CompOpp (Pos.compare_cont Eq mb ma))
    by (symmetry; apply (Pos.compare_cont_antisym mb ma Eq)).
  destruct sa, sb; simpl; try reflexivity;
    rewrite (Z.compare_antisym eb ea), Hm;
    destruct (eb ?= ea); simpl; try reflexivity;
    destruct (Pos.compare_cont Eq mb ma); reflexivity.
Qed.

Lemma leb_false_ltb (a s : float) :
  (a <=? a)%float = true -> (s <=? s)%float = true ->
  (a <=? s)%float = false -> (s <? a)%float = true.
Proof.
  rewrite !leb_spec, ltb_spec. unfold SFleb, SFltb.
  rewrite (SFcompare_antisym (Prim2SF s) (Prim2SF a)).
  intros Ha Hs.
  destruct (SFcompare (Prim2SF a) (Prim2SF s)) as [[]|] eqn:E; simpl; try congruence.
  intros _.
  destruct (Prim2SF a) as [| | |? ? ?], (Prim2SF s) as [| | |? ? ?];
    simpl in *; congruence.
Qed.

Lemma ltb_leb_false (a s : float) :
  (s <? a)%float = true -> (a <=? s)%float = false.
Proof.
  rewrite !leb_spec, ltb_spec. unfold SFleb, SFltb.
  rewrite (SFcompare_antisym (Prim2SF s) (Prim2SF a)).
  destruct (SFcompare (Prim2SF a) (Prim2SF s)) as [[]|]; simpl; congruence.
Qed.

Lemma leb_refl_of_leb (a s : float) : (a <=? s)%float = true -> (s <=? s)%float = true.
Proof.
  rewrite !leb_spec. unfold SFleb.
  destruct (Prim2SF a) as [| | |sa ma ea], (Prim2SF s) as [sb|sb| |sb mb eb]; simpl; try congruence; try (destruct sb; reflexivity).
  all: intros _; destruct sb; rewrite Z.compare_refl, Pos.compare_cont_refl; reflexivity.
Qed.

Lemma below_80_below_300 (s : float) :
  (s <? 80)%float = true -> (s <? 300)%float = true.
Proof.
  rewrite !ltb_spec. unfold SFltb.
  assert (H80 : Prim2SF 80 = S754_finite false 5629499534213120 (-46))
    by (vm_compute; reflexivity).
  assert (H300 : Prim2SF 300 = S754_finite false 5277655813324800 (-44))
    by (vm_compute; reflexivity).
  rewrite H80, H300. clear H80 H300.
  destruct (Prim2SF s) as [sb|sb| |sb m e]; unfold SFcompare; try congruence.
  destruct sb; [reflexivity|].
  destruct (e ?= -46) eqn:E; try congruence.
  - apply Z.compare_eq in E. subst e. reflexivity.
  - intros _. rewrite Z.compare_lt_iff in E.
    assert (H : (e ?= -44) = Lt) by (rewrite Z.compare_lt_iff; lia).
    rewrite H. reflexivity.
Qed.
End FloatOrder.

(** ** Confidence levels *)

Local Open Scope float_scope.

(** C1.  For every score [s], [NaN] and the infinities included,
    [getConfidenceLevel s] is [high] exactly when [300 <= s], [moderate]
    exactly when [80 <= s < 300], and [low] otherwise; every score below
    80, so 0 and every negative score, is [low].  The function is a
    total function of the score alone. *)
Theorem getConfidenceLevel_thresholds (s : float) :
  (Geography.getConfidenceLevel s = Geography.high <-> (300 <=? s) = true)
  /\ (Geography.getConfidenceLevel s = Geography.moderate
      <-> (80 <=? s) = true /\ (s <? 300) = true)
  /\ (Geography.getConfidenceLevel s = Geography.low
      <-> (300 <=? s) = false /\ ~ ((80 <=? s) = true /\ (s <? 300) = true))
  /\ ((s <? 80) = true -> Geography.getConfidenceLevel s = Geography.low)
  /\ Geography.getConfidenceLevel 0 = Geography.low
  /\ Geography.getConfidenceLevel (-0.5) = Geography.low
  /\ Geography.getConfidenceLevel nan = Geography.low.
Proof.
  assert (H300 : (300 <=? 300) = true) by reflexivity.
  assert (Hmid : (300 <=? s) = false -> (80 <=? s) = true -> (s <? 300) = true).
  { intros H3 H8. apply leb_false_ltb; [exact H300| |exact H3].
    apply (leb_refl_of_leb 80). exact H8. }
  assert (Hlow : (s <? 80) = true -> (300 <=? s) = false /\ (80 <=? s) = false).
  { intros Hlt. split; apply ltb_leb_false; [apply below_80_below_300|]; exact Hlt. }
  assert (Hhigh : (s <? 300) = true -> (300 <=? s) = false)
    by apply ltb_leb_false.
  unfold Geography.getConfidenceLevel.
  destruct (300 <=? s) eqn:H3; [|destruct (80 <=? s) eqn:H8].
  - split; [split; reflexivity|].
    split; [split; [discriminate|intros [_ H]; apply Hhigh in H; discriminate]|].
    split; [split; [discriminate|intros [H _]; discriminate]|].
    split; [intros H; apply Hlow in H; destruct H; discriminate|].
    repeat split; reflexivity.
  - split; [split; discriminate|].
    split; [split; [intros _; split; [reflexivity|apply Hmid; reflexivity]|reflexivity]|].
    split; [split; [discriminate|intros [_ H]; exfalso; apply H; split;
                                   [reflexivity|apply Hmid; reflexivity]]|].
    split; [intros H; apply Hlow in H; destruct H; discriminate|].
    repeat split; reflexivity.
  - split; [split; discriminate|].
    split; [split; [discriminate|intros [H _]; discriminate]|].
    split; [split; [intros _; split; [reflexivity|intros [H _]; discriminate]|reflexivity]|].
    split; [reflexivity|].
    repeat split; reflexivity.
Qed.

Local Close Scope float_scope.

(** ** The search coordinator *)

Section Coordinator.
Import JSString SearchBar.

Lemma performSearch_short (s : State) :
  shortQuery (query s) -> performSearch s = s.
Proof.
  unfold shortQuery, performSearch. intros H.
  destruct (Nat.ltb_spec (length (trim (query s))) 3) as [_|Hge]; [reflexivity|lia].
Qed.

Lemma handleSubmit_short (s : State) :
  shortQuery (query s) -> handleSubmit s = s.
Proof.
  unfold shortQuery, handleSubmit. intros H.
  destruct (Nat.ltb_spec 2 (length (trim (query s)))) as [Hlt|_]; [lia|reflexivity].
Qed.

Lemma handleInput_short (value : jsstring) (s : State) :
  shortQuery value ->
  handleInput value s = setSearchResults [] (clearDebounceTimer (setSearchQuery value s)).
Proof.
  unfold shortQuery, handleInput. intros H. cbn [query clearDebounceTimer setSearchQuery].
  destruct (Nat.ltb_spec 2 (length (trim value))) as [Hlt|_]; [lia|reflexivity].
Qed.

(** While the query is short, no turn of the event loop calls
    [searchBible], and the query stays short. *)
Lemma short_step (s s' : State) (ev : Event) :
  shortQuery (query s) -> keepsShort ev -> step s ev = Some s' ->
  shortQuery (query s') /\ dispatched s' = dispatched s.
Proof.
  intros Hs Hev Hstep. destruct ev as [value| | |id|call outcome|q]; cbn [step] in Hstep.
  - injection Hstep as <-. cbn [keepsShort] in Hev.
    rewrite (handleInput_short _ _ Hev). split; [exact Hev|reflexivity].
  - injection Hstep as <-. rewrite (handleSubmit_short _ Hs). split; [exact Hs|reflexivity].
  - injection Hstep as <-. split; [unfold shortQuery; cbn; lia|reflexivity].
  - destruct (existsb (Nat.eqb id) (timers s)); [|discriminate].
    injection Hstep as <-.
    rewrite (performSearch_short (removeTimer id s)) by exact Hs.
    split; [exact Hs|reflexivity].
  - destruct (call <? length (inflight s))%nat; [|discriminate].
    injection Hstep as <-. destruct outcome; split; solve [exact Hs|reflexivity].
  - injection Hstep as <-. split; [exact Hev|reflexivity].
Qed.

Lemma short_run (evs : list Event) (s s' : State) :
  shortQuery (query s) -> Forall keepsShort evs -> run s evs = Some s' ->
  shortQuery (query s') /\ dispatched s' = dispatched s.
Proof.
  revert s. induction evs as [|ev evs IH]; intros s Hs Hevs Hrun; cbn [run] in Hrun.
  - injection Hrun as <-. split; [exact Hs|reflexivity].
  - inversion Hevs as [|? ? Hev Hevs']; subst.
    destruct (step s ev) as [s1|] eqn:Hstep; [|discriminate].
    destruct (short_step _ _ _ Hs Hev Hstep) as [Hs1 Hd1].
    destruct (IH s1 Hs1 Hevs' Hrun) as [Hs' Hd']. split; [exact Hs'|congruence].
Qed.

Lemma clearDebounceTimer_not_pending (s : State) :
  debouncePending (clearDebounceTimer s) = false.
Proof.
  unfold debouncePending, clearDebounceTimer; cbn.
  destruct (debounceTimer s) as [id|]; [|reflexivity].
  induction (timers s) as [|t ts IH]; cbn; [reflexivity|].
  destruct (Nat.eqb_spec t id) as [->|Hne]; cbn; [exact IH|].
  destruct (Nat.eqb_spec id t) as [->|_]; [contradiction|exact IH].
Qed.

Lemma performSearch_inflight (s : State) :
  searching_means_inflight s -> searching_means_inflight (performSearch s).
Proof.
  unfold searching_means_inflight, performSearch. intros H.
  destruct (length (trim (query s)) <? 3)%nat; [exact H|].
  intros _. cbn. destruct (inflight s); discriminate.
Qed.

Lemma step_inflight (s s' : State) (ev : Event) :
  searching_means_inflight s -> step s ev = Some s' -> searching_means_inflight s'.
Proof.
  intros H Hstep. destruct ev as [value| | |id|call outcome|q]; cbn [step] in Hstep.
  - injection Hstep as <-. unfold handleInput.
    destruct (2 <? length (trim (query (clearDebounceTimer (setSearchQuery value s)))))%nat;
      exact H.
  - injection Hstep as <-. unfold handleSubmit.
    destruct (2 <? length (trim (query s)))%nat; [|exact H].
    apply performSearch_inflight. exact H.
  - injection Hstep as <-. exact H.
  - destruct (existsb (Nat.eqb id) (timers s)); [|discriminate].
    injection Hstep as <-. apply performSearch_inflight. exact H.
  - destruct (call <? length (inflight s))%nat; [|discriminate].
    injection Hstep as <-. intros Hflag. destruct outcome; discriminate Hflag.
  - injection Hstep as <-. exact H.
Qed.

Lemma run_inflight (evs : list Event) (s s' : State) :
  searching_means_inflight s -> run s evs = Some s' -> searching_means_inflight s'.
Proof.
  revert s. induction evs as [|ev evs IH]; intros s H Hrun; cbn [run] in Hrun.
  - injection Hrun as <-. exact H.
  - destruct (step s ev) as [s1|] eqn:Hstep; [|discriminate].
    apply (IH s1); [|exact Hrun]. apply (step_inflight s s1 ev H Hstep).
Qed.
End Coordinator.

(** C2.  An execution of [performSearch] whose query passes the length
    check sets the in-progress flag and clears the error before it calls
    [searchBible] with the query, the selected translations and the
    limit; when the call succeeds the results are replaced by the ones
    returned, when it fails the error message is set, and in both cases
    the in-progress flag is false when the execution ends, whatever
    happened to the state while the call was in flight.  An execution
    that returns at the length check touches nothing.  So the flag is
    never left set: in every state that the component reaches with no
    call in flight, it is false. *)
Theorem performSearch_flags (s : SearchBar.State) :
  ((3 <= length (JSString.trim (SearchBar.query s)))%nat ->
   SearchBar.isSearching (SearchBar.performSearch s) = true
   /\ SearchBar.searchError (SearchBar.performSearch s) = None
   /\ SearchBar.dispatched (SearchBar.performSearch s)
      = SearchBar.dispatched s
        ++ [{| SearchBar.call_query := SearchBar.query s;
               SearchBar.call_translations := SearchBar.selectedTranslations s;
               SearchBar.call_top_k := SearchBar.top_k s |}])
  /\ ((length (JSString.trim (SearchBar.query s)) < 3)%nat ->
      SearchBar.performSearch s = s)
  /\ (forall (later : SearchBar.State) (results : list SearchBar.SearchResult),
         let done := SearchBar.performSearch_settled (Ok results) later in
         SearchBar.searchResults done = results
         /\ SearchBar.searchError done = SearchBar.searchError later
         /\ SearchBar.isSearching done = false)
  /\ (forall (later : SearchBar.State) (e : Exn),
         let done := SearchBar.performSearch_settled (Throw e) later in
         SearchBar.searchError done
         = Some (JSString.lit "Search failed. Please check that Prism is running.")
         /\ SearchBar.searchResults done = SearchBar.searchResults later
         /\ SearchBar.isSearching done = false)
  /\ (forall (q : jsstring) (k : float) (selected : list SearchBar.Translation)
             (evs : list SearchBar.Event) (s' : SearchBar.State),
         SearchBar.run (SearchBar.initial q k selected) evs = Some s' ->
         SearchBar.inflight s' = [] -> SearchBar.isSearching s' = false).
Proof.
  split; [|split; [|split; [|split]]].
  - intros Hlen. unfold SearchBar.performSearch.
    destruct (Nat.ltb_spec (length (JSString.trim (SearchBar.query s))) 3) as [Hlt|_];
      [lia|]. repeat split.
  - intros Hlen. apply performSearch_short. unfold SearchBar.shortQuery. lia.
  - repeat split.
  - repeat split.
  - intros q k selected evs s' Hrun Hnone.
    destruct (SearchBar.isSearching s') eqn:Hflag; [|reflexivity].
    exfalso.
    apply (run_inflight evs (SearchBar.initial q k selected) s'); try assumption.
    intros Hinit. discriminate Hinit.
Qed.

Lemma performSearch_flags_witness :
  SearchBar.isSearching
    (SearchBar.performSearch
       (SearchBar.initial (JSString.lit "shepherd") 10 [SearchBar.kjv])) = true
  /\ SearchBar.searchError
       (SearchBar.performSearch
          (SearchBar.initial (JSString.lit "shepherd") 10 [SearchBar.kjv])) = None.
Proof.
  destruct (performSearch_flags
              (SearchBar.initial (JSString.lit "shepherd") 10 [SearchBar.kjv]))
    as (Hstart & _).
  destruct Hstart as (H1 & H2 & _).
  - vm_compute. lia.
  - split; [exact H1|exact H2].
Defined.

(** C3.  When the text typed has a trimmed length of at most 2,
    [handleInput] clears the results at once, cancels the pending
    debounce timer, sets no new one and calls [searchBible] not at all;
    and whatever follows (a submit, a timer that elapses, a clear, a
    settled call, more such short inputs) calls [searchBible] no more
    than was called before. *)
Theorem short_query_never_searches (value : jsstring) (s : SearchBar.State) :
  (length (JSString.trim value) <= 2)%nat ->
  let s' := SearchBar.handleInput value s in
  SearchBar.searchResults s' = []
  /\ SearchBar.dispatched s' = SearchBar.dispatched s
  /\ SearchBar.debouncePending s' = false
  /\ SearchBar.nextTimerId s' = SearchBar.nextTimerId s
  /\ SearchBar.handleSubmit s' = s'
  /\ SearchBar.performSearch s' = s'
  /\ (forall (evs : list SearchBar.Event) (s'' : SearchBar.State),
         Forall SearchBar.keepsShort evs -> SearchBar.run s' evs = Some s'' ->
         SearchBar.dispatched s'' = SearchBar.dispatched s).
Proof.
  intros Hshort s'. subst s'. rewrite (handleInput_short _ _ Hshort).
  split; [reflexivity|]. split; [reflexivity|].
  split; [apply (clearDebounceTimer_not_pending (SearchBar.setSearchQuery value s))|].
  split; [reflexivity|].
  split; [apply handleSubmit_short; exact Hshort|].
  split; [apply performSearch_short; exact Hshort|].
  intros evs s'' Hevs Hrun.
  apply (short_run evs _ s'') in Hrun; [|exact Hshort|exact Hevs].
  destruct Hrun as [_ ->]. reflexivity.
Qed.

Lemma short_query_never_searches_witness :
  SearchBar.searchResults
    (SearchBar.handleInput (JSString.lit " ab ")
       (SearchBar.handleInput (JSString.lit "shepherd")
          (SearchBar.initial [] 10 [SearchBar.kjv]))) = []
  /\ SearchBar.debouncePending
       (SearchBar.handleInput (JSString.lit " ab ")
          (SearchBar.handleInput (JSString.lit "shepherd")
             (SearchBar.initial [] 10 [SearchBar.kjv]))) = false.
Proof.
  destruct (short_query_never_searches (JSString.lit " ab ")
              (SearchBar.handleInput (JSString.lit "shepherd")
                 (SearchBar.initial [] 10 [SearchBar.kjv])))
    as (H1 & _ & H3 & _).
  - vm_compute. lia.
  - split; [exact H1|exact H3].
Defined.




(** ** The response caches *)

Section VerseCache.
Import Sword.

Lemma verse_get_put (verseCache : gmap jsstring Entry) (k : jsstring)
      (v : Payload) (t now : Z) :
  cacheGet (cachePut verseCache k v t) k now
  = if now - t <? CACHE_TTL then Some v else None.
Proof.
  unfold cacheGet, cachePut. rewrite lookup_insert_eq. reflexivity.
Qed.



(** A Hebrew lookup repeated within the TTL of the entry that the
    first one stored is answered from the cache. *)
Lemma getHebrewText_repeat (book : jsstring) (chapter verse : float)
      (verseCache : gmap jsstring Entry) (t0 t1 t2 t3 : Z)
      (o o' : Http.FetchOutcome) :
  let first := getHebrewText book chapter verse verseCache t0 t1 o in
  let again := getHebrewText book chapter verse (cache_after first) t2 t3 o' in
  lookups first <> [] -> t2 - t1 < CACHE_TTL ->
  result again = result first /\ lookups again = []
  /\ cache_after again = cache_after first.
Proof.
  cbv zeta. unfold getHebrewText.
  destruct (cacheGet verseCache (hebrewKey book chapter verse) t0) as [p|] eqn:Hget;
    cbn [USE_MOCK_DATA lookups result cache_after]; [congruence|].
  intros _ Hfresh. rewrite verse_get_put.
  destruct (Z.ltb_spec (t2 - t1) CACHE_TTL); [|lia]. repeat split.
Qed.

(** Once the TTL has passed, the repeated Hebrew lookup reaches the
    provider again. *)
Lemma getHebrewText_expired (book : jsstring) (chapter verse : float)
      (verseCache : gmap jsstring Entry) (t0 t1 t2 t3 : Z)
      (o o' : Http.FetchOutcome) :
  let first := getHebrewText book chapter verse verseCache t0 t1 o in
  let again := getHebrewText book chapter verse (cache_after first) t2 t3 o' in
  lookups first <> [] -> CACHE_TTL <= t2 - t1 ->
  lookups again = [MockHebrew book chapter verse].
Proof.
  cbv zeta. unfold getHebrewText.
  destruct (cacheGet verseCache (hebrewKey book chapter verse) t0) as [p|] eqn:Hget;
    cbn [USE_MOCK_DATA lookups result cache_after]; [congruence|].
  intros _ Hold. rewrite verse_get_put.
  destruct (Z.ltb_spec (t2 - t1) CACHE_TTL); [lia|]. reflexivity.
Qed.

End VerseCache.

Section PlacesCache.
Import Geography.


End PlacesCache.

(** ** The place listing *)

Section Places.
Import Geography.
Variable env : option jsstring.
Variable parseFloat : JSValue -> float.

(** The paths through the [try] statement: the promise of [fetch]
    rejects; the response is not ok; [json()] rejects; the documents
    cannot be transformed; [data.total] cannot be read; all is well. *)
Ltac fresh_paths outcome :=
  unfold fetchFresh;
  destruct outcome as [?e|?status [?data|?e]]; try reflexivity;
  match goal with
  | |- context [negb (Http.ok ?status)] =>
      destruct (negb (Http.ok status)); try reflexivity
  end;
  match goal with
  | |- context [allPlacesOf ?pf ?data] =>
      destruct (allPlacesOf pf data); try reflexivity;
      destruct (JS.prop data "total"); try reflexivity
  | _ => idtac
  end.

(** With a place type or a confidence level supplied, the call is the
    [try] statement and nothing else. *)
Lemma filtered_is_fresh (params : SearchPlacesParams)
      (placesCache : option CacheEntry) (now_check now_store : Z)
      (outcome : Http.FetchOutcome) :
  supplied (placeType params) || suppliedLevel (confidenceLevel params) = true ->
  fetchBiblicalPlaces env parseFloat params placesCache now_check now_store outcome
  = fetchFresh env parseFloat params placesCache now_store outcome.
Proof.
  intros H. unfold fetchBiblicalPlaces.
  destruct (supplied (placeType params)), (suppliedLevel (confidenceLevel params));
    try discriminate; reflexivity.
Qed.

(** The [try] statement issues the one request, whatever happens. *)
Lemma fetchFresh_requests (params : SearchPlacesParams)
      (placesCache : option CacheEntry) (now_store : Z)
      (outcome : Http.FetchOutcome) :
  requests (fetchFresh env parseFloat params placesCache now_store outcome)
  = [documentsRequest env].
Proof. fresh_paths outcome. Qed.

(** With a filter supplied the [try] statement leaves the cache as it
    is. *)
Lemma fetchFresh_filtered_cache (params : SearchPlacesParams)
      (placesCache : option CacheEntry) (now_store : Z)
      (outcome : Http.FetchOutcome) :
  supplied (placeType params) || suppliedLevel (confidenceLevel params) = true ->
  cache_after (fetchFresh env parseFloat params placesCache now_store outcome)
  = placesCache.
Proof.
  intros H.
  assert (Hn : negb (supplied (placeType params))
               && negb (suppliedLevel (confidenceLevel params)) = false)
    by (destruct (supplied (placeType params)),
          (suppliedLevel (confidenceLevel params)); try discriminate; reflexivity).
  unfold fetchFresh. rewrite Hn. fresh_paths outcome.
Qed.

(** The promise of the [try] statement settles the same way for two
    parameter records that agree on [limit] and [offset]; the cache it
    starts from plays no part. *)
Lemma fetchFresh_result (p1 p2 : SearchPlacesParams)
      (cache1 cache2 : option CacheEntry) (t1 t2 : Z)
      (outcome : Http.FetchOutcome) :
  limit p1 = limit p2 -> offset p1 = offset p2 ->
  result (fetchFresh env parseFloat p1 cache1 t1 outcome)
  = result (fetchFresh env parseFloat p2 cache2 t2 outcome).
Proof.
  intros Hl Ho. unfold fetchFresh. rewrite Hl, Ho. fresh_paths outcome.
Qed.

Lemma cold_is_fresh (params : SearchPlacesParams) (now_check now_store : Z)
      (outcome : Http.FetchOutcome) :
  fetchBiblicalPlaces env parseFloat params None now_check now_store outcome
  = fetchFresh env parseFloat params None now_store outcome.
Proof.
  unfold fetchBiblicalPlaces.
  destruct (negb (supplied (placeType params))
            && negb (suppliedLevel (confidenceLevel params))); reflexivity.
Qed.


(** An unfiltered listing is answered from a cache entry younger than
    the TTL without a request, and is stored when it was fetched. *)
Lemma unfiltered_hit (params : SearchPlacesParams) (e : CacheEntry)
      (now_check now_store : Z) (outcome : Http.FetchOutcome) :
  supplied (placeType params) || suppliedLevel (confidenceLevel params) = false ->
  now_check - timestamp e < CACHE_TTL ->
  let run := fetchBiblicalPlaces env parseFloat params (Some e)
               now_check now_store outcome in
  requests run = [] /\ cache_after run = Some e
  /\ result run
     = Ok {| places := JS.slice (data e) (default 0 (offset params))
                         (default 0 (offset params) + default 100 (limit params));
             total := JNum (JSNumber.of_nat (length (data e))) |}.
Proof.
  intros H Hfresh. cbv zeta. unfold fetchBiblicalPlaces.
  destruct (supplied (placeType params)), (suppliedLevel (confidenceLevel params));
    try discriminate.
  cbn [negb andb cacheGet].
  destruct (Z.ltb_spec (now_check - timestamp e) CACHE_TTL); [|lia].
  repeat split.
Qed.

Lemma unfiltered_store (params : SearchPlacesParams)
      (placesCache : option CacheEntry) (now_store : Z)
      (outcome : Http.FetchOutcome) (response : PlacesResponse) :
  supplied (placeType params) || suppliedLevel (confidenceLevel params) = false ->
  result (fetchFresh env parseFloat params placesCache now_store outcome)
  = Ok response ->
  exists allPlaces : list BiblicalPlace,
    cache_after (fetchFresh env parseFloat params placesCache now_store outcome)
    = cachePut allPlaces now_store.
Proof.
  intros H. unfold fetchFresh.
  destruct (supplied (placeType params)), (suppliedLevel (confidenceLevel params));
    try discriminate.
  cbn [negb andb].
  destruct outcome as [e|status [data|e]]; try discriminate;
    destruct (negb (Http.ok status)); try discriminate.
  destruct (allPlacesOf parseFloat data) as [allPlaces|]; try discriminate.
  destruct (JS.prop data "total"); try discriminate.
  intros _. exists allPlaces. reflexivity.
Qed.
End Places.



(** C5.  When a place type or a confidence level is supplied,
    [fetchBiblicalPlaces] does not look at the cache and does not change
    it: whatever the cache holds and however fresh it is, the request
    for the documents is issued, the promise settles as it does from an
    empty cache, and the cache afterwards is the cache before. *)
Theorem filtered_fetch_bypasses_cache
        (env : option jsstring) (parseFloat : JSValue -> float)
        (params : Geography.SearchPlacesParams)
        (placesCache : option Geography.CacheEntry) (now_check now_store : Z)
        (outcome : Http.FetchOutcome) :
  Geography.supplied (Geography.placeType params)
  || Geography.suppliedLevel (Geography.confidenceLevel params) = true ->
  let run := Geography.fetchBiblicalPlaces env parseFloat params placesCache
               now_check now_store outcome in
  Geography.requests run = [Geography.documentsRequest env]
  /\ Geography.cache_after run = placesCache
  /\ Geography.result run
     = Geography.result
         (Geography.fetchBiblicalPlaces env parseFloat params None
            now_check now_store outcome).
Proof.
  intros H run. subst run.
  rewrite (filtered_is_fresh env parseFloat params placesCache _ _ _ H).
  rewrite (filtered_is_fresh env parseFloat params None _ _ _ H).
  split; [apply fetchFresh_requests|].
  split; [apply fetchFresh_filtered_cache; exact H|].
  apply fetchFresh_result; reflexivity.
Qed.

Lemma filtered_fetch_bypasses_cache_witness :
  Geography.requests
    (Geography.fetchBiblicalPlaces None (fun _ => 0%float)
       {| Geography.query := None;
          Geography.placeType := Some (JSString.lit "mountain");
          Geography.confidenceLevel := None;
          Geography.limit := None; Geography.offset := None |}
       (Some {| Geography.data := []; Geography.timestamp := 1000 |})
       1001 1002
       (Http.Responds 200 (Ok (JObj [(JSString.lit "documents", JArr [])]))))
  = [Geography.documentsRequest None].
Proof.
  apply (filtered_fetch_bypasses_cache None (fun _ => 0%float)
           {| Geography.query := None;
              Geography.placeType := Some (JSString.lit "mountain");
              Geography.confidenceLevel := None;
              Geography.limit := None; Geography.offset := None |}).
  reflexivity.
Defined.

(** C6.  Two calls of [fetchBiblicalPlaces] on an empty cache that get
    the same answer from the collaborator and differ in nothing but
    the place type and the confidence level issue the same request, the
    plain GET of the document listing, and settle to the same result:
    the filter object is built and dropped, and nothing but the domain
    test selects among the documents.  [getPlacesByType] therefore
    resolves to the same places for every type. *)
Theorem fetch_ignores_type_and_level
        (env : option jsstring) (parseFloat : JSValue -> float)
        (p1 p2 : Geography.SearchPlacesParams) (now_check now_store : Z)
        (outcome : Http.FetchOutcome) :
  Geography.limit p1 = Geography.limit p2 ->
  Geography.offset p1 = Geography.offset p2 ->
  Geography.query p1 = Geography.query p2 ->
  let run1 := Geography.fetchBiblicalPlaces env parseFloat p1 None
                now_check now_store outcome in
  let run2 := Geography.fetchBiblicalPlaces env parseFloat p2 None
                now_check now_store outcome in
  Geography.requests run1 = [Geography.documentsRequest env]
  /\ Geography.requests run2 = [Geography.documentsRequest env]
  /\ Geography.result run1 = Geography.result run2
  /\ (forall (type1 type2 : jsstring) (limit : option Z),
         fst (Geography.getPlacesByType env parseFloat type1 limit None
                now_check now_store outcome)
         = fst (Geography.getPlacesByType env parseFloat type2 limit None
                  now_check now_store outcome)).
Proof.
  intros Hl Ho _ run1 run2. subst run1 run2.
  rewrite !cold_is_fresh.
  split; [apply fetchFresh_requests|].
  split; [apply fetchFresh_requests|].
  split; [apply fetchFresh_result; assumption|].
  intros type1 type2 limit. unfold Geography.getPlacesByType. cbn [fst].
  rewrite !cold_is_fresh.
  rewrite (fetchFresh_result env parseFloat
             {| Geography.query := None; Geography.placeType := Some type1;
                Geography.confidenceLevel := None;
                Geography.limit := Some (default 50 limit);
                Geography.offset := None |}
             {| Geography.query := None; Geography.placeType := Some type2;
                Geography.confidenceLevel := None;
                Geography.limit := Some (default 50 limit);
                Geography.offset := None |} None None now_store now_store outcome);
    reflexivity.
Qed.

Lemma fetch_ignores_type_and_level_witness :
  Geography.result
    (Geography.fetchBiblicalPlaces None (fun _ => 0%float)
       {| Geography.query := None;
          Geography.placeType := Some (JSString.lit "mountain");
          Geography.confidenceLevel := Some Geography.high;
          Geography.limit := Some 10; Geography.offset := None |}
       None 1001 1002
       (Http.Responds 200
          (Ok (JObj [(JSString.lit "documents",
                      JArr [JObj [(JSString.lit "id", JStr (JSString.lit "p1"));
                                  (JSString.lit "content", JStr (JSString.lit "Jordan: a river"));
                                  (JSString.lit "metadata",
                                   JObj [(JSString.lit "domain",
                                          JStr (JSString.lit "geography/biblical"));
                                         (JSString.lit "place_type",
                                          JStr (JSString.lit "river"))])]])]))))
  = Geography.result
      (Geography.fetchBiblicalPlaces None (fun _ => 0%float)
         {| Geography.query := None;
            Geography.placeType := None;
            Geography.confidenceLevel := None;
            Geography.limit := Some 10; Geography.offset := None |}
         None 1001 1002
         (Http.Responds 200
            (Ok (JObj [(JSString.lit "documents",
                        JArr [JObj [(JSString.lit "id", JStr (JSString.lit "p1"));
                                    (JSString.lit "content", JStr (JSString.lit "Jordan: a river"));
                                    (JSString.lit "metadata",
                                     JObj [(JSString.lit "domain",
                                            JStr (JSString.lit "geography/biblical"));
                                           (JSString.lit "place_type",
                                            JStr (JSString.lit "river"))])]])])))).
Proof.
  apply (fetch_ignores_type_and_level None (fun _ => 0%float)
           {| Geography.query := None;
              Geography.placeType := Some (JSString.lit "mountain");
              Geography.confidenceLevel := Some Geography.high;
              Geography.limit := Some 10; Geography.offset := None |}
           {| Geography.query := None;
              Geography.placeType := None;
              Geography.confidenceLevel := None;
              Geography.limit := Some 10; Geography.offset := None |});
    reflexivity.
Defined.

(** A listing asked for mountains of high confidence holds the river of
    the response, with the low confidence that its missing score gives
    it. *)
Example mountains_listing_holds_river :
  match Geography.result
          (Geography.fetchBiblicalPlaces None (fun _ => 0%float)
             {| Geography.query := None;
                Geography.placeType := Some (JSString.lit "mountain");
                Geography.confidenceLevel := Some Geography.high;
                Geography.limit := Some 10; Geography.offset := None |}
             None 1001 1002
             (Http.Responds 200
                (Ok (JObj [(JSString.lit "documents",
                            JArr [JObj [(JSString.lit "id", JStr (JSString.lit "p1"));
                                        (JSString.lit "content",
                                         JStr (JSString.lit "Jordan: a river"));
                                        (JSString.lit "metadata",
                                         JObj [(JSString.lit "domain",
                                                JStr (JSString.lit "geography/biblical"));
                                               (JSString.lit "place_type",
                                                JStr (JSString.lit "river"))])]])]))))
  with
  | Ok response =>
      List.map (fun p => (Geography.name p, Geography.place_type p,
                          Geography.confidence_level p))
               (Geography.places response)
  | Throw _ => []
  end
  = [(JStr (JSString.lit "Jordan"), JStr (JSString.lit "river"), Geography.low)].
Proof. vm_compute. reflexivity. Qed.

(** ** The original-language lookups *)

(** C7, where the code departs from it.  [getGreekText] and
    [getInterlinear] never touch the verse cache: each call leaves the
    cache as it found it and reaches the provider, so a Greek lookup
    repeated at once, on the cache that the first one left, reaches the
    provider a second time, and the cache is as empty as before. *)
Theorem greek_and_interlinear_skip_cache :
  (forall (book : jsstring) (chapter verse : float)
          (verseCache : gmap jsstring Sword.Entry) (outcome : Http.FetchOutcome),
      Sword.cache_after (Sword.getGreekText book chapter verse verseCache outcome)
      = verseCache
      /\ Sword.lookups (Sword.getGreekText book chapter verse verseCache outcome)
         = [Sword.MockGreek book chapter verse])
  /\ (forall (book : jsstring) (chapter verse : float)
             (verseCache : gmap jsstring Sword.Entry) (outcome : Http.FetchOutcome),
         Sword.cache_after (Sword.getInterlinear book chapter verse verseCache outcome)
         = verseCache
         /\ Sword.lookups (Sword.getInterlinear book chapter verse verseCache outcome)
            = [Sword.MockInterlinear book chapter verse])
  /\ Sword.lookups
       (Sword.getGreekText (JSString.lit "John") 1 1
          (Sword.cache_after
             (Sword.getGreekText (JSString.lit "John") 1 1 ∅ (Http.Rejects TypeError)))
          (Http.Rejects TypeError))
     = [Sword.MockGreek (JSString.lit "John") 1 1]
  /\ Sword.cache_after
       (Sword.getGreekText (JSString.lit "John") 1 1 ∅ (Http.Rejects TypeError))
     = ∅.
Proof. repeat split. Qed.

(** The part of C7 that the code keeps: the Hebrew lookup is answered
    from the verse cache for 30 minutes, the unfiltered place listing
    from the places cache for 10 minutes. *)
Lemma cached_lookups_ttl :
  Sword.CACHE_TTL = 1800000 /\ Geography.CACHE_TTL = 600000
  /\ Sword.lookups
       (Sword.getHebrewText (JSString.lit "Genesis") 1 1
          (Sword.cache_after
             (Sword.getHebrewText (JSString.lit "Genesis") 1 1 ∅ 0 0
                (Http.Rejects TypeError)))
          1799999 1799999 (Http.Rejects TypeError))
     = []
  /\ Sword.lookups
       (Sword.getHebrewText (JSString.lit "Genesis") 1 1
          (Sword.cache_after
             (Sword.getHebrewText (JSString.lit "Genesis") 1 1 ∅ 0 0
                (Http.Rejects TypeError)))
          1800000 1800000 (Http.Rejects TypeError))
     = [Sword.MockHebrew (JSString.lit "Genesis") 1 1].
Proof.
  split; [reflexivity|]. split; [reflexivity|].
  split.
  - apply (getHebrewText_repeat (JSString.lit "Genesis") 1 1 ∅ 0 0 1799999 1799999).
    + discriminate.
    + reflexivity.
  - apply (getHebrewText_expired (JSString.lit "Genesis") 1 1 ∅ 0 0 1800000 1800000).
    + discriminate.
    + discriminate.
Qed.

(** ** The exporters *)

Section Strings.
Import JSString.

Lemma startsWith_app (t rest : jsstring) : startsWith t (t ++ rest) = true.
Proof.
  induction t as [|c t IH]; [reflexivity|].
  cbn. rewrite N.eqb_refl. exact IH.
Qed.

Lemma includes_unfold (t s : jsstring) :
  includes t s
  = startsWith t s || match s with [] => false | _ :: s' => includes t s' end.
Proof. destruct s; reflexivity. Qed.

Lemma includes_middle (before t rest : jsstring) :
  includes t (before ++ t ++ rest) = true.
Proof.
  induction before as [|c before IH].
  - cbn [app]. rewrite includes_unfold, startsWith_app. reflexivity.
  - cbn [app includes]. rewrite IH. apply orb_true_r.
Qed.

(** A line of the array is a part of the joined text. *)
Lemma join_split (sep line : jsstring) (lines : list jsstring) :
  In line lines ->
  exists before rest : jsstring, join sep lines = before ++ line ++ rest.
Proof.
  induction lines as [|l ls IH]; [contradiction|].
  intros [->|Hin].
  - destruct ls as [|l' ls'].
    + exists [], []. cbn [join app]. rewrite app_nil_r. reflexivity.
    + exists [], (sep ++ join sep (l' :: ls')). reflexivity.
  - destruct ls as [|l' ls']; [contradiction|].
    destruct (IH Hin) as (before & rest & Heq).
    exists (l ++ sep ++ before), rest.
    change (join sep (l :: l' :: ls')) with (l ++ sep ++ join sep (l' :: ls')).
    rewrite Heq, <- !app_assoc. reflexivity.
Qed.

Lemma includes_join (sep pre t post : jsstring) (lines : list jsstring) :
  In (pre ++ t ++ post) lines -> includes t (join sep lines) = true.
Proof.
  intros Hin. destruct (join_split sep _ _ Hin) as (before & rest & ->).
  rewrite <- !app_assoc, (app_assoc before pre).
  apply includes_middle.
Qed.
End Strings.

(** C9.  For the query shepherd, the translation kjv and the one result
    Psalms 23:1 of similarity 0.87, on any day and at any time,
    [exportResults] hands over a file whose name ends in [.txt] and
    whose body has the line [1. Psalms 23:1 (KJV)] and the line of the
    similarity, which reads [Similarity: 87%]. *)
Theorem export_text_scenario (today : jsstring) (now : Z) :
  exists d : SearchBar.Download,
    SearchBar.exportResults shepherdState today now = Some d
    /\ SearchBar.filename d
       = JSString.lit "search_shepherd_" ++ JSNumber.Z_digits now ++ JSString.lit ".txt"
    /\ SearchBar.content d = JSString.join [10%N] (SearchBar.exportLines shepherdState today)
    /\ In (JSString.lit "1. Psalms 23:1 (KJV)") (SearchBar.exportLines shepherdState today)
    /\ In (JSString.lit "   Similarity: 87%") (SearchBar.exportLines shepherdState today)
    /\ JSString.includes (JSString.lit "1. Psalms 23:1 (KJV)") (SearchBar.content d) = true
    /\ JSString.includes (JSString.lit "Similarity: 87%") (SearchBar.content d) = true.
Proof.
  assert (Hlines :
            SearchBar.allResultLines 0 (SearchBar.searchResults shepherdState)
            = [ JSString.lit "1. Psalms 23:1 (KJV)";
                JSString.lit "   Similarity: 87%";
                JSString.lit "   The LORD is my shepherd...";
                [] ]) by (vm_compute; reflexivity).
  assert (Hin : forall line,
             In line (SearchBar.allResultLines 0 (SearchBar.searchResults shepherdState)) ->
             In line (SearchBar.exportLines shepherdState today)).
  { intros line H. unfold SearchBar.exportLines.
    apply in_or_app. right. apply in_or_app. left. exact H. }
  assert (H1 : In (JSString.lit "1. Psalms 23:1 (KJV)")
                  (SearchBar.exportLines shepherdState today))
    by (apply Hin; rewrite Hlines; left; reflexivity).
  assert (H2 : In (JSString.lit "   Similarity: 87%")
                  (SearchBar.exportLines shepherdState today))
    by (apply Hin; rewrite Hlines; right; left; reflexivity).
  eexists. split; [reflexivity|]. cbn [SearchBar.filename SearchBar.content].
  split; [reflexivity|]. split; [reflexivity|].
  split; [exact H1|]. split; [exact H2|].
  split.
  - apply (includes_join [10%N] [] _ []). cbn [app]. rewrite app_nil_r. exact H1.
  - apply (includes_join [10%N] (JSString.lit "   ") _ []).
    cbn [app]. rewrite app_nil_r. exact H2.
Qed.

(** ** Reading the CSV export back *)

Section PlainStrings.
Import JSString JSNumber Csv.

Lemma plain_app (s t : jsstring) : plain (s ++ t) = plain s && plain t.
Proof. apply forallb_app. Qed.

Lemma plain_firstn (n : nat) (s : jsstring) : plain s = true -> plain (firstn n s) = true.
Proof.
  revert n. induction s as [|c s IH]; intros [|n] H; try reflexivity.
  cbn in H |- *. apply andb_true_iff in H as [Hc Hs].
  rewrite Hc. exact (IH n Hs).
Qed.

Lemma plain_skipn (n : nat) (s : jsstring) : plain s = true -> plain (skipn n s) = true.
Proof.
  revert n. induction s as [|c s IH]; intros [|n] H; try reflexivity; [exact H|].
  cbn in H |- *. apply andb_true_iff in H as [_ Hs]. exact (IH n Hs).
Qed.

Lemma plain_digits (d : Decimal.uint) : plain (uint_units d) = true.
Proof. induction d; cbn; try reflexivity; exact IHd. Qed.

Lemma plain_N_digits (n : N) : plain (N_digits n) = true.
Proof. apply plain_digits. Qed.

Lemma plain_zeros (n : Z) : plain (zeros n) = true.
Proof.
  unfold zeros. induction (Z.to_nat n) as [|k IH]; [reflexivity|exact IH].
Qed.

Lemma plain_exponent_part (n : Z) : plain (exponent_part n) = true.
Proof.
  unfold exponent_part. rewrite !plain_app, plain_N_digits.
  destruct (n - 1 <? 0); reflexivity.
Qed.

Lemma plain_layout (k s n : Z) : plain (layout k s n) = true.
Proof.
  unfold layout.
  repeat match goal with
         | |- context [if ?b then _ else _] => destruct b
         end;
    rewrite ?plain_app, ?plain_zeros, ?plain_exponent_part, ?plain_N_digits,
      ?plain_firstn, ?plain_skipn by apply plain_N_digits;
    reflexivity.
Qed.

Lemma plain_finite_toString (m : positive) (e : Z) : plain (finite_toString m e) = true.
Proof.
  unfold finite_toString. destruct (shortest m e) as [[k s] n]. apply plain_layout.
Qed.

(** The rendering of a Number has no comma, quote or line break. *)
Lemma plain_toString (x : float) : plain (toString x) = true.
Proof.
  unfold toString. destruct (Prim2SF x) as [sg|sg| |sg m e]; try reflexivity.
  - destruct sg; reflexivity.
  - rewrite plain_app, plain_finite_toString. destruct sg; reflexivity.
Qed.

Lemma plain_toFixed0 (x : float) : plain (toFixed0 x) = true.
Proof.
  unfold toFixed0. destruct (Prim2SF x) as [sg|sg| |sg m e]; try reflexivity.
  - destruct sg; reflexivity.
  - rewrite plain_app.
    destruct (Qle_bool (inject_Z (10 ^ 21)) (value m e));
      rewrite ?plain_finite_toString, ?plain_N_digits; destruct sg; reflexivity.
Qed.

Lemma plain_percent (x : float) : plain (SearchBar.percent x) = true.
Proof. unfold SearchBar.percent. rewrite plain_app, plain_toFixed0. reflexivity. Qed.

Lemma plain_translation (t : SearchBar.Translation) :
  plain (toUpperCase (SearchBar.translationId t)) = true.
Proof. destruct t; reflexivity. Qed.
End PlainStrings.

Create HintDb plain discriminated.
#[export] Hint Resolve plain_toString plain_percent plain_translation : plain.

Section Reader.
Import JSString Csv.

(** An unquoted field is read as it stands. *)
Lemma read_plain (f field : jsstring) (row : list jsstring) (rest : jsstring) :
  plain f = true ->
  parseFrom Unquoted field row (f ++ rest) = parseFrom Unquoted (field ++ f) row rest.
Proof.
  revert field. induction f as [|c f IH]; intros field H.
  - rewrite app_nil_r. reflexivity.
  - cbn in H. apply andb_true_iff in H as [Hc Hf].
    unfold plainUnit in Hc. apply negb_true_iff in Hc.
    apply orb_false_iff in Hc as [Hc H13]. apply orb_false_iff in Hc as [Hc H10].
    apply orb_false_iff in Hc as [H34 H44].
    cbn [app parseFrom]. rewrite H34, H44, H10, H13.
    rewrite (IH (field ++ [c]) Hf), <- app_assoc. reflexivity.
Qed.

(** An unquoted field and the comma after it. *)
Lemma read_plain_comma (f : jsstring) (row : list jsstring) (rest : jsstring) :
  plain f = true ->
  parseFrom Unquoted [] row (f ++ lit "," ++ rest)
  = parseFrom Unquoted [] (row ++ [f]) rest.
Proof. intros H. rewrite (read_plain f [] row _ H). reflexivity. Qed.

(** The escaped text inside its quotes. *)
Lemma read_quoted (t field : jsstring) (row : list jsstring) (rest : jsstring) :
  parseFrom Quoted field row (doubleQuotes t ++ rest)
  = parseFrom Quoted (field ++ t) row rest.
Proof.
  revert field. induction t as [|c t IH]; intros field.
  - rewrite app_nil_r. reflexivity.
  - cbn [doubleQuotes]. destruct (N.eqb c 34) eqn:Hc.
    + apply N.eqb_eq in Hc. subst c. cbn [app parseFrom N.eqb Pos.eqb].
      rewrite (IH (field ++ [34%N])), <- app_assoc. reflexivity.
    + cbn [app parseFrom]. rewrite Hc.
      rewrite (IH (field ++ [c])), <- app_assoc. reflexivity.
Qed.

(** The last field of a record: the quoted text, then the end of the
    input or the line feed before the next record. *)
Lemma read_text_end (t : jsstring) (row : list jsstring) :
  parseFrom Unquoted [] row ([34%N] ++ doubleQuotes t ++ [34%N]) = [row ++ [t]].
Proof.
  cbn [app]. change (parseFrom Unquoted [] row (34%N :: doubleQuotes t ++ [34%N]))
    with (parseFrom Quoted [] row (doubleQuotes t ++ [34%N])).
  rewrite read_quoted. reflexivity.
Qed.

Lemma read_text_line (t : jsstring) (row : list jsstring) (rest : jsstring) :
  parseFrom Unquoted [] row (([34%N] ++ doubleQuotes t ++ [34%N]) ++ [10%N] ++ rest)
  = (row ++ [t]) :: parseFrom Unquoted [] [] rest.
Proof.
  rewrite <- !app_assoc. cbn [app].
  change (parseFrom Unquoted [] row (34%N :: doubleQuotes t ++ 34%N :: 10%N :: rest))
    with (parseFrom Quoted [] row (doubleQuotes t ++ 34%N :: 10%N :: rest)).
  rewrite read_quoted. reflexivity.
Qed.

Lemma lineOf_unfold (r : SearchBar.SearchResult) :
  lineOf r
  = SearchBar.verse_ref r ++ lit "," ++ SearchBar.book r ++ lit ","
    ++ JSNumber.toString (SearchBar.chapter r) ++ lit ","
    ++ JSNumber.toString (SearchBar.verse r) ++ lit ","
    ++ toUpperCase (SearchBar.translationId (SearchBar.translation r)) ++ lit ","
    ++ SearchBar.percent (SearchBar.similarity r) ++ lit ","
    ++ ([34%N] ++ doubleQuotes (SearchBar.text r) ++ [34%N]).
Proof. reflexivity. Qed.

Lemma read_line_end (r : SearchBar.SearchResult) :
  plainResult r -> parseFrom Unquoted [] [] (lineOf r) = [recordOf r].
Proof.
  intros [Href Hbook]. rewrite lineOf_unfold.
  rewrite (read_plain_comma _ _ _ Href), (read_plain_comma _ _ _ Hbook).
  rewrite !read_plain_comma
    by auto with plain.
  rewrite read_text_end. reflexivity.
Qed.

Lemma read_line (r : SearchBar.SearchResult) (rest : jsstring) :
  plainResult r ->
  parseFrom Unquoted [] [] (lineOf r ++ [10%N] ++ rest)
  = recordOf r :: parseFrom Unquoted [] [] rest.
Proof.
  intros [Href Hbook]. rewrite lineOf_unfold. rewrite <- !app_assoc.
  rewrite (read_plain_comma _ _ _ Href), (read_plain_comma _ _ _ Hbook).
  rewrite !read_plain_comma
    by auto with plain.
  rewrite !app_assoc, <- (app_assoc _ [10%N] rest).
  rewrite <- (app_assoc [34%N]).
  rewrite read_text_line. reflexivity.
Qed.

Lemma read_lines (r : SearchBar.SearchResult) (results : list SearchBar.SearchResult) :
  Forall plainResult (r :: results) ->
  parseFrom Unquoted [] [] (join [10%N] (List.map lineOf (r :: results)))
  = List.map recordOf (r :: results).
Proof.
  revert r. induction results as [|r' results IH]; intros r H.
  - inversion H; subst. cbn [List.map join]. apply read_line_end. assumption.
  - inversion H as [|? ? Hr Hrest]; subst.
    change (join [10%N] (List.map lineOf (r :: r' :: results)))
      with (lineOf r ++ [10%N] ++ join [10%N] (List.map lineOf (r' :: results))).
    rewrite (read_line r _ Hr), (IH r' Hrest). reflexivity.
Qed.

Lemma read_header (rest : jsstring) :
  parseFrom Unquoted [] [] (join (lit ",") SearchBar.csvHeaders ++ [10%N] ++ rest)
  = SearchBar.csvHeaders :: parseFrom Unquoted [] [] rest.
Proof. reflexivity. Qed.
End Reader.

(** C8, as the code has it.  The CSV export has the header row
    [Reference,Book,Chapter,Verse,Translation,Similarity,Text] and one
    row per result; the text is written between double quotes with its
    double quotes doubled, the similarity as the rounded percentage and
    a percent sign.  When no reference and no book holds a comma, a
    double quote or a line break (they are written as they are), reading
    the export back gives the header and, result by result, the
    reference and the text as they were and the translation in upper
    case. *)
Theorem csv_export_read_back (s : SearchBar.State) (now : Z) (d : SearchBar.Download) :
  SearchBar.exportAsCSV s now = Some d ->
  Forall Csv.plainResult (SearchBar.searchResults s) ->
  Csv.parseCSV (SearchBar.content d)
  = SearchBar.csvHeaders :: List.map Csv.recordOf (SearchBar.searchResults s)
  /\ List.map Csv.recovered (List.tl (Csv.parseCSV (SearchBar.content d)))
     = List.map Csv.originalUpper (SearchBar.searchResults s)
  /\ length (Csv.parseCSV (SearchBar.content d))
     = S (length (SearchBar.searchResults s))
  /\ JSString.join (JSString.lit ",") SearchBar.csvHeaders
     = JSString.lit "Reference,Book,Chapter,Verse,Translation,Similarity,Text"
  /\ (forall r : SearchBar.SearchResult,
         nth 6 (SearchBar.csvRow r) []
         = [34%N] ++ JSString.doubleQuotes (SearchBar.text r) ++ [34%N]
         /\ nth 5 (SearchBar.csvRow r) []
            = JSNumber.toFixed0 (SearchBar.similarity r * 100)%float ++ JSString.lit "%").
Proof.
  intros Hexport Hplain. unfold SearchBar.exportAsCSV in Hexport.
  destruct (SearchBar.searchResults s) as [|r results] eqn:Hresults; [discriminate|].
  injection Hexport as <-. cbn [SearchBar.content].
  assert (Hread : Csv.parseCSV (SearchBar.csvContent (r :: results))
                  = SearchBar.csvHeaders :: List.map Csv.recordOf (r :: results)).
  { unfold Csv.parseCSV, SearchBar.csvContent. rewrite List.map_map.
    change (List.map (fun x => JSString.join (JSString.lit ",") (SearchBar.csvRow x))
                     (r :: results))
      with (List.map Csv.lineOf (r :: results)).
    change (JSString.join [10%N]
              (JSString.join (JSString.lit ",") SearchBar.csvHeaders
               :: List.map Csv.lineOf (r :: results)))
      with (JSString.join (JSString.lit ",") SearchBar.csvHeaders
            ++ [10%N] ++ JSString.join [10%N] (List.map Csv.lineOf (r :: results))).
    rewrite read_header, (read_lines r results Hplain). reflexivity. }
  rewrite Hread. split; [reflexivity|].
  split; [cbn [List.tl]; rewrite List.map_map; reflexivity|].
  split; [cbn [length]; rewrite length_map; reflexivity|].
  split; [reflexivity|].
  intros r0. split; reflexivity.
Qed.

Lemma csv_export_read_back_witness :
  List.map Csv.recovered
    (List.tl (Csv.parseCSV (SearchBar.csvContent (SearchBar.searchResults shepherdState))))
  = [(JSString.lit "Psalms 23:1", JSString.lit "KJV",
      JSString.lit "The LORD is my shepherd...")].
Proof.
  destruct (csv_export_read_back shepherdState 0
              {| SearchBar.filename := SearchBar.downloadName shepherdState 0 ".csv";
                 SearchBar.mime := JSString.lit "text/csv";
                 SearchBar.content :=
                   SearchBar.csvContent (SearchBar.searchResults shepherdState) |})
    as (_ & H & _).
  - reflexivity.
  - repeat constructor.
  - exact H.
Defined.

(** C8, as the claim states it, fails: read back, the translation of the
    result of the scenario is [KJV], which is not the [kjv] of the
    result; and a reference that holds a comma is read back as two
    fields, the first of which is not the reference. *)
Lemma csv_fields_not_recovered :
  List.map Csv.recovered
    (List.tl (Csv.parseCSV (SearchBar.csvContent (SearchBar.searchResults shepherdState))))
  <> List.map Csv.original (SearchBar.searchResults shepherdState)
  /\ List.map (fun record => nth 0 record [])
       (List.tl (Csv.parseCSV (SearchBar.csvContent [rangeResult])))
     <> [SearchBar.verse_ref rangeResult].
Proof.
  split; intros H; vm_compute in H; discriminate H.
Qed.

(* ===================================================================== *)
(** * Further properties of the place listing *)
(* ===================================================================== *)

Lemma bindR_ok {A B : Type} (r : Result A) (k : A -> Result B) (b : B) :
  bindR r k = Ok b -> exists a : A, r = Ok a /\ k a = Ok b.
Proof. destruct r as [a|e]; [intros H; exists a; split; [reflexivity|exact H]|discriminate]. Qed.

Lemma mapR_ok {A B : Type} (f : A -> Result B) (l : list A) (bs : list B) :
  mapR f l = Ok bs -> Forall2 (fun a b => f a = Ok b) l bs.
Proof.
  revert bs. induction l as [|a l IH]; intros bs H; cbn [mapR] in H.
  - injection H as <-. constructor.
  - apply bindR_ok in H as (b & Hb & H). apply bindR_ok in H as (bs' & Hbs & H).
    injection H as <-. constructor; [exact Hb|apply IH; exact Hbs].
Qed.

(** Inversion of a chain of [try!] that ends well. *)
Ltac try_ok H :=
  repeat match type of H with
         | bindR _ _ = Ok _ =>
             let a := fresh "v" in let Ha := fresh "Hv" in
             apply bindR_ok in H as (a & Ha & H)
         end.

Section Slices.
Context {A : Type}.

Lemma slice_page (l : list A) (offset limit : Z) :
  0 <= offset -> 0 <= limit ->
  JS.slice l offset (offset + limit)
  = firstn (Z.to_nat limit) (skipn (Z.to_nat offset) l).
Proof.
  intros Ho Hl. unfold JS.slice, JS.sliceIndex.
  destruct (Z.ltb_spec offset 0) as [?|_]; [lia|].
  destruct (Z.ltb_spec (offset + limit) 0) as [?|_]; [lia|].
  assert (Hlen : length (skipn (Z.to_nat offset) l)
                 = (length l - Z.to_nat offset)%nat) by apply length_skipn.
  destruct (Z.le_gt_cases (Z.of_nat (length l)) offset) as [Hout|Hin].
  - rewrite (Z.min_r offset) by lia. rewrite Z.min_r by lia.
    rewrite Z.sub_diag. transitivity (@nil A); [reflexivity|].
    rewrite (skipn_all2 l) by lia. rewrite firstn_nil. reflexivity.
  - rewrite (Z.min_l offset) by lia.
    destruct (Z.le_gt_cases (offset + limit) (Z.of_nat (length l))) as [Hfit|Hover].
    + rewrite Z.min_l by lia. f_equal. lia.
    + rewrite Z.min_r by lia.
      rewrite !firstn_all2 by (rewrite Hlen; lia). reflexivity.
Qed.

Lemma slice_length (l : list A) (offset limit : Z) :
  0 <= offset -> 0 <= limit ->
  (length (JS.slice l offset (offset + limit)) <= Z.to_nat limit)%nat.
Proof.
  intros Ho Hl. rewrite slice_page by assumption. rewrite length_firstn. lia.
Qed.

End Slices.

Section PlacesMore.
Import Geography.
Variable env : option jsstring.
Variable parseFloat : JSValue -> float.

Lemma rethrow_is_error (e : Exn) : JS.instanceofError (rethrow e) = true.
Proof. destruct e; reflexivity. Qed.

Lemma statusError_is_error (status : N) : JS.instanceofError (statusError status) = true.
Proof.
  unfold statusError. destruct (N.eqb status 404); [reflexivity|].
  destruct (N.eqb status 503); reflexivity.
Qed.

(** Once the documents could be read, [data.total] can be read. *)
Lemma allPlacesOf_total (data : JSValue) (allPlaces : list BiblicalPlace) :
  allPlacesOf parseFloat data = Ok allPlaces ->
  exists t : JSValue, JS.prop data "total" = Ok t.
Proof.
  destruct data; cbn; try discriminate; intros _; eexists; reflexivity.
Qed.

(** What the [try] statement has done when its promise is fulfilled. *)
Lemma fetchFresh_ok (params : SearchPlacesParams) (placesCache : option CacheEntry)
      (now_store : Z) (outcome : Http.FetchOutcome) (response : PlacesResponse) :
  result (fetchFresh env parseFloat params placesCache now_store outcome) = Ok response ->
  exists (status : N) (data : JSValue) (allPlaces : list BiblicalPlace),
    outcome = Http.Responds status (Ok data)
    /\ Http.ok status = true
    /\ allPlacesOf parseFloat data = Ok allPlaces
    /\ places response
       = JS.slice allPlaces (default 0 (offset params))
           (default 0 (offset params) + default 100 (limit params))
    /\ cache_after (fetchFresh env parseFloat params placesCache now_store outcome)
       = (if negb (supplied (placeType params))
             && negb (suppliedLevel (confidenceLevel params))
          then cachePut allPlaces now_store else placesCache).
Proof.
  unfold fetchFresh.
  destruct outcome as [e|status json]; [discriminate|].
  destruct (Http.ok status) eqn:Hok; cbn [negb]; [|discriminate].
  destruct json as [data|e]; [|discriminate].
  destruct (allPlacesOf parseFloat data) as [allPlaces|e] eqn:Hall; [|discriminate].
  destruct (JS.prop data "total") as [t|e]; [|discriminate].
  cbn [result cache_after]. intros H. injection H as <-.
  exists status, data, allPlaces. repeat split; first [assumption|reflexivity].
Qed.

(** What the [try] statement has done when its promise is rejected. *)
Lemma fetchFresh_throw (params : SearchPlacesParams) (placesCache : option CacheEntry)
      (now_store : Z) (outcome : Http.FetchOutcome) (e : Exn) :
  result (fetchFresh env parseFloat params placesCache now_store outcome) = Throw e ->
  JS.instanceofError e = true
  /\ cache_after (fetchFresh env parseFloat params placesCache now_store outcome)
     = placesCache.
Proof.
  unfold fetchFresh.
  destruct outcome as [e0|status [data|e0]].
  - cbn. intros H. injection H as <-. split; [apply rethrow_is_error|reflexivity].
  - destruct (negb (Http.ok status)).
    + cbn. intros H. injection H as <-. split; [apply rethrow_is_error|reflexivity].
    + destruct (allPlacesOf parseFloat data) as [allPlaces|e0] eqn:Hall.
      * destruct (allPlacesOf_total _ _ Hall) as [t ->]. discriminate.
      * cbn. intros H. injection H as <-. split; [apply rethrow_is_error|reflexivity].
  - destruct (negb (Http.ok status));
      cbn; intros H; injection H as <-; (split; [apply rethrow_is_error|reflexivity]).
Qed.

(** A call is answered from the cache or is the [try] statement. *)
Lemma fetch_cases (params : SearchPlacesParams) (placesCache : option CacheEntry)
      (now_check now_store : Z) (outcome : Http.FetchOutcome) :
  (exists cached : list BiblicalPlace,
      negb (supplied (placeType params))
      && negb (suppliedLevel (confidenceLevel params)) = true
      /\ cacheGet placesCache now_check = Some cached
      /\ fetchBiblicalPlaces env parseFloat params placesCache now_check now_store outcome
         = {| result :=
                Ok {| places := JS.slice cached (default 0 (offset params))
                                  (default 0 (offset params) + default 100 (limit params));
                      total := JNum (JSNumber.of_nat (length cached)) |};
              cache_after := placesCache;
              requests := [] |})
  \/ fetchBiblicalPlaces env parseFloat params placesCache now_check now_store outcome
     = fetchFresh env parseFloat params placesCache now_store outcome.
Proof.
  unfold fetchBiblicalPlaces.
  destruct (negb (supplied (placeType params))
            && negb (suppliedLevel (confidenceLevel params))); [|right; reflexivity].
  destruct (cacheGet placesCache now_check) as [cached|]; [|right; reflexivity].
  left. exists cached. repeat split.
Qed.

Lemma fetch_places_bound (params : SearchPlacesParams) (placesCache : option CacheEntry)
      (now_check now_store : Z) (outcome : Http.FetchOutcome)
      (response : PlacesResponse) :
  0 <= default 0 (offset params) -> 0 <= default 100 (limit params) ->
  result (fetchBiblicalPlaces env parseFloat params placesCache
            now_check now_store outcome) = Ok response ->
  (length (places response) <= Z.to_nat (default 100%Z (limit params)))%nat.
Proof.
  intros Ho Hl.
  destruct (fetch_cases params placesCache now_check now_store outcome)
    as [(cached & _ & _ & ->)| ->].
  - cbn [result]. intros H. injection H as <-. cbn [places].
    apply slice_length; assumption.
  - intros H. apply fetchFresh_ok in H as (status & data & allPlaces & _ & _ & _ & -> & _).
    apply slice_length; assumption.
Qed.
End PlacesMore.



(** X2.  A call of [fetchBiblicalPlaces] whose promise is rejected
    leaves the places cache as it was: the cache is written only when
    the response was ok, its body was read and every document was
    transformed. *)
Theorem fetch_failure_keeps_cache
        (env : option jsstring) (parseFloat : JSValue -> float)
        (params : Geography.SearchPlacesParams)
        (placesCache : option Geography.CacheEntry) (now_check now_store : Z)
        (outcome : Http.FetchOutcome) (e : Exn) :
  Geography.result
    (Geography.fetchBiblicalPlaces env parseFloat params placesCache
       now_check now_store outcome) = Throw e ->
  Geography.cache_after
    (Geography.fetchBiblicalPlaces env parseFloat params placesCache
       now_check now_store outcome) = placesCache.
Proof.
  destruct (fetch_cases env parseFloat params placesCache now_check now_store outcome)
    as [(cached & _ & _ & ->)| ->]; [discriminate|].
  intros H. apply (fetchFresh_throw env parseFloat _ _ _ _ _ H).
Qed.

Lemma fetch_failure_keeps_cache_witness :
  Geography.cache_after
    (Geography.fetchBiblicalPlaces None (fun _ => 0%float)
       {| Geography.query := None; Geography.placeType := None;
          Geography.confidenceLevel := None;
          Geography.limit := None; Geography.offset := None |}
       (Some {| Geography.data := []; Geography.timestamp := 0 |})
       600000 600001
       (Http.Responds 200 (Ok (JObj [(JSString.lit "documents", JArr [JNull])]))))
  = Some {| Geography.data := []; Geography.timestamp := 0 |}.
Proof.
  apply (fetch_failure_keeps_cache None (fun _ => 0%float) _ _ _ _ _ TypeError).
  reflexivity.
Defined.

(** X3.  With an offset and a limit that are not negative, the promise
    of [fetchBiblicalPlaces] is never fulfilled with more places than
    the limit (100 when none is given), whether the cache or the
    collaborator answers. *)
Theorem fetch_respects_limit
        (env : option jsstring) (parseFloat : JSValue -> float)
        (params : Geography.SearchPlacesParams)
        (placesCache : option Geography.CacheEntry) (now_check now_store : Z)
        (outcome : Http.FetchOutcome) (response : Geography.PlacesResponse) :
  0 <= default 0 (Geography.offset params) ->
  0 <= default 100 (Geography.limit params) ->
  Geography.result
    (Geography.fetchBiblicalPlaces env parseFloat params placesCache
       now_check now_store outcome) = Ok response ->
  (length (Geography.places response)
   <= Z.to_nat (default 100%Z (Geography.limit params)))%nat.
Proof. apply fetch_places_bound. Qed.

(** X3's bound at work: two places asked for, three on offer. *)
Lemma fetch_respects_limit_witness :
  (length
     (Geography.places
        {| Geography.places :=
             JS.slice (List.repeat
                         {| Geography.id := JNull; Geography.document_id := JNull;
                            Geography.name := JNull; Geography.latitude := 0;
                            Geography.longitude := 0; Geography.place_type := JNull;
                            Geography.confidence_score := 0;
                            Geography.confidence_level := Geography.low;
                            Geography.verse_references := JNull;
                            Geography.alternate_names := JNull;
                            Geography.content := JNull |} 3) 0 (0 + 2);
           Geography.total := JNum (JSNumber.of_nat 3) |})
   <= Z.to_nat 2)%nat.
Proof.
  apply (fetch_respects_limit None (fun _ => 0%float)
           {| Geography.query := None; Geography.placeType := None;
              Geography.confidenceLevel := None;
              Geography.limit := Some 2; Geography.offset := None |}
           (Some {| Geography.data :=
                      List.repeat
                        {| Geography.id := JNull; Geography.document_id := JNull;
                           Geography.name := JNull; Geography.latitude := 0;
                           Geography.longitude := 0; Geography.place_type := JNull;
                           Geography.confidence_score := 0;
                           Geography.confidence_level := Geography.low;
                           Geography.verse_references := JNull;
                           Geography.alternate_names := JNull;
                           Geography.content := JNull |} 3;
                    Geography.timestamp := 0 |})
           1 1 (Http.Rejects TypeError)).
  - discriminate.
  - discriminate.
  - reflexivity.
Defined.





(** ** Documents and places *)

Section Transform.
Import Geography.
Variable parseFloat : JSValue -> float.

Lemma truthy_not_nan (x : float) : JSNumber.truthy x = true -> Prim2SF x <> S754_nan.
Proof. unfold JSNumber.truthy. destruct (Prim2SF x); discriminate. Qed.

Lemma parseFloatOr0_not_nan (v : JSValue) :
  Prim2SF (parseFloatOr0 parseFloat v) <> S754_nan.
Proof.
  unfold parseFloatOr0.
  destruct (JSNumber.truthy (parseFloat v)) eqn:Ht; [apply truthy_not_nan; exact Ht|].
  discriminate.
Qed.

Lemma transform_wellFormed (doc : JSValue) (place : BiblicalPlace) :
  transformDocumentToPlace parseFloat doc = Ok place -> wellFormed place.
Proof.
  unfold transformDocumentToPlace. intros H. try_ok H. injection H as <-.
  unfold wellFormed; cbn. repeat split; apply parseFloatOr0_not_nan.
Qed.

Lemma mapR_all {A B : Type} (f : A -> Result B) (P : B -> Prop) (l : list A)
      (bs : list B) :
  (forall a b, f a = Ok b -> P b) -> mapR f l = Ok bs -> Forall P bs.
Proof.
  intros Hf H. apply mapR_ok in H. induction H; constructor; eauto.
Qed.

Lemma allPlaces_wellFormed (data : JSValue) (allPlaces : list BiblicalPlace) :
  allPlacesOf parseFloat data = Ok allPlaces -> Forall wellFormed allPlaces.
Proof.
  unfold allPlacesOf. intros H. apply bindR_ok in H as (documents & _ & H).
  destruct documents; try discriminate.
  apply bindR_ok in H as (kept & _ & H).
  apply (mapR_all _ _ _ _ transform_wellFormed H).
Qed.
End Transform.

(** X6.  Whatever the document and whatever [parseFloat] makes of its
    fields, a place made by [transformDocumentToPlace] has a latitude, a
    longitude and a confidence score that are numbers ([NaN] is replaced
    by 0), and its confidence level is the level of its score; so have
    all the places of a listing and the place of [getPlaceDetails]. *)
Theorem places_are_wellFormed
        (env : option jsstring) (parseFloat : JSValue -> float) :
  (forall (doc : JSValue) (place : Geography.BiblicalPlace),
      Geography.transformDocumentToPlace parseFloat doc = Ok place ->
      Geography.wellFormed place)
  /\ (forall (params : Geography.SearchPlacesParams) (now_check now_store : Z)
             (outcome : Http.FetchOutcome) (response : Geography.PlacesResponse),
         Geography.result
           (Geography.fetchBiblicalPlaces env parseFloat params None
              now_check now_store outcome) = Ok response ->
         Forall Geography.wellFormed (Geography.places response))
  /\ (forall (documentId : jsstring) (outcome : Http.FetchOutcome)
             (place : Geography.BiblicalPlace),
         fst (Geography.getPlaceDetails env parseFloat documentId outcome)
         = Ok (Some place) ->
         Geography.wellFormed place).
Proof.
  split; [apply transform_wellFormed|]. split.
  - intros params now_check now_store outcome response H.
    rewrite cold_is_fresh in H.
    apply fetchFresh_ok in H as (status & data & allPlaces & _ & _ & Hall & -> & _).
    apply allPlaces_wellFormed in Hall.
    unfold JS.slice. apply Forall_take, Forall_drop. exact Hall.
  - intros documentId outcome place. unfold Geography.getPlaceDetails. cbn [fst].
    destruct outcome as [e|status json]; [discriminate|].
    destruct (negb (Http.ok status)).
    + destruct (N.eqb status 404); discriminate.
    + destruct json as [doc|e]; [|discriminate].
      intros H. apply bindR_ok in H as (p & Hp & H). injection H as <-.
      apply (transform_wellFormed parseFloat doc p Hp).
Qed.

(** A document whose confidence is not a number makes a place of score
    0 and of low confidence. *)
Lemma places_are_wellFormed_witness :
  Geography.wellFormed
    {| Geography.id := JStr (JSString.lit "p1");
       Geography.document_id := JStr (JSString.lit "p1");
       Geography.name := JStr (JSString.lit "Unknown Place");
       Geography.latitude := 0; Geography.longitude := 0;
       Geography.place_type := JStr (JSString.lit "unknown");
       Geography.confidence_score := 0;
       Geography.confidence_level := Geography.low;
       Geography.verse_references := JArr [];
       Geography.alternate_names := JArr [];
       Geography.content := JStr [] |}.
Proof.
  apply (proj1 (places_are_wellFormed None (fun _ => nan))
           (JObj [(JSString.lit "id", JStr (JSString.lit "p1"))])).
  reflexivity.
Defined.

Section SplitJoin.
Import JSString.

Lemma split_without (sep : N) (p : jsstring) : ~ In sep p -> split sep p = [p].
Proof.
  induction p as [|c p IH]; intros H; [reflexivity|].
  cbn [split]. destruct (N.eqb_spec c sep) as [->|_]; [exfalso; apply H; left; reflexivity|].
  rewrite IH by (intros Hin; apply H; right; exact Hin). reflexivity.
Qed.

Lemma split_nonempty (sep : N) (s : jsstring) : split sep s <> [].
Proof.
  destruct s as [|c s]; [discriminate|]. cbn [split].
  destruct (N.eqb c sep); [discriminate|]. destruct (split sep s); discriminate.
Qed.

Lemma split_app (sep : N) (p rest : jsstring) :
  ~ In sep p -> split sep (p ++ sep :: rest) = p :: split sep rest.
Proof.
  induction p as [|c p IH]; intros H.
  - cbn [app split]. rewrite N.eqb_refl. reflexivity.
  - cbn [app split]. destruct (N.eqb_spec c sep) as [->|_]; [exfalso; apply H; left; reflexivity|].
    rewrite IH by (intros Hin; apply H; right; exact Hin). reflexivity.
Qed.

(** Splitting what was joined gives the pieces back. *)
Lemma split_join (sep : N) (p : jsstring) (ps : list jsstring) :
  Forall (fun q => ~ In sep q) (p :: ps) -> split sep (join [sep] (p :: ps)) = p :: ps.
Proof.
  revert p. induction ps as [|q ps IH]; intros p H.
  - inversion H; subst. apply split_without. assumption.
  - inversion H as [|? ? Hp Hrest]; subst.
    change (join [sep] (p :: q :: ps)) with (p ++ sep :: join [sep] (q :: ps)).
    rewrite split_app by assumption. rewrite IH by assumption. reflexivity.
Qed.

(** No piece holds the separator. *)
Lemma split_pieces (sep : N) (s : jsstring) : Forall (fun q => ~ In sep q) (split sep s).
Proof.
  induction s as [|c s IH]; [repeat constructor; intros []|].
  cbn [split]. destruct (N.eqb_spec c sep) as [->|Hne].
  - constructor; [intros []|exact IH].
  - destruct (split sep s) as [|p ps]; [repeat constructor; intros [?|[]]; congruence|].
    inversion IH as [|? ? Hp Hps]; subst. constructor; [|exact Hps].
    intros [?|Hin]; [congruence|exact (Hp Hin)].
Qed.

(** The pieces are made of the code units of the string. *)
Lemma split_units (sep : N) (s p : jsstring) (c : N) :
  In p (split sep s) -> In c p -> In c s.
Proof.
  revert p. induction s as [|d s IH]; intros p Hp Hc.
  - destruct Hp as [<-|[]]. destruct Hc.
  - cbn [split] in Hp. destruct (N.eqb d sep).
    + destruct Hp as [<-|Hp]; [destruct Hc|right; apply (IH p Hp Hc)].
    + destruct (split sep s) as [|q qs] eqn:Hs.
      * destruct Hp as [<-|[]]. destruct Hc as [<-|[]]. left; reflexivity.
      * destruct Hp as [<-|Hp].
        -- destruct Hc as [<-|Hc]; [left; reflexivity|right; apply (IH q); [left; reflexivity|exact Hc]].
        -- right. apply (IH p); [right; exact Hp|exact Hc].
Qed.

Lemma In_firstn {A : Type} (n : nat) (l : list A) (x : A) :
  In x (firstn n l) -> In x l.
Proof.
  revert l. induction n as [|n IH]; intros [|y l] H; try contradiction.
  destruct H as [<-|H]; [left; reflexivity|right; exact (IH l H)].
Qed.

Lemma trimStart_units (s : jsstring) (c : N) : In c (trimStart s) -> In c s.
Proof.
  induction s as [|d s IH]; [intros []|]. cbn [trimStart].
  destruct (isWhiteSpace d); [intros H; right; exact (IH H)|intros H; exact H].
Qed.

Lemma trim_units (s : jsstring) (c : N) : In c (trim s) -> In c s.
Proof.
  unfold trim, trimEnd. intros H. apply in_rev in H. apply trimStart_units in H.
  apply in_rev in H. apply trimStart_units in H. exact H.
Qed.

Lemma notColonPrefix_units (s : jsstring) (c : N) :
  In c (Geography.notColonPrefix s) -> In c s /\ c <> 58%N.
Proof.
  induction s as [|d s IH]; [intros []|]. cbn [Geography.notColonPrefix].
  destruct (N.eqb_spec d 58) as [->|Hne]; [intros []|].
  intros [<-|H]; [split; [left; reflexivity|exact Hne]|].
  destruct (IH H) as [Hin Hc]. split; [right; exact Hin|exact Hc].
Qed.
End SplitJoin.

(** X7.  The verse references and the alternate names of a document:
    an array is kept as it is; a string is cut at its commas and the
    empty pieces are dropped, so that the comma-joined text of
    non-empty pieces without a comma gives these pieces back and no
    piece is ever empty or holds a comma; a missing or empty value
    gives the empty array; any other value makes the transformation
    throw a [TypeError]. *)
Theorem stringList_behaviour :
  (forall items : list JSValue, Geography.stringList (JArr items) = Ok (JArr items))
  /\ (forall ps : list jsstring,
         Forall (fun p => p <> [] /\ ~ In 44%N p) ps ->
         Geography.stringList (JStr (JSString.join (JSString.lit ",") ps))
         = Ok (JArr (List.map JStr ps)))
  /\ (forall s : jsstring,
         exists ps : list jsstring,
           Geography.stringList (JStr s) = Ok (JArr (List.map JStr ps))
           /\ Forall (fun p => p <> [] /\ ~ In 44%N p) ps)
  /\ (forall v : JSValue,
         JS.truthy v = false -> Geography.stringList v = Ok (JArr []))
  /\ (forall v : JSValue,
         JS.truthy v = true -> (forall s, v <> JStr s) -> (forall items, v <> JArr items) ->
         Geography.stringList v = Throw TypeError).
Proof.
  assert (Hkeep : forall ps : list jsstring,
             Forall (fun p => p <> [] /\ ~ In 44%N p) ps ->
             List.filter (fun p : jsstring => match p with [] => false | _ => true end) ps
             = ps).
  { induction 1 as [|p ps [Hp _] _ IH]; [reflexivity|].
    cbn [List.filter]. destruct p; [contradiction|]. rewrite IH. reflexivity. }
  split; [reflexivity|]. split; [|split; [|split]].
  - intros ps Hps. destruct ps as [|p ps]; [reflexivity|].
    unfold Geography.stringList.
    assert (Hor : JS.or (JStr (JSString.join (JSString.lit ",") (p :: ps))) (JStr [])
                  = JStr (JSString.join (JSString.lit ",") (p :: ps))
                  \/ JSString.join (JSString.lit ",") (p :: ps) = []).
    { unfold JS.or. cbn [JS.truthy].
      destruct (JSString.join (JSString.lit ",") (p :: ps)); [right|left]; reflexivity. }
    destruct Hor as [Hor|Hempty].
    + rewrite Hor. cbn [JS.callSplit bindR].
      change (JSString.lit ",") with [44%N].
      rewrite split_join by (eapply List.Forall_impl; [|exact Hps]; intros ? [_ ?]; assumption).
      rewrite (Hkeep _ Hps). reflexivity.
    + exfalso. inversion Hps as [|? ? [Hp _] _]; subst.
      destruct p; [contradiction|]. destruct ps; discriminate.
  - intros s. unfold Geography.stringList.
    assert (Hor : JS.or (JStr s) (JStr []) = JStr s)
      by (unfold JS.or; destruct s; reflexivity).
    rewrite Hor. cbn [JS.callSplit bindR].
    eexists. split; [reflexivity|].
    apply List.Forall_forall. intros p Hp. apply List.filter_In in Hp as [Hp Hne].
    split; [destruct p; [discriminate|discriminate]|].
    exact (proj1 (List.Forall_forall _ _) (split_pieces 44 s) p Hp).
  - intros v Hv. destruct v as [| |b|x|s|items|fields]; try discriminate Hv; try reflexivity.
    + destruct b; [discriminate|reflexivity].
    + unfold Geography.stringList, JS.or. rewrite Hv. reflexivity.
    + destruct s; [reflexivity|discriminate].
  - intros v Hv Hs Ha. destruct v as [| |b|x|s|items|fields]; try discriminate Hv.
    + destruct b; [reflexivity|discriminate].
    + unfold Geography.stringList, JS.or. rewrite Hv. reflexivity.
    + exfalso. apply (Hs s). reflexivity.
    + exfalso. apply (Ha items). reflexivity.
    + reflexivity.
Qed.

Lemma stringList_behaviour_witness :
  Geography.stringList
    (JStr (JSString.join (JSString.lit ",")
             [JSString.lit "Gen 2:14"; JSString.lit "Dan 10:4"]))
  = Ok (JArr [JStr (JSString.lit "Gen 2:14"); JStr (JSString.lit "Dan 10:4")]).
Proof.
  apply (proj1 (proj2 stringList_behaviour)
           [JSString.lit "Gen 2:14"; JSString.lit "Dan 10:4"]).
  apply List.Forall_cons; [split; [discriminate|intros H; vm_compute in H; repeat (destruct H as [H|H]; [discriminate H|]); exact H]|].
  apply List.Forall_cons; [split; [discriminate|intros H; vm_compute in H; repeat (destruct H as [H|H]; [discriminate H|]); exact H]|].
  apply List.Forall_nil.
Defined.

(** X8.  The name taken from the content of a document: [Unknown Place]
    when there is no content; a [TypeError] when the content is neither
    missing nor a string; otherwise a text of one line, made of code
    units of the content, that holds no colon or is at most 50 code
    units long. *)
Theorem extractName_behaviour :
  (forall content : JSValue,
      JS.truthy content = false ->
      Geography.extractNameFromContent content
      = Ok (JStr (JSString.lit "Unknown Place")))
  /\ (forall content : JSValue,
         JS.truthy content = true -> (forall s, content <> JStr s) ->
         Geography.extractNameFromContent content = Throw TypeError)
  /\ (forall s : jsstring,
         s <> [] ->
         exists n : jsstring,
           Geography.extractNameFromContent (JStr s) = Ok (JStr n)
           /\ ~ In 10%N n
           /\ (~ In 58%N n \/ (length n <= 50)%nat)
           /\ (forall c : N, In c n -> In c s)).
Proof.
  split; [|split].
  - intros content H. unfold Geography.extractNameFromContent. rewrite H. reflexivity.
  - intros content H Hs. unfold Geography.extractNameFromContent. rewrite H. cbn [negb].
    destruct content; try reflexivity. exfalso. apply (Hs s). reflexivity.
  - intros s Hs. unfold Geography.extractNameFromContent.
    destruct s as [|c0 s0]; [contradiction|]. cbn [JS.truthy negb JS.callSplit bindR].
    set (s := c0 :: s0).
    assert (Hhd : In (List.hd [] (JSString.split 10 s)) (JSString.split 10 s)).
    { pose proof (split_nonempty 10 s). destruct (JSString.split 10 s); [contradiction|left; reflexivity]. }
    set (firstLine := List.hd [] (JSString.split 10 s)) in *.
    assert (Hline : forall c, In c firstLine -> In c s /\ c <> 10%N).
    { intros c Hc. split; [apply (split_units 10 s firstLine c Hhd Hc)|].
      intros ->. apply (proj1 (List.Forall_forall _ _) (split_pieces 10 s) firstLine Hhd Hc). }
    destruct (Geography.notColonPrefix firstLine) as [|m ms] eqn:Hm.
    + eexists. split; [reflexivity|]. unfold JSString.substring0.
      split; [intros Hin; apply (proj2 (Hline _ (In_firstn _ _ _ Hin))); reflexivity|].
      split; [right; apply firstn_le_length|].
      intros c Hc. apply (Hline c). apply (In_firstn _ _ _ Hc).
    + eexists. split; [reflexivity|]. rewrite <- Hm.
      assert (Hpre : forall c, In c (JSString.trim (Geography.notColonPrefix firstLine)) ->
                               In c firstLine /\ c <> 58%N).
      { intros c Hc. apply notColonPrefix_units. apply trim_units. exact Hc. }
      split; [intros Hin; apply (proj2 (Hline _ (proj1 (Hpre _ Hin)))); reflexivity|].
      split; [left; intros Hin; apply (proj2 (Hpre _ Hin)); reflexivity|].
      intros c Hc. apply (Hline c). apply (Hpre c Hc).
Qed.

Lemma extractName_behaviour_witness :
  exists n : jsstring,
    Geography.extractNameFromContent (JStr (JSString.lit "Jordan: a river")) = Ok (JStr n)
    /\ ~ In 10%N n.
Proof.
  destruct (proj2 (proj2 extractName_behaviour) (JSString.lit "Jordan: a river"))
    as (n & Hn & Hline & _); [discriminate|].
  exists n. split; [exact Hn|exact Hline].
Defined.

(** X9.  A document without metadata, under a [parseFloat] that makes
    no number of [undefined], is transformed with the defaults: zero
    coordinates and score, low confidence, the type [unknown], empty
    lists of references and names, and the name taken from the
    content. *)
Theorem transform_defaults
        (parseFloat : JSValue -> float) (fields : list (jsstring * JSValue)) :
  JS.truthy (JS.lookup (JSString.lit "metadata") fields) = false ->
  JSNumber.truthy (parseFloat JUndefined) = false ->
  Geography.transformDocumentToPlace parseFloat (JObj fields)
  = bindR (Geography.extractNameFromContent (JS.lookup (JSString.lit "content") fields))
      (fun the_name =>
         Ok {| Geography.id :=
                 JS.or (JS.lookup (JSString.lit "id") fields)
                       (JS.lookup (JSString.lit "document_id") fields);
               Geography.document_id :=
                 JS.or (JS.lookup (JSString.lit "document_id") fields)
                       (JS.lookup (JSString.lit "id") fields);
               Geography.name := the_name;
               Geography.latitude := 0;
               Geography.longitude := 0;
               Geography.place_type := JStr (JSString.lit "unknown");
               Geography.confidence_score := 0;
               Geography.confidence_level := Geography.low;
               Geography.verse_references := JArr [];
               Geography.alternate_names := JArr [];
               Geography.content :=
                 JS.or (JS.lookup (JSString.lit "content") fields) (JStr []) |}).
Proof.
  intros Hmd Hpf. unfold Geography.transformDocumentToPlace.
  assert (Hor : JS.or (JS.lookup (JSString.lit "metadata") fields) (JObj [])
                = JObj []) by (unfold JS.or; rewrite Hmd; reflexivity).
  cbn [JS.prop bindR]. rewrite Hor.
  cbn [JS.prop JS.lookup bindR JS.truthy].
  assert (H0 : Geography.parseFloatOr0 parseFloat JUndefined = 0%float)
    by (unfold Geography.parseFloatOr0; rewrite Hpf; reflexivity).
  destruct (Geography.extractNameFromContent (JS.lookup (JSString.lit "content") fields));
    [|reflexivity].
  cbn [bindR Geography.stringList JS.or JS.truthy JS.callSplit JSString.split
       List.filter List.map]. rewrite H0. reflexivity.
Qed.

Lemma transform_defaults_witness :
  Geography.transformDocumentToPlace (fun _ => nan) (JObj [])
  = Ok {| Geography.id := JUndefined; Geography.document_id := JUndefined;
          Geography.name := JStr (JSString.lit "Unknown Place");
          Geography.latitude := 0; Geography.longitude := 0;
          Geography.place_type := JStr (JSString.lit "unknown");
          Geography.confidence_score := 0;
          Geography.confidence_level := Geography.low;
          Geography.verse_references := JArr [];
          Geography.alternate_names := JArr [];
          Geography.content := JStr [] |}.
Proof.
  apply (transform_defaults (fun _ => nan) []); reflexivity.
Defined.

(** X10.  [getPlaceDetails] issues the one request for the document and
    resolves to [null] exactly when the response has status 404; any
    other status outside 200 to 299 rejects with an [Error] that names
    the status, and a rejection of the request is passed on as it is,
    an instance of [Error] or not. *)
Theorem place_details_not_found
        (env : option jsstring) (parseFloat : JSValue -> float)
        (documentId : jsstring) (outcome : Http.FetchOutcome) :
  (fst (Geography.getPlaceDetails env parseFloat documentId outcome) = Ok None
   <-> exists json : Result JSValue, outcome = Http.Responds 404 json)
  /\ snd (Geography.getPlaceDetails env parseFloat documentId outcome)
     = [Geography.detailsRequest env documentId]
  /\ (forall (status : N) (json : Result JSValue),
         outcome = Http.Responds status json ->
         Http.ok status = false -> status <> 404%N ->
         fst (Geography.getPlaceDetails env parseFloat documentId outcome)
         = Throw (ErrorOf (JSString.lit "HTTP error! status: "
                           ++ JSNumber.N_digits status)))
  /\ (forall e : Exn,
         outcome = Http.Rejects e ->
         fst (Geography.getPlaceDetails env parseFloat documentId outcome) = Throw e).
Proof.
  unfold Geography.getPlaceDetails. cbn [fst snd].
  split; [|split; [reflexivity|split]].
  - split.
    + destruct outcome as [e|status json]; [discriminate|].
      destruct (negb (Http.ok status)).
      * destruct (N.eqb_spec status 404) as [->|_]; [|discriminate].
        intros _. exists json. reflexivity.
      * destruct json as [doc|e]; [|discriminate].
        destruct (Geography.transformDocumentToPlace parseFloat doc); discriminate.
    + intros [json ->]. reflexivity.
  - intros status json -> Hok Hne. rewrite Hok. cbn [negb].
    destruct (N.eqb_spec status 404) as [->|_]; [contradiction|reflexivity].
  - intros e ->. reflexivity.
Qed.

Lemma place_details_not_found_witness :
  fst (Geography.getPlaceDetails None (fun _ => 0%float) (JSString.lit "p1")
         (Http.Responds 500 (Throw SyntaxError)))
  = Throw (ErrorOf (JSString.lit "HTTP error! status: 500")).
Proof.
  apply (proj1 (proj2 (proj2 (place_details_not_found None (fun _ => 0%float)
                                (JSString.lit "p1")
                                (Http.Responds 500 (Throw SyntaxError)))))
           500%N (Throw SyntaxError)); [reflexivity|reflexivity|discriminate].
Defined.



(** ** The geography page and its map *)

Section PageFilters.
Import Geography GeographyPage.
Local Open Scope float_scope.

Lemma hasConfidence_high (p : BiblicalPlace) :
  wellFormed p ->
  hasConfidence (JSString.lit "high") p = (300 <=? confidence_score p).
Proof.
  intros (_ & _ & _ & Hl). unfold hasConfidence. rewrite Hl. unfold getConfidenceLevel.
  destruct (300 <=? confidence_score p); [reflexivity|].
  destruct (80 <=? confidence_score p); reflexivity.
Qed.

Lemma hasConfidence_moderate (p : BiblicalPlace) :
  wellFormed p ->
  hasConfidence (JSString.lit "moderate") p
  = negb (300 <=? confidence_score p) && (80 <=? confidence_score p).
Proof.
  intros (_ & _ & _ & Hl). unfold hasConfidence. rewrite Hl. unfold getConfidenceLevel.
  destruct (300 <=? confidence_score p); [reflexivity|].
  destruct (80 <=? confidence_score p); reflexivity.
Qed.

Lemma hasConfidence_low (p : BiblicalPlace) :
  wellFormed p ->
  hasConfidence (JSString.lit "low") p
  = negb (300 <=? confidence_score p) && negb (80 <=? confidence_score p).
Proof.
  intros (_ & _ & _ & Hl). unfold hasConfidence. rewrite Hl. unfold getConfidenceLevel.
  destruct (300 <=? confidence_score p); [reflexivity|].
  destruct (80 <=? confidence_score p); reflexivity.
Qed.

Lemma filter_wellFormed (f g : BiblicalPlace -> bool) (l : list BiblicalPlace) :
  Forall wellFormed l -> (forall p, wellFormed p -> f p = g p) ->
  List.filter f l = List.filter g l.
Proof.
  intros Hl Hfg. apply List.filter_ext_in. intros p Hp.
  apply Hfg. exact (proj1 (List.Forall_forall _ _) Hl p Hp).
Qed.
End PageFilters.

(** X12.  The filters of the geography page work on the places that were
    loaded: with both selections at [all] every place is shown, and a
    place shown is always one of the places loaded.  On places as the
    listing makes them, the confidence selection [high] shows the places whose
    score is at least 300, [moderate] those from 80 up to 300, [low]
    those below 80 (with the type at [all]); a selection that is no
    level shows none. *)
Theorem page_filters (allPlaces : list Geography.BiblicalPlace) :
  Forall Geography.wellFormed allPlaces ->
  GeographyPage.handleFilterChange allPlaces (JSString.lit "all") (JSString.lit "all")
  = allPlaces
  /\ GeographyPage.handleFilterChange allPlaces (JSString.lit "all") (JSString.lit "high")
     = List.filter (fun p => (300 <=? Geography.confidence_score p)%float) allPlaces
  /\ GeographyPage.handleFilterChange allPlaces (JSString.lit "all")
       (JSString.lit "moderate")
     = List.filter (fun p => negb (300 <=? Geography.confidence_score p)%float
                             && (80 <=? Geography.confidence_score p)%float) allPlaces
  /\ GeographyPage.handleFilterChange allPlaces (JSString.lit "all") (JSString.lit "low")
     = List.filter (fun p => negb (300 <=? Geography.confidence_score p)%float
                             && negb (80 <=? Geography.confidence_score p)%float)
                   allPlaces
  /\ (forall selectedConfidence : jsstring,
         ~ In selectedConfidence
             (List.map JSString.lit ["all"; "high"; "moderate"; "low"]%string) ->
         GeographyPage.handleFilterChange allPlaces (JSString.lit "all")
           selectedConfidence = [])
  /\ (forall (selectedPlaceType selectedConfidence : jsstring)
             (p : Geography.BiblicalPlace),
         In p (GeographyPage.handleFilterChange allPlaces selectedPlaceType
                 selectedConfidence) ->
         In p allPlaces).
Proof.
  intros Hwf.
  split; [reflexivity|].
  split; [apply (filter_wellFormed _ _ _ Hwf hasConfidence_high)|].
  split; [apply (filter_wellFormed _ _ _ Hwf hasConfidence_moderate)|].
  split; [apply (filter_wellFormed _ _ _ Hwf hasConfidence_low)|].
  split.
  - intros c Hc. unfold GeographyPage.handleFilterChange.
    cbn [negb]. change (JSString.eqb (JSString.lit "all") (JSString.lit "all")) with true.
    cbn [negb]. unfold JSString.eqb at 1.
    destruct (bool_decide_reflect (c = JSString.lit "all")) as [->|_];
      [exfalso; apply Hc; left; reflexivity|]. cbn [negb].
    clear Hwf. induction allPlaces as [|p ps IH]; [reflexivity|].
    cbn [List.filter]. rewrite IH.
    unfold GeographyPage.hasConfidence, JSString.eqb.
    destruct (bool_decide_reflect
                (Geography.levelName (Geography.confidence_level p) = c)) as [Heq|_];
      [|reflexivity].
    exfalso. apply Hc. rewrite <- Heq.
    destruct (Geography.confidence_level p); cbn; tauto.
  - intros t c p. unfold GeographyPage.handleFilterChange.
    destruct (negb (JSString.eqb t (JSString.lit "all"))),
      (negb (JSString.eqb c (JSString.lit "all"))); intros H;
      repeat (apply List.filter_In in H as [H _]); exact H.
Qed.

Lemma page_filters_witness :
  GeographyPage.handleFilterChange [jericho] (JSString.lit "all") (JSString.lit "high")
  = [jericho].
Proof.
  destruct (page_filters [jericho]) as (_ & H & _); [|exact H].
  apply List.Forall_cons; [|apply List.Forall_nil].
  repeat split; vm_compute; discriminate.
Defined.

Section Markers.
Import Geography GeographyMap.

Lemma renderMarkers_selects (places : list BiblicalPlace) :
  List.map selects (renderMarkers places)
  = List.filter (fun p => negb (skipped p)) places.
Proof.
  induction places as [|p ps IH]; [reflexivity|].
  unfold renderMarkers in *. cbn [flat_map List.filter].
  destruct (skipped p); cbn [negb app List.map]; rewrite IH; reflexivity.
Qed.

Lemma renderMarkers_marker (places : list BiblicalPlace) (m : Marker) :
  In m (renderMarkers places) ->
  In (selects m) places
  /\ skipped (selects m) = false
  /\ position m = (latitude (selects m), longitude (selects m))
  /\ colour m = getConfidenceColor (confidence_level (selects m)).
Proof.
  unfold renderMarkers. intros H. apply in_flat_map in H as (p & Hp & Hm).
  destruct (skipped p) eqn:Hs; [destruct Hm|].
  destruct Hm as [<-|[]]. cbn. repeat split; assumption.
Qed.
End Markers.

(** X13.  The map draws a marker for the places whose latitude and
    longitude are both neither zero nor [NaN], in their order, each at
    the coordinates of its place and in the colour of its confidence
    level, and for no other place: there are never more markers than
    places, and a document without metadata, which is listed with the
    default coordinates, is not drawn. *)
Theorem markers_of_places (places : list Geography.BiblicalPlace) :
  List.map GeographyMap.selects (GeographyMap.renderMarkers places)
  = List.filter (fun p => JSNumber.truthy (Geography.latitude p)
                          && JSNumber.truthy (Geography.longitude p)) places
  /\ (length (GeographyMap.renderMarkers places) <= length places)%nat
  /\ (forall m : GeographyMap.Marker,
         In m (GeographyMap.renderMarkers places) ->
         GeographyMap.position m
         = (Geography.latitude (GeographyMap.selects m),
            Geography.longitude (GeographyMap.selects m))
         /\ GeographyMap.colour m
            = Geography.getConfidenceColor
                (Geography.confidence_level (GeographyMap.selects m)))
  /\ (forall (parseFloat : JSValue -> float) (fields : list (jsstring * JSValue))
             (place : Geography.BiblicalPlace),
         JS.truthy (JS.lookup (JSString.lit "metadata") fields) = false ->
         JSNumber.truthy (parseFloat JUndefined) = false ->
         Geography.transformDocumentToPlace parseFloat (JObj fields) = Ok place ->
         GeographyMap.renderMarkers [place] = []).
Proof.
  split; [|split; [|split]].
  - rewrite renderMarkers_selects. apply List.filter_ext. intros p.
    unfold GeographyMap.skipped. rewrite negb_orb, !negb_involutive. reflexivity.
  - rewrite <- (length_map GeographyMap.selects), renderMarkers_selects.
    apply List.filter_length_le.
  - intros m Hm. apply renderMarkers_marker in Hm as (_ & _ & Hp & Hc).
    split; assumption.
  - intros parseFloat fields place Hmd Hpf Hplace.
    assert (Hlat : Geography.latitude place = 0%float).
    { unfold Geography.transformDocumentToPlace in Hplace.
      assert (Hor : JS.or (JS.lookup (JSString.lit "metadata") fields) (JObj [])
                    = JObj []) by (unfold JS.or; rewrite Hmd; reflexivity).
      cbn [JS.prop bindR] in Hplace. rewrite Hor in Hplace.
      cbn [JS.prop JS.lookup bindR] in Hplace.
      try_ok Hplace. injection Hplace as <-. cbn [Geography.latitude].
      unfold Geography.parseFloatOr0. rewrite Hpf. reflexivity. }
    unfold GeographyMap.renderMarkers, GeographyMap.skipped. cbn [flat_map].
    rewrite Hlat. reflexivity.
Qed.

Lemma markers_of_places_witness :
  GeographyMap.renderMarkers
    [{| Geography.id := JUndefined; Geography.document_id := JUndefined;
        Geography.name := JStr (JSString.lit "Unknown Place");
        Geography.latitude := 0; Geography.longitude := 0;
        Geography.place_type := JStr (JSString.lit "unknown");
        Geography.confidence_score := 0;
        Geography.confidence_level := Geography.low;
        Geography.verse_references := JArr [];
        Geography.alternate_names := JArr [];
        Geography.content := JStr [] |}]
  = [].
Proof.
  apply (proj2 (proj2 (proj2 (markers_of_places [])))
           (fun _ => nan) []); reflexivity.
Defined.

(** ** Further properties of the original-language lookups *)

Section NumberUnits.
Import JSNumber.

Local Abbreviation units := (Forall (fun c : N => numberUnit c = true)).

Lemma uint_units_units (d : Decimal.uint) : units (uint_units d).
Proof.
  induction d; cbn [uint_units]; try apply List.Forall_nil;
    (apply List.Forall_cons; [reflexivity | exact IHd]).
Qed.

Lemma N_digits_units (n : N) : units (N_digits n).
Proof. apply uint_units_units. Qed.

Lemma zeros_units (n : Z) : units (zeros n).
Proof.
  unfold zeros. induction (Z.to_nat n) as [|k IH]; [apply List.Forall_nil|].
  cbn [JSString.repeat app]. apply List.Forall_cons; [reflexivity | exact IH].
Qed.

Lemma lit_units (s : string) :
  forallb numberUnit (JSString.lit s) = true -> units (JSString.lit s).
Proof. intros H. apply List.Forall_forall. apply forallb_forall. exact H. Qed.

Lemma exponent_part_units (n : Z) : units (exponent_part n).
Proof.
  unfold exponent_part. apply Forall_app. split; [apply lit_units; reflexivity|].
  apply Forall_app. split; [|apply N_digits_units].
  destruct (n - 1 <? 0); apply lit_units; reflexivity.
Qed.

Lemma layout_units (k s n : Z) : units (layout k s n).
Proof.
  unfold layout.
  pose proof (N_digits_units (Z.to_N s)) as Hd.
  repeat match goal with
         | |- units (if ?b then _ else _) => destruct b
         | |- units (_ ++ _) => apply Forall_app; split
         | |- units (firstn _ _) => apply Forall_take
         | |- units (skipn _ _) => apply Forall_drop
         | |- units (zeros _) => apply zeros_units
         | |- units (exponent_part _) => apply exponent_part_units
         | |- units (JSString.lit _) => apply lit_units; reflexivity
         | |- units (N_digits _) => exact Hd
         end.
Qed.

Lemma toString_units (x : float) : units (toString x).
Proof.
  unfold toString. destruct (Prim2SF x) as [s|[|]| |s m e];
    try (apply lit_units; reflexivity).
  apply Forall_app. split.
  - destruct s; [apply lit_units; reflexivity | apply List.Forall_nil].
  - unfold finite_toString. destruct (shortest m e) as [[k s'] n].
    apply layout_units.
Qed.

(** The rendering of a Number holds no colon (code unit 58). *)
Lemma toString_no_colon (x : float) : ~ In 58%N (toString x).
Proof.
  intros H. pose proof (proj1 (List.Forall_forall _ _) (toString_units x) _ H) as Hc.
  discriminate Hc.
Qed.
End NumberUnits.

Section Keys.
Import Sword.

Lemma last_field (sep : N) (v v' r r' : jsstring) :
  ~ In sep v -> ~ In sep v' ->
  v ++ sep :: r = v' ++ sep :: r' -> v = v' /\ r = r'.
Proof.
  revert v'. induction v as [|a v IH]; intros [|a' v'] Hv Hv' Heq; cbn in Heq.
  - injection Heq as ->. split; reflexivity.
  - injection Heq as Ha _. exfalso. apply Hv'. left. symmetry. exact Ha.
  - injection Heq as Ha _. exfalso. apply Hv. left. exact Ha.
  - injection Heq as -> Heq.
    destruct (IH v') as [-> ->]; [| |exact Heq|split; reflexivity].
    + intros H. apply Hv. right. exact H.
    + intros H. apply Hv'. right. exact H.
Qed.

(** A text that ends in a colon and two renderings of Numbers has one
    reading. *)
Lemma fields_inj (b b' : jsstring) (c v c' v' : float) :
  b ++ JSString.lit ":" ++ JSNumber.toString c
    ++ JSString.lit ":" ++ JSNumber.toString v
  = b' ++ JSString.lit ":" ++ JSNumber.toString c'
       ++ JSString.lit ":" ++ JSNumber.toString v' ->
  b = b' /\ JSNumber.toString c = JSNumber.toString c'
  /\ JSNumber.toString v = JSNumber.toString v'.
Proof.
  intros Heq. apply (f_equal (@rev N)) in Heq.
  rewrite !rev_app_distr in Heq. cbn [JSString.lit list_ascii_of_string List.map rev app]
    in Heq.
  rewrite <- !app_assoc in Heq. cbn [app] in Heq.
  assert (Hno : forall x, ~ In 58%N (rev (JSNumber.toString x))).
  { intros x H. apply in_rev in H. exact (toString_no_colon x H). }
  apply last_field in Heq as [Hv Heq]; [|apply Hno|apply Hno].
  apply last_field in Heq as [Hc Hb]; [|apply Hno|apply Hno].
  apply (f_equal (@rev N)) in Hv, Hc, Hb. rewrite !rev_involutive in Hv, Hc, Hb.
  repeat split; assumption.
Qed.

Lemma hebrewKey_inj (b b' : jsstring) (c v c' v' : float) :
  hebrewKey b c v = hebrewKey b' c' v' ->
  b = b' /\ JSNumber.toString c = JSNumber.toString c'
  /\ JSNumber.toString v = JSNumber.toString v'.
Proof.
  unfold hebrewKey. intros Heq. apply app_inv_head in Heq. exact (fields_inj _ _ _ _ _ _ Heq).
Qed.

Lemma sampleKey_renderings (b : jsstring) (c v c' v' : float) :
  JSNumber.toString c = JSNumber.toString c' ->
  JSNumber.toString v = JSNumber.toString v' ->
  sampleKey b c v = sampleKey b c' v'.
Proof. unfold sampleKey. intros -> ->. reflexivity. Qed.

Lemma getHebrewText_frame (book : jsstring) (chapter verse : float)
      (verseCache : gmap jsstring Entry) (t0 t1 : Z) (o : Http.FetchOutcome)
      (k : jsstring) :
  k <> hebrewKey book chapter verse ->
  cache_after (getHebrewText book chapter verse verseCache t0 t1 o) !! k
  = verseCache !! k.
Proof.
  intros Hk. unfold getHebrewText.
  destruct (cacheGet verseCache (hebrewKey book chapter verse) t0);
    cbn [USE_MOCK_DATA cache_after]; [reflexivity|].
  unfold cachePut. apply lookup_insert_ne. congruence.
Qed.

Lemma getHebrewText_keeps (book : jsstring) (chapter verse : float)
      (verseCache : gmap jsstring Entry) (t0 t1 : Z) (o : Http.FetchOutcome)
      (k : jsstring) :
  is_Some (verseCache !! k) ->
  is_Some (cache_after (getHebrewText book chapter verse verseCache t0 t1 o) !! k).
Proof.
  intros Hk. destruct (decide (k = hebrewKey book chapter verse)) as [->|Hne].
  - unfold getHebrewText.
    destruct (cacheGet verseCache (hebrewKey book chapter verse) t0);
      cbn [USE_MOCK_DATA cache_after]; [exact Hk|].
    unfold cachePut. rewrite lookup_insert_eq. eexists. reflexivity.
  - rewrite getHebrewText_frame by exact Hne. exact Hk.
Qed.

Lemma getHebrewText_own (book : jsstring) (chapter verse : float)
      (verseCache : gmap jsstring Entry) (t0 t1 : Z) (o : Http.FetchOutcome) :
  ownVerses verseCache ->
  ownVerses (cache_after (getHebrewText book chapter verse verseCache t0 t1 o)).
Proof.
  intros Hown k e. destruct (decide (k = hebrewKey book chapter verse)) as [->|Hne].
  - unfold getHebrewText.
    destruct (cacheGet verseCache (hebrewKey book chapter verse) t0);
      cbn [USE_MOCK_DATA cache_after]; [apply Hown|].
    unfold cachePut. rewrite lookup_insert_eq. intros [= <-].
    exists book, chapter, verse. split; reflexivity.
  - rewrite getHebrewText_frame by exact Hne. apply Hown.
Qed.

Lemma afterCalls_own (calls : list HebrewCall) (verseCache : gmap jsstring Entry) :
  ownVerses verseCache -> ownVerses (afterCalls verseCache calls).
Proof.
  revert verseCache. induction calls as [|c calls IH]; intros verseCache Hown;
    [exact Hown|].
  cbn [afterCalls]. apply IH. apply getHebrewText_own. exact Hown.
Qed.

Lemma empty_own : ownVerses ∅.
Proof. intros k e H. rewrite lookup_empty in H. discriminate H. Qed.

Lemma includesBook_In (books : list jsstring) (book : jsstring) :
  includesBook books book = true <-> In book books.
Proof.
  unfold includesBook. rewrite existsb_exists. split.
  - intros (b & Hb & Heq). unfold JSString.eqb in Heq.
    apply bool_decide_eq_true in Heq. subst b. exact Hb.
  - intros Hb. exists book. split; [exact Hb|].
    unfold JSString.eqb. apply bool_decide_eq_true. reflexivity.
Qed.

Lemma testaments_disjoint (book : jsstring) :
  includesBook OT_BOOKS book = true -> includesBook NT_BOOKS book = false.
Proof.
  intros Hot. apply includesBook_In in Hot.
  assert (Hall : forallb (fun b => negb (includesBook NT_BOOKS b)) OT_BOOKS = true)
    by (vm_compute; reflexivity).
  rewrite forallb_forall in Hall. specialize (Hall book Hot).
  apply negb_true_iff in Hall. exact Hall.
Qed.
End Keys.

(** X14.  The cache key of a Hebrew lookup and the key of the sample
    table determine the lookup: two lookups have the same key exactly
    when they name the same book and their chapters and verses are
    rendered alike, whatever the book name holds, colons included. *)
Theorem verse_keys_determine_lookup
        (book book' : jsstring) (chapter verse chapter' verse' : float) :
  (Sword.hebrewKey book chapter verse = Sword.hebrewKey book' chapter' verse'
   <-> book = book'
       /\ JSNumber.toString chapter = JSNumber.toString chapter'
       /\ JSNumber.toString verse = JSNumber.toString verse')
  /\ (Sword.sampleKey book chapter verse = Sword.sampleKey book' chapter' verse'
      <-> Sword.hebrewKey book chapter verse = Sword.hebrewKey book' chapter' verse').
Proof.
  assert (Hback : forall kf : jsstring -> float -> float -> jsstring,
             (forall b c v c' v',
                 JSNumber.toString c = JSNumber.toString c' ->
                 JSNumber.toString v = JSNumber.toString v' ->
                 kf b c v = kf b c' v') ->
             book = book'
             /\ JSNumber.toString chapter = JSNumber.toString chapter'
             /\ JSNumber.toString verse = JSNumber.toString verse' ->
             kf book chapter verse = kf book' chapter' verse').
  { intros kf Hkf (<- & Hc & Hv). apply Hkf; assumption. }
  assert (Hheb : forall b c v c' v',
             JSNumber.toString c = JSNumber.toString c' ->
             JSNumber.toString v = JSNumber.toString v' ->
             Sword.hebrewKey b c v = Sword.hebrewKey b c' v').
  { intros b c v c' v' Hc Hv. unfold Sword.hebrewKey. rewrite Hc, Hv. reflexivity. }
  split; [split; [apply hebrewKey_inj | apply (Hback _ Hheb)]|].
  split.
  - intros Heq. apply (Hback _ Hheb). unfold Sword.sampleKey in Heq.
    exact (fields_inj _ _ _ _ _ _ Heq).
  - intros Heq. apply (Hback _ sampleKey_renderings). exact (hebrewKey_inj _ _ _ _ _ _ Heq).
Qed.

(** X15.  A Hebrew lookup touches the cache entry of its own key only,
    and the cache never drops an entry: whatever lookups follow, a key
    that was stored once stays in the map, also after its entry has
    expired. *)
Theorem verse_cache_never_evicts
        (verseCache : gmap jsstring Sword.Entry) (calls : list Sword.HebrewCall) :
  (forall (book : jsstring) (chapter verse : float) (now_check now_store : Z)
          (outcome : Http.FetchOutcome) (k : jsstring),
      k <> Sword.hebrewKey book chapter verse ->
      Sword.cache_after
        (Sword.getHebrewText book chapter verse verseCache now_check now_store outcome)
        !! k
      = verseCache !! k)
  /\ (forall k : jsstring,
         is_Some (verseCache !! k) ->
         is_Some (Sword.afterCalls verseCache calls !! k))
  /\ (forall (book : jsstring) (chapter verse : float) (now_check now_store : Z)
             (outcome : Http.FetchOutcome),
         is_Some
           (Sword.afterCalls
              (Sword.cache_after
                 (Sword.getHebrewText book chapter verse verseCache
                    now_check now_store outcome))
              calls
            !! Sword.hebrewKey book chapter verse)
         \/ Sword.lookups
              (Sword.getHebrewText book chapter verse verseCache
                 now_check now_store outcome) = []).
Proof.
  assert (Hkeep : forall (cs : list Sword.HebrewCall) (vc : gmap jsstring Sword.Entry)
                         (k : jsstring),
             is_Some (vc !! k) -> is_Some (Sword.afterCalls vc cs !! k)).
  { induction cs as [|c cs IH]; intros vc k Hk; [exact Hk|].
    cbn [Sword.afterCalls]. apply IH. apply getHebrewText_keeps. exact Hk. }
  split; [|split].
  - intros. apply getHebrewText_frame. assumption.
  - apply Hkeep.
  - intros book chapter verse t0 t1 o.
    unfold Sword.getHebrewText.
    destruct (Sword.cacheGet verseCache (Sword.hebrewKey book chapter verse) t0);
      cbn [Sword.USE_MOCK_DATA Sword.cache_after Sword.lookups]; [right; reflexivity|].
    left. apply Hkeep. unfold Sword.cachePut. rewrite lookup_insert_eq.
    eexists. reflexivity.
Qed.

(** X16.  Whatever Hebrew lookups were made before, from an empty
    cache, a Hebrew lookup answers with a verse of the book that was
    asked for, in Hebrew, with the text that the sample table has for
    the book, chapter and verse of the call, and with a chapter and a
    verse that are rendered as those of the call: an answer from the
    cache is never the verse of another lookup. *)
Theorem hebrew_lookup_answers_own_verse
        (calls : list Sword.HebrewCall)
        (book : jsstring) (chapter verse : float) (now_check now_store : Z)
        (outcome : Http.FetchOutcome) :
  exists v : Sword.VerseText,
    Sword.result
      (Sword.getHebrewText book chapter verse (Sword.afterCalls ∅ calls)
         now_check now_store outcome)
    = Sword.Verse v
    /\ Sword.vt_book v = book
    /\ Sword.vt_language v = Sword.hebrew
    /\ Sword.original_text v
       = Sword.original_text (Sword.getMockHebrewText book chapter verse)
    /\ JSNumber.toString (Sword.vt_chapter v) = JSNumber.toString chapter
    /\ JSNumber.toString (Sword.vt_verse v) = JSNumber.toString verse.
Proof.
  pose proof (afterCalls_own calls ∅ empty_own) as Hown.
  unfold Sword.getHebrewText, Sword.cacheGet.
  destruct (Sword.afterCalls ∅ calls !! Sword.hebrewKey book chapter verse)
    as [e|] eqn:Hk.
  - destruct (Hown _ _ Hk) as (b & c & v & Hkey & Hdata).
    apply hebrewKey_inj in Hkey as (<- & Hc & Hv).
    destruct (now_check - Sword.timestamp e <? Sword.CACHE_TTL).
    + cbn [Sword.result]. rewrite Hdata. eexists. split; [reflexivity|].
      cbn [Sword.getMockHebrewText Sword.vt_book Sword.vt_language Sword.original_text
           Sword.vt_chapter Sword.vt_verse].
      rewrite (sampleKey_renderings book chapter verse c v Hc Hv).
      repeat split; symmetry; assumption.
    + cbn [Sword.USE_MOCK_DATA Sword.result]. eexists. repeat split.
  - cbn [Sword.USE_MOCK_DATA Sword.result]. eexists. repeat split.
Qed.

(** X17.  No book is in both testaments, so the language of a book is
    Greek exactly when it is a book of the New Testament and Hebrew
    exactly when it is one of the Old; the interlinear verse of a book
    has the words of the language of the book, and for a book that is
    in neither list, which has no language, the Greek words. *)
Theorem language_of_book (book : jsstring) (chapter verse : float) :
  (Sword.getLanguage book = Some Sword.hebrew <-> In book Sword.OT_BOOKS)
  /\ (Sword.getLanguage book = Some Sword.greek <-> In book Sword.NT_BOOKS)
  /\ (Sword.getLanguage book = None
      <-> ~ In book Sword.OT_BOOKS /\ ~ In book Sword.NT_BOOKS)
  /\ Sword.iv_language (Sword.getMockInterlinear book chapter verse)
     = default Sword.greek (Sword.getLanguage book)
  /\ Sword.words (Sword.getMockInterlinear book chapter verse)
     = match Sword.iv_language (Sword.getMockInterlinear book chapter verse) with
       | Sword.hebrew => Sword.hebrewWords
       | Sword.greek => Sword.greekWords
       end.
Proof.
  pose proof (includesBook_In Sword.OT_BOOKS book) as Hot.
  pose proof (includesBook_In Sword.NT_BOOKS book) as Hnt.
  pose proof (testaments_disjoint book) as Hdis.
  unfold Sword.getMockInterlinear, Sword.getLanguage, Sword.getTestament.
  destruct (Sword.includesBook Sword.OT_BOOKS book) eqn:Eot.
  - specialize (Hdis eq_refl). rewrite Hdis in Hnt.
    assert (Hin : In book Sword.OT_BOOKS) by (apply Hot; reflexivity).
    assert (Hout : ~ In book Sword.NT_BOOKS)
      by (intros H; apply Hnt in H; discriminate H).
    clear Hot Hnt.
    repeat split; try reflexivity; try discriminate; try tauto.
  - clear Hdis.
    assert (Hout : ~ In book Sword.OT_BOOKS)
      by (intros H; apply Hot in H; discriminate H).
    clear Hot.
    destruct (Sword.includesBook Sword.NT_BOOKS book) eqn:Ent.
    + assert (Hin : In book Sword.NT_BOOKS) by (apply Hnt; reflexivity).
      clear Hnt.
      repeat split; try reflexivity; try discriminate; try tauto.
    + assert (Hout' : ~ In book Sword.NT_BOOKS)
        by (intros H; apply Hnt in H; discriminate H).
      clear Hnt.
      repeat split; try reflexivity; try discriminate; try tauto.
Qed.

(** ** Further properties of the search coordinator *)

Section Debounce.
Import JSString SearchBar.

(** The query of a call has three characters or more once trimmed. *)
Local Abbreviation longCall :=
  (fun c : SearchCall => (2 < length (trim (call_query c)))%nat).

Lemma handleInput_timers (value : jsstring) (s : State) :
  singleTimer s ->
  timers (handleInput value s)
  = (if (2 <? length (trim value))%nat then [nextTimerId s] else [])
  /\ debounceTimer (handleInput value s)
     = (if (2 <? length (trim value))%nat then Some (nextTimerId s)
        else debounceTimer s)
  /\ dispatched (handleInput value s) = dispatched s
  /\ query (handleInput value s) = value
  /\ selectedTranslations (handleInput value s) = selectedTranslations s
  /\ top_k (handleInput value s) = top_k s
  /\ nextTimerId (handleInput value s)
     = (if (2 <? length (trim value))%nat then S (nextTimerId s) else nextTimerId s).
Proof.
  intros Hs. unfold handleInput. cbn [query clearDebounceTimer setSearchQuery].
  assert (Hclear : match debounceTimer s with
                   | Some id => List.filter (fun t => negb (Nat.eqb t id)) (timers s)
                   | None => timers s
                   end = []).
  { destruct Hs as [Hnil|(id & Hd & Ht)].
    - rewrite Hnil. destruct (debounceTimer s); reflexivity.
    - rewrite Hd, Ht. cbn. rewrite Nat.eqb_refl. reflexivity. }
  destruct (2 <? length (trim value))%nat; cbn; rewrite Hclear; repeat split.
Qed.

Lemma performSearch_timers (s : State) :
  timers (performSearch s) = timers s
  /\ debounceTimer (performSearch s) = debounceTimer s.
Proof.
  unfold performSearch. destruct (length (trim (query s)) <? 3)%nat; split; reflexivity.
Qed.

Lemma performSearch_long (s : State) :
  Forall longCall (dispatched s) -> Forall longCall (dispatched (performSearch s)).
Proof.
  intros H. unfold performSearch.
  destruct (Nat.ltb_spec (length (trim (query s))) 3) as [_|Hge]; [exact H|].
  cbn. apply Forall_app. split; [exact H|].
  apply List.Forall_cons; [|apply List.Forall_nil].
  change (2 < length (trim (query s)))%nat. lia.
Qed.

Lemma step_singleTimer (s s' : State) (ev : Event) :
  singleTimer s -> step s ev = Some s' -> singleTimer s'.
Proof.
  intros Hs Hstep. destruct ev as [value| | |id|call outcome|q]; cbn [step] in Hstep.
  - injection Hstep as <-.
    destruct (handleInput_timers value s Hs) as (Ht & Hd & _).
    unfold singleTimer. rewrite Ht, Hd.
    destruct (2 <? length (trim value))%nat; [right|left; reflexivity].
    exists (nextTimerId s). split; reflexivity.
  - injection Hstep as <-. unfold handleSubmit.
    destruct (2 <? length (trim (query s)))%nat; [|exact Hs].
    unfold singleTimer. destruct (performSearch_timers s) as [-> ->]. exact Hs.
  - injection Hstep as <-. exact Hs.
  - destruct (existsb (Nat.eqb id) (timers s)) eqn:Hin; [|discriminate].
    injection Hstep as <-. left.
    destruct (performSearch_timers (removeTimer id s)) as [-> _]. cbn.
    destruct Hs as [Hnil|(id' & Hd & Ht)].
    + rewrite Hnil. reflexivity.
    + rewrite Ht in Hin |- *. cbn in Hin |- *. rewrite orb_false_r in Hin.
      rewrite Nat.eqb_sym, Hin. reflexivity.
  - destruct (call <? length (inflight s))%nat; [|discriminate].
    injection Hstep as <-. destruct outcome; exact Hs.
  - injection Hstep as <-. exact Hs.
Qed.

Lemma step_long (s s' : State) (ev : Event) :
  Forall longCall (dispatched s) -> step s ev = Some s' ->
  Forall longCall (dispatched s').
Proof.
  intros Hs Hstep. destruct ev as [value| | |id|call outcome|q]; cbn [step] in Hstep.
  - injection Hstep as <-. unfold handleInput.
    destruct (2 <? length (trim (query (clearDebounceTimer (setSearchQuery value s)))))%nat;
      exact Hs.
  - injection Hstep as <-. unfold handleSubmit.
    destruct (2 <? length (trim (query s)))%nat; [|exact Hs].
    apply performSearch_long. exact Hs.
  - injection Hstep as <-. exact Hs.
  - destruct (existsb (Nat.eqb id) (timers s)); [|discriminate].
    injection Hstep as <-. apply (performSearch_long (removeTimer id s)). exact Hs.
  - destruct (call <? length (inflight s))%nat; [|discriminate].
    injection Hstep as <-. destruct outcome; exact Hs.
  - injection Hstep as <-. exact Hs.
Qed.

Lemma run_invariant (P : State -> Prop) :
  (forall s s' ev, P s -> step s ev = Some s' -> P s') ->
  forall (evs : list Event) (s s' : State), P s -> run s evs = Some s' -> P s'.
Proof.
  intros Hstep. induction evs as [|ev evs IH]; intros s s' Hs Hrun; cbn [run] in Hrun.
  - injection Hrun as <-. exact Hs.
  - destruct (step s ev) as [s1|] eqn:H1; [|discriminate].
    apply (IH s1); [|exact Hrun]. exact (Hstep s s1 ev Hs H1).
Qed.

Lemma run_singleTimer (evs : list Event) (q : jsstring) (k : float)
      (sel : list Translation) (s : State) :
  run (initial q k sel) evs = Some s -> singleTimer s.
Proof.
  apply (run_invariant singleTimer step_singleTimer). left. reflexivity.
Qed.
End Debounce.

(** X18.  Whatever has happened to the component since it was mounted,
    at most one timeout is pending, and it is the one that the variable
    [debounceTimer] names: typing never piles up timeouts. *)
Theorem one_timeout_pending
        (q : jsstring) (k : float) (sel : list SearchBar.Translation)
        (evs : list SearchBar.Event) (s : SearchBar.State) :
  SearchBar.run (SearchBar.initial q k sel) evs = Some s ->
  SearchBar.singleTimer s /\ (length (SearchBar.timers s) <= 1)%nat.
Proof.
  intros Hrun. pose proof (run_singleTimer evs q k sel s Hrun) as Hs.
  split; [exact Hs|].
  destruct Hs as [->|(id & _ & ->)]; cbn; lia.
Qed.

Lemma one_timeout_pending_witness :
  SearchBar.singleTimer
    (SearchBar.handleInput (JSString.lit "grace")
       (SearchBar.handleInput (JSString.lit "gra") (SearchBar.initial [] 10 [SearchBar.kjv]))).
Proof.
  apply (one_timeout_pending [] 10%float [SearchBar.kjv]
           [SearchBar.Input (JSString.lit "gra"); SearchBar.Input (JSString.lit "grace")]).
  reflexivity.
Defined.

(** X19.  The debounce.  After any history, typing a text of three or
    more characters (trimmed) calls nothing and leaves exactly one
    timeout pending; when that timeout elapses, one call of
    [searchBible] is made, with the text typed, the selected
    translations and the result limit; and once more text has been
    typed in between, that timeout can no longer elapse. *)
Theorem typing_is_debounced
        (q : jsstring) (k : float) (sel : list SearchBar.Translation)
        (evs : list SearchBar.Event) (s : SearchBar.State) (value : jsstring) :
  SearchBar.run (SearchBar.initial q k sel) evs = Some s ->
  (2 < length (JSString.trim value))%nat ->
  let typed := SearchBar.handleInput value s in
  let id := SearchBar.nextTimerId s in
  SearchBar.timers typed = [id]
  /\ SearchBar.dispatched typed = SearchBar.dispatched s
  /\ (exists fired : SearchBar.State,
         SearchBar.step typed (SearchBar.TimerFires id) = Some fired
         /\ SearchBar.dispatched fired
            = SearchBar.dispatched s
              ++ [{| SearchBar.call_query := value;
                     SearchBar.call_translations := SearchBar.selectedTranslations s;
                     SearchBar.call_top_k := SearchBar.top_k s |}]
         /\ SearchBar.timers fired = []
         /\ SearchBar.isSearching fired = true)
  /\ (forall value' : jsstring,
         SearchBar.step (SearchBar.handleInput value' typed) (SearchBar.TimerFires id)
         = None).
Proof.
  intros Hrun Hlong typed id.
  pose proof (run_singleTimer evs q k sel s Hrun) as Hs.
  destruct (handleInput_timers value s Hs) as (Ht & Hd & Hdisp & Hq & Hsel & Hk & Hn).
  destruct (Nat.ltb_spec 2 (length (JSString.trim value))) as [_|Hle]; [|lia].
  fold typed in Ht, Hd, Hdisp, Hq, Hsel, Hk, Hn. fold id in Ht, Hd, Hn.
  assert (Hs1 : SearchBar.singleTimer typed)
    by (right; exists id; split; assumption).
  split; [exact Ht|]. split; [exact Hdisp|]. split.
  - cbn [SearchBar.step]. rewrite Ht. cbn [existsb]. rewrite Nat.eqb_refl. cbn [orb].
    eexists. split; [reflexivity|].
    unfold SearchBar.performSearch. cbn [SearchBar.query SearchBar.removeTimer].
    rewrite Hq.
    destruct (Nat.ltb_spec (length (JSString.trim value)) 3) as [Hlt|_]; [lia|].
    cbn. rewrite Hdisp, Hq, Hsel, Hk, Ht. cbn. rewrite Nat.eqb_refl.
    repeat split.
  - intros value'.
    destruct (handleInput_timers value' typed Hs1) as (Ht' & _).
    cbn [SearchBar.step]. rewrite Ht', Hn.
    destruct (2 <? length (JSString.trim value'))%nat; [|reflexivity].
    cbn [existsb orb].
    destruct (Nat.eqb_spec id (S id)) as [Heq|_]; [lia|reflexivity].
Qed.

Lemma typing_is_debounced_witness :
  SearchBar.dispatched
    (SearchBar.handleInput (JSString.lit "grace")
       (SearchBar.handleInput (JSString.lit "gra")
          (SearchBar.initial [] 10 [SearchBar.kjv])))
  = [].
Proof.
  destruct (typing_is_debounced [] 10%float [SearchBar.kjv]
              [SearchBar.Input (JSString.lit "gra")]
              (SearchBar.handleInput (JSString.lit "gra")
                 (SearchBar.initial [] 10 [SearchBar.kjv]))
              (JSString.lit "grace")) as (_ & H & _);
    [reflexivity | vm_compute; lia | exact H].
Defined.

(** X20.  No call of [searchBible] is ever made for a query of fewer
    than three characters (trimmed): in every history of the component
    every call made carries a query of three or more, and the calls
    still in flight are among those made. *)
Theorem every_call_has_long_query
        (q : jsstring) (k : float) (sel : list SearchBar.Translation)
        (evs : list SearchBar.Event) (s : SearchBar.State) :
  SearchBar.run (SearchBar.initial q k sel) evs = Some s ->
  Forall (fun c : SearchBar.SearchCall =>
            (2 < length (JSString.trim (SearchBar.call_query c)))%nat)
         (SearchBar.dispatched s)
  /\ (length (SearchBar.inflight s) <= length (SearchBar.dispatched s))%nat.
Proof.
  intros Hrun. split.
  - revert Hrun. apply (run_invariant _ step_long). apply List.Forall_nil.
  - revert Hrun.
    apply (run_invariant
             (fun s => (length (SearchBar.inflight s)
                        <= length (SearchBar.dispatched s))%nat)); [|cbn; lia].
    clear. intros s s' ev Hs Hstep.
    assert (Hperf : forall s0,
               (length (SearchBar.inflight s0) <= length (SearchBar.dispatched s0))%nat ->
               (length (SearchBar.inflight (SearchBar.performSearch s0))
                <= length (SearchBar.dispatched (SearchBar.performSearch s0)))%nat).
    { intros s0 H0. unfold SearchBar.performSearch.
      destruct (length (JSString.trim (SearchBar.query s0)) <? 3)%nat; [exact H0|].
      cbn. rewrite !length_app. cbn. lia. }
    destruct ev as [value| | |id|call outcome|q0]; cbn [SearchBar.step] in Hstep.
    + injection Hstep as <-. unfold SearchBar.handleInput.
      destruct (2 <? _)%nat; exact Hs.
    + injection Hstep as <-. unfold SearchBar.handleSubmit.
      destruct (2 <? _)%nat; [apply Hperf|]; exact Hs.
    + injection Hstep as <-. exact Hs.
    + destruct (existsb (Nat.eqb id) (SearchBar.timers s)); [|discriminate].
      injection Hstep as <-. apply (Hperf (SearchBar.removeTimer id s)). exact Hs.
    + destruct (Nat.ltb_spec call (length (SearchBar.inflight s))) as [Hlt|_];
        [|discriminate].
      injection Hstep as <-.
      assert (Hlen : (length (firstn call (SearchBar.inflight s)
                              ++ skipn (S call) (SearchBar.inflight s))
                      <= length (SearchBar.inflight s))%nat).
      { rewrite length_app, length_firstn, length_skipn. lia. }
      destruct outcome; cbn; lia.
    + injection Hstep as <-. exact Hs.
Qed.

Lemma every_call_has_long_query_witness :
  Forall (fun c : SearchBar.SearchCall =>
            (2 < length (JSString.trim (SearchBar.call_query c)))%nat)
         (SearchBar.dispatched
            (SearchBar.handleSubmit
               (SearchBar.handleInput (JSString.lit "grace")
                  (SearchBar.initial [] 10 [SearchBar.kjv])))).
Proof.
  apply (every_call_has_long_query [] 10%float [SearchBar.kjv]
           [SearchBar.Input (JSString.lit "grace"); SearchBar.Submit]).
  reflexivity.
Defined.

(** ** Further properties of the exporters *)

Section Downloads.
Import JSString SearchBar.








Lemma allResultLines_length (k : nat) (results : list SearchResult) :
  length (allResultLines k results) = (4 * length results)%nat.
Proof.
  revert k. induction results as [|r rest IH]; intros k; [reflexivity|].
  cbn [allResultLines resultLines app length]. rewrite IH. lia.
Qed.

Lemma allResultLines_block (results : list SearchResult) (k i : nat) (r : SearchResult) :
  nth_error results i = Some r ->
  firstn 4 (skipn (4 * i)%nat (allResultLines k results)) = resultLines (k + i)%nat r.
Proof.
  revert k i. induction results as [|r0 rest IH]; intros k [|i] Hnth;
    try discriminate Hnth.
  - injection Hnth as ->. rewrite Nat.add_0_r. reflexivity.
  - cbn [nth_error] in Hnth. replace (4 * S i)%nat with (4 + 4 * i)%nat by lia.
    cbn [allResultLines resultLines app]. cbn [Nat.add skipn].
    rewrite (IH (S k) i Hnth). f_equal; lia.
Qed.
End Downloads.



(** X22.  The text export lists the results in their order, four lines
    each, numbered from one: the lines of the result at index [i] are
    the four that follow the first seven lines and the lines of the
    [i] results before it, and the first of them begins with the
    number [i + 1]; the export has twelve lines besides. *)
Theorem export_numbers_results
        (s : SearchBar.State) (today : jsstring) (i : nat) (r : SearchBar.SearchResult) :
  nth_error (SearchBar.searchResults s) i = Some r ->
  firstn 4 (skipn (7 + 4 * i)%nat (SearchBar.exportLines s today))
  = SearchBar.resultLines i r
  /\ nth_error (SearchBar.exportLines s today) (7 + 4 * i)%nat
     = Some (JSNumber.nat_digits (i + 1)%nat ++ JSString.lit ". " ++ SearchBar.verse_ref r
               ++ JSString.lit " ("
               ++ JSString.toUpperCase
                    (SearchBar.translationId (SearchBar.translation r))
               ++ JSString.lit ")")
  /\ length (SearchBar.exportLines s today)
     = (12 + 4 * length (SearchBar.searchResults s))%nat.
Proof.
  intros Hnth.
  pose proof (allResultLines_block _ 0 i r Hnth) as Hblock. cbn [Nat.add] in Hblock.
  pose proof (allResultLines_length 0 (SearchBar.searchResults s)) as Hlen.
  assert (Hi : (i < length (SearchBar.searchResults s))%nat)
    by (apply nth_error_Some; congruence).
  assert (Hfirst : firstn 4 (skipn (7 + 4 * i)%nat (SearchBar.exportLines s today))
                   = SearchBar.resultLines i r).
  { unfold SearchBar.exportLines.
    change (7 + 4 * i)%nat with (S (S (S (S (S (S (S (4 * i)%nat))))))).
    cbn [app skipn]. rewrite skipn_app, firstn_app, length_skipn, Hlen.
    replace (4 * i - 4 * length (SearchBar.searchResults s))%nat with 0%nat by lia.
    replace (4 - (4 * length (SearchBar.searchResults s) - 4 * i))%nat with 0%nat by lia.
    cbn [skipn firstn]. rewrite app_nil_r. exact Hblock. }
  split; [exact Hfirst|]. split.
  - rewrite <- (firstn_skipn (7 + 4 * i)%nat (SearchBar.exportLines s today)) at 1.
    assert (Hskip : (7 + 4 * i <= length (SearchBar.exportLines s today))%nat).
    { unfold SearchBar.exportLines. cbn [app length]. rewrite length_app, Hlen.
      cbn [length]. lia. }
    rewrite nth_error_app2 by (rewrite length_firstn; lia).
    rewrite length_firstn.
    replace (7 + 4 * i - Nat.min (7 + 4 * i) (length (SearchBar.exportLines s today)))%nat
      with 0%nat by lia.
    destruct (skipn (7 + 4 * i)%nat (SearchBar.exportLines s today)) as [|l ls];
      [discriminate Hfirst|].
    cbn [firstn] in Hfirst. injection Hfirst as -> _. reflexivity.
  - unfold SearchBar.exportLines. cbn [app length]. rewrite length_app, Hlen.
    cbn [length]. lia.
Qed.

Lemma export_numbers_results_witness :
  length (SearchBar.exportLines shepherdState [])
  = (12 + 4 * length (SearchBar.searchResults shepherdState))%nat.
Proof.
  destruct (SearchBar.searchResults shepherdState) as [|r rs] eqn:Hres;
    [discriminate Hres|].
  rewrite <- Hres.
  destruct (export_numbers_results shepherdState [] 0 r) as (_ & _ & H);
    [rewrite Hres; reflexivity | exact H].
Defined.

(** ** The original-language viewer *)

Section Viewer.
Import Sword LanguageViewer.

Lemma availableBooks_language (tab : Language) (book : jsstring) :
  includesBook (availableBooks tab) book = true -> getLanguage book = Some tab.
Proof.
  unfold getLanguage, getTestament. destruct tab; cbn [availableBooks]; intros H.
  - rewrite H. reflexivity.
  - destruct (includesBook OT_BOOKS book) eqn:Hot.
    + rewrite (testaments_disjoint book Hot) in H. discriminate H.
    + rewrite H. reflexivity.
Qed.

Lemma handleTabChange_book (tab : Language) (s : Selection) :
  currentTab (handleTabChange tab s) = tab
  /\ includesBook (availableBooks tab) (selectedBook (handleTabChange tab s)) = true.
Proof.
  unfold handleTabChange. destruct tab; cbn [availableBooks].
  - destruct (includesBook OT_BOOKS (selectedBook s)) eqn:H; cbn [negb];
      split; try reflexivity; first [exact H | vm_compute; reflexivity].
  - destruct (includesBook NT_BOOKS (selectedBook s)) eqn:H; cbn [negb];
      split; try reflexivity; first [exact H | vm_compute; reflexivity].
Qed.
End Viewer.

(** X23.  After a change of tab the selected book is a book of the tab:
    a book of the other testament is replaced by the first chapter and
    verse of Genesis or John, a book of the tab is kept with its chapter
    and verse; the reactive block that follows the book leaves the
    selection as it is, and the verse that is loaded then, whatever
    Hebrew lookups were made before, is a verse of the selected book in
    the language of the tab. *)
Theorem tab_change_selects_book_of_tab
        (tab : Sword.Language) (s : LanguageViewer.Selection)
        (calls : list Sword.HebrewCall) (now_check now_store : Z)
        (outcome : Http.FetchOutcome) :
  let s' := LanguageViewer.handleTabChange tab s in
  LanguageViewer.currentTab s' = tab
  /\ In (LanguageViewer.selectedBook s') (LanguageViewer.availableBooks tab)
  /\ Sword.getLanguage (LanguageViewer.selectedBook s') = Some tab
  /\ (In (LanguageViewer.selectedBook s) (LanguageViewer.availableBooks tab) ->
      LanguageViewer.selectedBook s' = LanguageViewer.selectedBook s
      /\ LanguageViewer.selectedChapter s' = LanguageViewer.selectedChapter s
      /\ LanguageViewer.selectedVerse s' = LanguageViewer.selectedVerse s)
  /\ (~ In (LanguageViewer.selectedBook s) (LanguageViewer.availableBooks tab) ->
      LanguageViewer.selectedBook s'
      = match tab with
        | Sword.hebrew => JSString.lit "Genesis"
        | Sword.greek => JSString.lit "John"
        end
      /\ LanguageViewer.selectedChapter s' = 1%float
      /\ LanguageViewer.selectedVerse s' = 1%float)
  /\ LanguageViewer.autoSwitch s' = s'
  /\ exists v : Sword.VerseText,
       Sword.result
         (LanguageViewer.loadVerse s' (Sword.afterCalls ∅ calls)
            now_check now_store outcome)
       = Sword.Verse v
       /\ Sword.vt_language v = tab
       /\ Sword.vt_book v = LanguageViewer.selectedBook s'.
Proof.
  intros s'. destruct (handleTabChange_book tab s) as [Htab Hbook].
  fold s' in Htab, Hbook.
  pose proof (availableBooks_language tab _ Hbook) as Hlang.
  split; [exact Htab|]. split; [apply includesBook_In; exact Hbook|].
  split; [exact Hlang|]. split; [|split; [|split]].
  - intros Hin. apply includesBook_In in Hin. subst s'.
    unfold LanguageViewer.handleTabChange.
    destruct tab; cbn [LanguageViewer.availableBooks] in Hin; rewrite Hin;
      repeat split.
  - intros Hout. assert (Hf : Sword.includesBook (LanguageViewer.availableBooks tab)
                                (LanguageViewer.selectedBook s) = false).
    { apply not_true_iff_false. intros E. apply Hout.
      apply includesBook_In. exact E. }
    subst s'. unfold LanguageViewer.handleTabChange.
    destruct tab; cbn [LanguageViewer.availableBooks] in Hf; rewrite Hf;
      repeat split.
  - unfold LanguageViewer.autoSwitch. rewrite Htab.
    unfold Sword.getLanguage in Hlang.
    destruct (Sword.getTestament (LanguageViewer.selectedBook s')) as [[|]|], tab;
      try discriminate Hlang; reflexivity.
  - unfold LanguageViewer.loadVerse. rewrite Htab. destruct tab.
    + pose proof (afterCalls_own calls ∅ empty_own) as Hown.
      unfold Sword.getHebrewText, Sword.cacheGet.
      destruct (Sword.afterCalls ∅ calls !! _) as [e|] eqn:Hk.
      * destruct (Hown _ _ Hk) as (b & c & v & Hkey & Hdata).
        apply hebrewKey_inj in Hkey as (<- & _ & _).
        destruct (now_check - Sword.timestamp e <? Sword.CACHE_TTL).
        -- cbn [Sword.result]. rewrite Hdata. eexists. repeat split.
        -- cbn [Sword.USE_MOCK_DATA Sword.result]. eexists. repeat split.
      * cbn [Sword.USE_MOCK_DATA Sword.result]. eexists. repeat split.
    + unfold Sword.getGreekText. cbn [Sword.USE_MOCK_DATA Sword.result].
      eexists. repeat split.
Qed.
